(** * Spyder LSP client: [spyder/plugins/completion/languageserver/client.py]

    A shallow embedding of the [LSPClient] class: the liveness poll
    ([is_down]), the outbound path ([send], [perform_request]), the inbound
    dispatch loop ([on_msg_received]), the initialize handshake
    ([initialize], [process_server_capabilities]) and the launch of the
    transport and the server ([__init__], [start], [stop]), followed by the
    properties of the request correlator, the retry loop, the liveness
    monitor, the capability merge, the handshake and the launch.

    Conventions.
    - Python objects are [Value]s; a [dict] received from or handed to the
      outside is an association list in insertion order, the tables owned by
      the client ([req_status], [req_reply], [server_capabilites] and the two
      registries) are [gmap]s.
    - Methods are computations in the monad [M]: they read and write the
      [World] (the attributes of the instance, the module global they
      mutate and the surroundings they observe) and either return or raise.
      Python keeps every mutation made before an exception, so does [M].
    - Time is counted in milliseconds: [timeout = 1] is [1000] and
      [time.sleep(.1)] is [100] plus what the scheduler adds.
    - Signals, log records, accepted socket writes and calls into code that
      lives outside this file are appended to one chronological [trace].
    - Code of other modules is either a parameter of the session ([Config])
      or opaque: a handler or callback that is not defined in this file is
      recorded as a [call] and has no effect on the session.

    Layout: the embedding; the vocabulary of the statements and the sample
    sessions used as instances; the properties. *)

From Stdlib Require Import ZArith Ascii String List Sorted Lia.
From stdpp Require Import gmap strings list fin_maps pretty.

Local Open Scope Z_scope.

(** * The embedding *)

(** ** Python values *)

#[local] Set Warnings "-register-all".

Inductive Value : Type :=
| VNone
| VBool (b : bool)
| VInt (z : Z)
| VStr (s : string)
| VList (l : list Value)
| VDict (d : list (string * Value))
| VFunc (name : string).

(** A Python [dict] with string keys, in insertion order. *)
Abbreviation Dict := (list (string * Value)).

(** [bool(v)] *)
Definition truthy (v : Value) : bool :=
  match v with
  | VNone => false
  | VBool b => b
  | VInt z => negb (Z.eqb z 0)
  | VStr s => negb (String.eqb s "")
  | VList l => match l with [] => false | _ => true end
  | VDict d => match d with [] => false | _ => true end
  | VFunc _ => true
  end.

(** [isinstance(v, int)]: [bool] is a subclass of [int]. *)
Definition isinstance_int (v : Value) : bool :=
  match v with
  | VInt _ | VBool _ => true
  | _ => false
  end.

(** [v is None] *)
Definition is_None (v : Value) : bool :=
  match v with VNone => true | _ => false end.

(** [d.get(k)] *)
Fixpoint dict_get (k : string) (d : Dict) : option Value :=
  match d with
  | [] => None
  | (k', v) :: d' => if String.eqb k k' then Some v else dict_get k d'
  end.

(** [k in d] *)
Definition dict_mem (k : string) (d : Dict) : bool :=
  match dict_get k d with Some _ => true | None => false end.

(** [d[k] = v]: an existing key keeps its position, a new one goes last. *)
Fixpoint dict_set (k : string) (v : Value) (d : Dict) : Dict :=
  match d with
  | [] => [(k, v)]
  | (k', v') :: d' =>
      if String.eqb k k' then (k', v) :: d' else (k', v') :: dict_set k v d'
  end.

(** [d.pop(k)] for a key that is present. An association list stands for
    the [dict] in which the first binding of a key counts, so popping
    leaves no binding of the key behind. *)
Fixpoint dict_pop (k : string) (d : Dict) : Dict :=
  match d with
  | [] => []
  | (k', v') :: d' =>
      if String.eqb k k' then dict_pop k d' else (k', v') :: dict_pop k d'
  end.

(** [m.update(d)] on a table of the client. *)
Definition dict_update (d : Dict) (m : gmap string Value) : gmap string Value :=
  list_to_map d ∪ m.

(** [v.get(k, default)]; only a [dict] has the method, and [None] stands
    for the [AttributeError] of every other value. *)
Definition get_or (v : Value) (k : string) (default : Value) : option Value :=
  match v with
  | VDict d =>
      Some (match dict_get k d with Some x => x | None => default end)
  | _ => None
  end.

(** The elements of a list when all of them are [str]s. *)
Fixpoint strings (l : list Value) : option (list string) :=
  match l with
  | [] => Some []
  | VStr s :: l =>
      match strings l with
      | Some ss => Some (s :: ss)
      | None => None
      end
  | _ :: _ => None
  end.

(** [''.join(v)]: the strings of a list, the characters of a string, the
    keys of a [dict]; [None] stands for [TypeError]. *)
Definition join (v : Value) : option string :=
  match v with
  | VStr s => Some s
  | VList l =>
      match strings l with
      | Some ss => Some (String.concat "" ss)
      | None => None
      end
  | VDict d => Some (String.concat "" (map fst d))
  | _ => None
  end.

(** [s + v] for a [str] [s]; [None] stands for [TypeError]. *)
Definition concat_str (s : string) (v : Value) : option string :=
  match v with
  | VStr t => Some (s +:+ t)
  | _ => None
  end.

(** ** Messages *)

(** Modelled from the spec: [transport.MessageKind] is not part of this
    file; a message is sent as a request, a response or a notification. *)
Inductive MessageKind : Type := REQUEST | RESPONSE | NOTIFICATION.

(** A message id as it travels: an [int] or [None]. *)
Abbreviation IdVal := (option Z).

(** The three shapes of [msg] built by [send]. *)
Inductive OutMsg : Type :=
| Request (id : Z) (method : string) (params : Dict)
| Response (id : Z) (result : Dict)
| Notification (method : string) (params : Dict).

(** An inbound [resp]; a field is [None] when the key is absent.
    [resp['error']] is whatever the server has put there. *)
Record InMsg : Type := mkInMsg {
  in_id : option IdVal;
  in_method : option string;
  in_params : option Value;
  in_result : option Value;
  in_error : option Value
}.

(** ** Environment *)

(** [QProcess.ProcessState] *)
Inductive ProcessState : Type := NotRunning | Starting | Running.

(** What the liveness queries observe: the state of the two [QProcess]es,
    [psutil.pid_exists(stdio_pid)] and [psutil.Process(stdio_pid).status()]
    ([None] when it raises [NoSuchProcess]). *)
Record Procs : Type := mkProcs {
  transport_state : ProcessState;
  server_state : ProcessState;
  pid_exists : bool;
  pid_status : option string
}.

Definition STATUS_ZOMBIE : string := "zombie".

(** ** Trace *)

Inductive LogRecord : Type :=
| LogTransportDown (lang : string)
| LogServerDown (lang : string)
| LogRequest (lang method : string)
| LogQueueFull
| LogResponse (lang method : string)
| LogResponseError (lang : string) (err : Value).

Inductive Event : Type :=
| sig_initialize (caps : gmap string Value) (lang : string)
| sig_server_error (text : string)
| sig_went_down (lang : string)
| send_pyobj (msg : OutMsg)
| call (f : string) (args : list Value)
| logged (r : LogRecord).

Definition is_signal (e : Event) : bool :=
  match e with
  | sig_initialize _ _ | sig_server_error _ | sig_went_down _ => true
  | _ => false
  end.

Definition is_went_down (e : Event) : bool :=
  match e with sig_went_down _ => true | _ => false end.

Definition is_send_pyobj (e : Event) : bool :=
  match e with send_pyobj _ => true | _ => false end.

Definition is_call (e : Event) : bool :=
  match e with call _ _ => true | _ => false end.

(** ** The session *)

(** Modelled from the spec: the decorators [send_request] and
    [send_notification] and the provider mix-in are not part of this file.
    A sender "builds a request/notification payload" which then goes
    through [send]; a mix-in sender is its method, its kind and the payload
    it builds from the caller's [params]. *)
Record Sender : Type := mkSender {
  s_method : string;
  s_kind : MessageKind;
  s_build : Dict -> Dict
}.

(** What is fixed once the client has started: the attributes that are not
    assigned again, the two registries, the constants and settings that come
    from other modules ([ClientConstants.CANCEL], [get_debug_level()],
    [DEV]), and how the outside will behave. *)
Record Config : Type := mkConfig {
  language : string;
  transport : bool;                       (* [self.transport] is set *)
  server : bool;                          (* [self.server] is set *)
  external_server : bool;
  transport_pid : Z;                      (* [self.transport.processId()] *)
  root_uri : string;                      (* [Path(abspath(folder)).as_uri()] *)
  plugin_configurations : Dict;
  client_capabilites : Value;
  handler_registry : gmap string string;  (* filled by [class_register] *)
  sender_registry : gmap string string;
  mixin_senders : string -> option Sender;
  CANCEL : string;                        (* [ClientConstants.CANCEL] *)
  get_debug_level : Z;
  DEV : bool;
  zmq_again : nat -> bool;     (* the k-th [send_pyobj] raises [Again] *)
  sleep_extra : nat -> nat;    (* overshoot of the k-th [time.sleep] *)
  raises_RuntimeError : string -> bool    (* an outside callable that raises *)
}.

(** The state of a session and of its surroundings: the attributes of the
    instance that the methods assign, the module global they mutate, what
    they observe of the outside, and the trace they leave. *)
Record World : Type := mkWorld {
  cfg : Config;
  (* attributes *)
  stdio_pid : Value;
  notifier_enabled : bool;
  initialized : bool;
  ready_to_close : bool;
  request_seq : Z;
  req_status : gmap Z string;
  req_reply : gmap (option Z) Value;
  server_capabilites : gmap string Value;
  server_unresponsive : bool;
  transport_unresponsive : bool;
  (* module global *)
  TEXT_DOCUMENT_SYNC_OPTIONS : list (string * Value);
  (* surroundings *)
  procs : Procs;               (* the supervised processes, as of now *)
  clock : Z;                   (* [time.time()], in ms *)
  zmq_calls : nat;             (* calls of [send_pyobj] so far *)
  sleeps : nat;                (* calls of [time.sleep] so far *)
  inbox : list InMsg;          (* what [recv_pyobj] will hand out *)
  (* observations *)
  trace : list Event
}.

(** [set_f v w] is [w] with field [f] replaced by [v]. *)

Definition set_stdio_pid (v : Value) (w : World) : World :=
  mkWorld (cfg w) v (notifier_enabled w) (initialized w) (ready_to_close w)
    (request_seq w) (req_status w) (req_reply w) (server_capabilites w)
    (server_unresponsive w) (transport_unresponsive w)
    (TEXT_DOCUMENT_SYNC_OPTIONS w) (procs w) (clock w) (zmq_calls w)
    (sleeps w) (inbox w) (trace w).

Definition set_notifier_enabled (v : bool) (w : World) : World :=
  mkWorld (cfg w) (stdio_pid w) v (initialized w) (ready_to_close w)
    (request_seq w) (req_status w) (req_reply w) (server_capabilites w)
    (server_unresponsive w) (transport_unresponsive w)
    (TEXT_DOCUMENT_SYNC_OPTIONS w) (procs w) (clock w) (zmq_calls w)
    (sleeps w) (inbox w) (trace w).

Definition set_initialized (v : bool) (w : World) : World :=
  mkWorld (cfg w) (stdio_pid w) (notifier_enabled w) v (ready_to_close w)
    (request_seq w) (req_status w) (req_reply w) (server_capabilites w)
    (server_unresponsive w) (transport_unresponsive w)
    (TEXT_DOCUMENT_SYNC_OPTIONS w) (procs w) (clock w) (zmq_calls w)
    (sleeps w) (inbox w) (trace w).

Definition set_ready_to_close (v : bool) (w : World) : World :=
  mkWorld (cfg w) (stdio_pid w) (notifier_enabled w) (initialized w) v
    (request_seq w) (req_status w) (req_reply w) (server_capabilites w)
    (server_unresponsive w) (transport_unresponsive w)
    (TEXT_DOCUMENT_SYNC_OPTIONS w) (procs w) (clock w) (zmq_calls w)
    (sleeps w) (inbox w) (trace w).

Definition set_request_seq (v : Z) (w : World) : World :=
  mkWorld (cfg w) (stdio_pid w) (notifier_enabled w) (initialized w)
    (ready_to_close w) v (req_status w) (req_reply w)
    (server_capabilites w) (server_unresponsive w)
    (transport_unresponsive w) (TEXT_DOCUMENT_SYNC_OPTIONS w) (procs w)
    (clock w) (zmq_calls w) (sleeps w) (inbox w) (trace w).

Definition set_req_status (v : gmap Z string) (w : World) : World :=
  mkWorld (cfg w) (stdio_pid w) (notifier_enabled w) (initialized w)
    (ready_to_close w) (request_seq w) v (req_reply w)
    (server_capabilites w) (server_unresponsive w)
    (transport_unresponsive w) (TEXT_DOCUMENT_SYNC_OPTIONS w) (procs w)
    (clock w) (zmq_calls w) (sleeps w) (inbox w) (trace w).

Definition set_req_reply (v : gmap (option Z) Value) (w : World) : World :=
  mkWorld (cfg w) (stdio_pid w) (notifier_enabled w) (initialized w)
    (ready_to_close w) (request_seq w) (req_status w) v
    (server_capabilites w) (server_unresponsive w)
    (transport_unresponsive w) (TEXT_DOCUMENT_SYNC_OPTIONS w) (procs w)
    (clock w) (zmq_calls w) (sleeps w) (inbox w) (trace w).

Definition set_server_capabilites (v : gmap string Value) (w : World) : World :=
  mkWorld (cfg w) (stdio_pid w) (notifier_enabled w) (initialized w)
    (ready_to_close w) (request_seq w) (req_status w) (req_reply w) v
    (server_unresponsive w) (transport_unresponsive w)
    (TEXT_DOCUMENT_SYNC_OPTIONS w) (procs w) (clock w) (zmq_calls w)
    (sleeps w) (inbox w) (trace w).

Definition set_server_unresponsive (v : bool) (w : World) : World :=
  mkWorld (cfg w) (stdio_pid w) (notifier_enabled w) (initialized w)
    (ready_to_close w) (request_seq w) (req_status w) (req_reply w)
    (server_capabilites w) v (transport_unresponsive w)
    (TEXT_DOCUMENT_SYNC_OPTIONS w) (procs w) (clock w) (zmq_calls w)
    (sleeps w) (inbox w) (trace w).

Definition set_transport_unresponsive (v : bool) (w : World) : World :=
  mkWorld (cfg w) (stdio_pid w) (notifier_enabled w) (initialized w)
    (ready_to_close w) (request_seq w) (req_status w) (req_reply w)
    (server_capabilites w) (server_unresponsive w) v
    (TEXT_DOCUMENT_SYNC_OPTIONS w) (procs w) (clock w) (zmq_calls w)
    (sleeps w) (inbox w) (trace w).

Definition set_TEXT_DOCUMENT_SYNC_OPTIONS (v : list (string * Value)) (w : World) : World :=
  mkWorld (cfg w) (stdio_pid w) (notifier_enabled w) (initialized w)
    (ready_to_close w) (request_seq w) (req_status w) (req_reply w)
    (server_capabilites w) (server_unresponsive w)
    (transport_unresponsive w) v (procs w) (clock w) (zmq_calls w)
    (sleeps w) (inbox w) (trace w).

Definition set_procs (v : Procs) (w : World) : World :=
  mkWorld (cfg w) (stdio_pid w) (notifier_enabled w) (initialized w)
    (ready_to_close w) (request_seq w) (req_status w) (req_reply w)
    (server_capabilites w) (server_unresponsive w)
    (transport_unresponsive w) (TEXT_DOCUMENT_SYNC_OPTIONS w) v (clock w)
    (zmq_calls w) (sleeps w) (inbox w) (trace w).

Definition set_clock (v : Z) (w : World) : World :=
  mkWorld (cfg w) (stdio_pid w) (notifier_enabled w) (initialized w)
    (ready_to_close w) (request_seq w) (req_status w) (req_reply w)
    (server_capabilites w) (server_unresponsive w)
    (transport_unresponsive w) (TEXT_DOCUMENT_SYNC_OPTIONS w) (procs w) v
    (zmq_calls w) (sleeps w) (inbox w) (trace w).

Definition set_zmq_calls (v : nat) (w : World) : World :=
  mkWorld (cfg w) (stdio_pid w) (notifier_enabled w) (initialized w)
    (ready_to_close w) (request_seq w) (req_status w) (req_reply w)
    (server_capabilites w) (server_unresponsive w)
    (transport_unresponsive w) (TEXT_DOCUMENT_SYNC_OPTIONS w) (procs w)
    (clock w) v (sleeps w) (inbox w) (trace w).

Definition set_sleeps (v : nat) (w : World) : World :=
  mkWorld (cfg w) (stdio_pid w) (notifier_enabled w) (initialized w)
    (ready_to_close w) (request_seq w) (req_status w) (req_reply w)
    (server_capabilites w) (server_unresponsive w)
    (transport_unresponsive w) (TEXT_DOCUMENT_SYNC_OPTIONS w) (procs w)
    (clock w) (zmq_calls w) v (inbox w) (trace w).

Definition set_inbox (v : list InMsg) (w : World) : World :=
  mkWorld (cfg w) (stdio_pid w) (notifier_enabled w) (initialized w)
    (ready_to_close w) (request_seq w) (req_status w) (req_reply w)
    (server_capabilites w) (server_unresponsive w)
    (transport_unresponsive w) (TEXT_DOCUMENT_SYNC_OPTIONS w) (procs w)
    (clock w) (zmq_calls w) (sleeps w) v (trace w).

Definition set_trace (v : list Event) (w : World) : World :=
  mkWorld (cfg w) (stdio_pid w) (notifier_enabled w) (initialized w)
    (ready_to_close w) (request_seq w) (req_status w) (req_reply w)
    (server_capabilites w) (server_unresponsive w)
    (transport_unresponsive w) (TEXT_DOCUMENT_SYNC_OPTIONS w) (procs w)
    (clock w) (zmq_calls w) (sleeps w) (inbox w) v.

(** ** The monad *)

(** The exceptions the methods can end with. [OutOfFuel] is not one of
    Python's: it marks a loop of the model that was given too few rounds,
    and [send] never ends with it ([send_spec]). *)
Inductive Exn : Type :=
| KeyError (k : string)
| TypeError
| IndexError
| AttributeError
| RuntimeError
| OutOfFuel.

Inductive Outcome (A : Type) : Type :=
| Ret (a : A)
| Raise (e : Exn).
Arguments Ret {A} a.
Arguments Raise {A} e.

(** A method body: it runs in a world and leaves a world, with a result or
    an exception. *)
Definition M (A : Type) : Type := World -> Outcome A * World.

Definition ret {A} (a : A) : M A := fun w => (Ret a, w).

Definition bind {A B} (m : M A) (k : A -> M B) : M B := fun w =>
  match m w with
  | (Ret a, w') => k a w'
  | (Raise e, w') => (Raise e, w')
  end.

Declare Scope M_scope.
Delimit Scope M_scope with M.
Bind Scope M_scope with M.
Notation "x ← y ; z" := (bind y (fun x => z))
  (at level 20, y at level 100, z at level 200, only parsing) : M_scope.
Notation "x ;; z" := (bind x (fun _ => z))
  (at level 100, z at level 200, only parsing, right associativity) : M_scope.
Local Open Scope M_scope.

Definition raise {A} (e : Exn) : M A := fun w => (Raise e, w).
Definition gets {A} (f : World -> A) : M A := fun w => (Ret (f w), w).
Definition asks {A} (f : Config -> A) : M A := fun w => (Ret (f (cfg w)), w).
Definition modify (f : World -> World) : M unit := fun w => (Ret tt, f w).
Definition skip : M unit := ret tt.

(** [try: m except RuntimeError: pass] *)
Definition except_RuntimeError (m : M unit) : M unit := fun w =>
  match m w with
  | (Raise RuntimeError, w') => (Ret tt, w')
  | r => r
  end.

Definition emit (e : Event) : M unit :=
  modify (fun w => set_trace (trace w ++ [e]) w).

Definition log (r : LogRecord) : M unit := emit (logged r).

(** Calling an object that comes from outside this file: the call is
    recorded; the callee may raise [RuntimeError] (a widget that was
    deleted meanwhile), which is all the client is prepared for. *)
Definition call_value (f : Value) (args : list Value) : M unit :=
  match f with
  | VFunc name =>
      emit (call name args);;
      boom ← asks (fun c => raises_RuntimeError c name);
      if boom then raise RuntimeError else skip
  | _ => raise TypeError
  end.

(** [v[k]] *)
Definition getitem (v : Value) (k : string) : M Value :=
  match v with
  | VDict d =>
      match dict_get k d with
      | Some x => ret x
      | None => raise (KeyError k)
      end
  | _ => raise TypeError
  end.

(** The value of an operation that raises [e] where it has none. *)
Definition or_raise {A} (e : Exn) (o : option A) : M A :=
  match o with
  | Some a => ret a
  | None => raise e
  end.

(** [int(i)] for a message id. *)
Definition py_int (i : IdVal) : M Z :=
  match i with
  | Some z => ret z
  | None => raise TypeError
  end.

Definition id_value (i : IdVal) : Value :=
  match i with Some z => VInt z | None => VNone end.

(** ** Constants *)

Definition PENDING : string := "pending".
Definition SERVER_READY : string := "server_ready".

(** [TRACE] *)
Definition TRACE (dev : bool) : string :=
  if dev then "verbose" else "messages".

(** Modelled from the spec: [LSPRequestTypes] is not part of this file; these
    are the protocol's names for the handshake methods the spec lists
    ([initialize], [initialized], [shutdown], [exit]) and for pushing the
    configuration. *)
Definition INITIALIZE : string := "initialize".
Definition INITIALIZED : string := "initialized".
Definition SHUTDOWN : string := "shutdown".
Definition EXIT : string := "exit".
Definition WORKSPACE_CONFIGURATION_CHANGE : string :=
  "workspace/didChangeConfiguration".

(** [timeout = 1] and [time.sleep(.1)], in milliseconds. *)
Definition timeout : Z := 1000.
Definition retry_delay : Z := 100.

(** ** Liveness *)

Definition is_transport_alive : M bool :=
  state ← gets (fun w => transport_state (procs w));
  match state with
  | Starting => ret true
  | Running => ret true
  | NotRunning => ret false
  end.

Definition is_stdio_alive : M bool :=
  p ← gets procs;
  if negb (pid_exists p) then ret false
  else
    let status := match pid_status p with Some s => s | None => "" end in
    if String.eqb status STATUS_ZOMBIE then ret false else ret true.

Definition is_server_alive : M bool :=
  state ← gets (fun w => server_state (procs w));
  match state with
  | Starting => ret true
  | Running => ret true
  | NotRunning => ret false
  end.

(** [x and not alive()] with Python's short circuit. *)
Definition and_not (x : bool) (alive : M bool) : M bool :=
  if x then (a ← alive; ret (negb a)) else ret false.

Definition handle_process_errors : M unit :=
  lang ← asks language;
  emit (sig_went_down lang).

Definition is_down : M bool :=
  lang ← asks language;
  let is_down := false in
  t ← asks transport;
  c ← and_not t is_transport_alive;
  is_down ← (if c then
      log (LogTransportDown lang);;
      u ← gets transport_unresponsive;
      (if negb u then
         modify (set_transport_unresponsive true);;
         emit (sig_went_down lang)
       else skip);;
      ret true
    else ret is_down);
  s ← asks server;
  c ← and_not s is_server_alive;
  is_down ← (if c then
      log (LogServerDown lang);;
      u ← gets server_unresponsive;
      (if negb u then
         modify (set_server_unresponsive true);;
         emit (sig_went_down lang)
       else skip);;
      ret true
    else ret is_down);
  pid ← gets stdio_pid;
  c ← and_not (truthy pid) is_stdio_alive;
  is_down ← (if c then
      log (LogServerDown lang);;
      u ← gets server_unresponsive;
      (if negb u then
         modify (set_server_unresponsive true);;
         emit (sig_went_down lang)
       else skip);;
      ret true
    else ret is_down);
  ret is_down.

(** ** Sending *)

(** [time.time()] *)
Definition time_time : M Z := gets clock.

(** [time.sleep(.1)]: at least the delay asked for. *)
Definition sleep : M unit :=
  modify (fun w =>
    set_sleeps (S (sleeps w))
      (set_clock (clock w + retry_delay
                  + Z.of_nat (sleep_extra (cfg w) (sleeps w))) w)).

(** [self.zmq_out_socket.send_pyobj(msg, flags=zmq.NOBLOCK)]: [false] stands
    for [zmq.error.Again]. *)
Definition try_send_pyobj (msg : OutMsg) : M bool := fun w =>
  let k := zmq_calls w in
  let w := set_zmq_calls (S k) w in
  if zmq_again (cfg w) k then (Ret false, w)
  else (Ret true, set_trace (trace w ++ [send_pyobj msg]) w).

(** The [while True] of [send]. One round either returns or sleeps, and the
    rounds that sleep are bounded by the budget ([send_loop_terminates]), so
    the fuel is never the reason to stop. *)
Fixpoint send_loop (fuel : nat) (msg : OutMsg) (_id timeout_time : Z)
  : M (option Z) :=
  match fuel with
  | O => raise OutOfFuel
  | S fuel =>
      ok ← try_send_pyobj msg;
      if ok then
        modify (fun w => set_request_seq (request_seq w + 1) w);;
        ret (Some _id)
      else
        now ← time_time;
        if now >? timeout_time then
          lang ← asks language;
          emit (sig_went_down lang);;
          ret None
        else
          i ← gets initialized;
          (if i then log LogQueueFull else skip);;
          sleep;;
          send_loop fuel msg _id timeout_time
  end.

(** Rounds that can start before the clock is past [timeout_time]:
    [timeout / retry_delay + 1], and one more that sees it past. *)
Definition send_rounds : nat := 12.

Definition send (method : string) (params : Dict) (kind : MessageKind)
  : M (option Z) :=
  down ← is_down;
  if down then ret None
  else
    cancel ← asks CANCEL;
    if dict_mem cancel params then ret None
    else
      _id ← gets request_seq;
      msg ← match kind with
            | REQUEST =>
                modify (fun w =>
                  set_req_status (<[request_seq w := method]> (req_status w)) w);;
                ret (Request _id method params)
            | RESPONSE => ret (Response _id params)
            | NOTIFICATION => ret (Notification method params)
            end;
      lang ← asks language;
      log (LogRequest lang method);;
      start_time ← time_time;
      let timeout_time := start_time + timeout in
      send_loop send_rounds msg _id timeout_time.

(** Modelled from the spec: the decorators are not part of this file; a
    decorated method "builds a request/notification payload", which is sent
    with the decorator's method and kind, and the call returns what [send]
    returns. *)
Definition send_request (method : string) (req : M Dict) : M (option Z) :=
  params ← req;
  send method params REQUEST.

Definition send_notification (method : string) (req : M Dict) : M (option Z) :=
  params ← req;
  send method params NOTIFICATION.

(** ** Handshake *)

Definition initialize (params : Value) : M (option Z) :=
  send_request INITIALIZE
    (pid ← getitem params "pid";
     modify (set_stdio_pid pid);;
     ext ← asks external_server;
     pid ← (if negb ext then
              t ← asks transport;
              if t then (tpid ← asks transport_pid; ret (VInt tpid))
              else raise AttributeError
            else ret VNone);
     uri ← asks root_uri;
     caps ← asks client_capabilites;
     dev ← asks DEV;
     ret [("processId", pid); ("rootUri", VStr uri);
          ("capabilities", caps); ("trace", VStr (TRACE dev))]).


Definition handle_shutdown (response : Value) : M unit :=
  modify (set_ready_to_close true).

Definition exit : M (option Z) :=
  send_notification EXIT (ret []).

Definition initialized_call : M (option Z) :=
  send_notification INITIALIZED (ret []).

(** Modelled from the spec: [send_plugin_configurations] belongs to the
    provider mix-in; "plugin-specific configuration is pushed", as a
    notification carrying the settings. *)
Definition send_plugin_configurations (configurations : Dict) : M (option Z) :=
  send_notification WORKSPACE_CONFIGURATION_CHANGE
    (ret [("settings", VDict configurations)]).

Definition as_dict (v : Value) : M Dict :=
  match v with
  | VDict d => ret d
  | _ => raise TypeError
  end.

(** [v[k] = x] on a [dict]. *)
Definition setitem (v : Value) (k : string) (x : Value) : Value :=
  match v with
  | VDict d => VDict (dict_set k x d)
  | _ => v
  end.

(** The handler updates the [dict] it is handed in place; Python returns
    nothing, the value returned here is that [dict] as the updates leave it.

    The entry stored under ['textDocumentSync'] is the module-level
    [TEXT_DOCUMENT_SYNC_OPTIONS] object itself, whose ['change'] is then
    overwritten: the global is updated and the entry reads it back. Within
    a session the global changes only here, together with the entry, so the
    entry and the object it stands for never differ. *)
Definition process_server_capabilities (response : Value) : M Value :=
  confs ← asks plugin_configurations;
  send_plugin_configurations confs;;
  modify (set_initialized true);;
  capabilites ← getitem response "capabilities";
  sync ← getitem capabilites "textDocumentSync";
  capabilites ← as_dict capabilites;
  capabilites ← (if isinstance_int sync then
      let kind := sync in
      modify (fun w =>
        set_TEXT_DOCUMENT_SYNC_OPTIONS
          (dict_set "change" kind (TEXT_DOCUMENT_SYNC_OPTIONS w)) w);;
      options ← gets TEXT_DOCUMENT_SYNC_OPTIONS;
      ret (dict_set "textDocumentSync" (VDict options) capabilites)
    else ret capabilites);
  sync ← getitem (VDict capabilites) "textDocumentSync";
  capabilites ← (if is_None sync then
      ret (dict_pop "textDocumentSync" capabilites)
    else ret capabilites);
  modify (fun w =>
    set_server_capabilites
      (dict_update capabilites (server_capabilites w)) w);;
  merged ← gets server_capabilites;
  lang ← asks language;
  emit (sig_initialize merged lang);;
  initialized_call;;
  ret (setitem response "capabilities" (VDict capabilites)).

(** ** Receiving *)

Definition newline : string := String (ascii_of_nat 10) EmptyString.

(** [getattr(self, handler_name)] applied to its arguments: the handlers of
    this file, and otherwise a method of the provider mix-in. *)
Definition call_handler (handler_name : string) (args : list Value) : M unit :=
  match args with
  | [] => raise TypeError
  | a :: _ =>
      if String.eqb handler_name "initialize" then
        initialize a;; ret tt
      else if String.eqb handler_name "handle_shutdown" then
        handle_shutdown a
      else if String.eqb handler_name "process_server_capabilities" then
        process_server_capabilities a;; ret tt
      else call_value (VFunc handler_name) args
  end.

(** [resp['id']] *)
Definition resp_id (resp : InMsg) : M IdVal :=
  match in_id resp with
  | Some i => ret i
  | None => raise (KeyError "id")
  end.

(** [resp['params']] *)
Definition resp_params (resp : InMsg) : M Value :=
  match in_params resp with
  | Some v => ret v
  | None => raise (KeyError "params")
  end.

(** [req_id in self.req_status]: the keys are the counter's values. *)
Definition status_of (req_id : IdVal) (w : World) : option string :=
  match req_id with
  | Some z => req_status w !! z
  | None => None
  end.

(** [self.req_status.pop(req_id)] *)
Definition pop_status (req_id : IdVal) (w : World) : World :=
  match req_id with
  | Some z => set_req_status (delete z (req_status w)) w
  | None => w
  end.

(** The body of [if get_debug_level() > 0 or DEV:] in the error branch: the
    traceback of the error, followed by its message, goes to the error
    report dialog. *)
Definition report_error (error : Value) : M unit :=
  message ← or_raise AttributeError (get_or error "message" (VStr ""));
  data ← or_raise AttributeError (get_or error "data" (VDict []));
  traceback ← or_raise AttributeError (get_or data "traceback" VNone);
  if negb (is_None traceback) then
    traceback ← or_raise TypeError (join traceback);
    traceback ← or_raise TypeError (concat_str (traceback +:+ newline) message);
    emit (sig_server_error traceback)
  else skip.

(** The body of the receive loop for one [resp]. *)
Definition handle_msg (resp : InMsg) : M unit :=
  lang ← asks language;
  (match in_method resp with
   | Some method => log (LogResponse lang method)
   | None => skip
   end);;
  match in_error resp with
  | Some error =>
      log (LogResponseError lang error);;
      if String.eqb lang "python" then
        level ← asks get_debug_level;
        dev ← asks DEV;
        (if (level >? 0) || dev then report_error error else skip);;
        req_id ← resp_id resp;
        reply ← gets (fun w => req_reply w !! req_id);
        match reply with
        | Some callback =>
            call_value callback [VNone; VDict [("params", VList [])]]
        | None => skip
        end
      else skip
  | None =>
      match in_method resp with
      | Some method =>
          match method with
          | EmptyString => raise IndexError
          | String c _ =>
              if negb (Ascii.eqb c "$") then
                (match in_id resp with
                 | Some i =>
                     n ← py_int i;
                     modify (set_request_seq n)
                 | None => skip
                 end);;
                registry ← asks handler_registry;
                match registry !! method with
                | Some handler_name =>
                    params ← resp_params resp;
                    call_handler handler_name [params]
                | None => skip
                end
              else skip
          end
      | None =>
          match in_result resp with
          | Some result =>
              if negb (is_None result) then
                req_id ← resp_id resp;
                status ← gets (status_of req_id);
                match status with
                | Some req_type =>
                    registry ← asks handler_registry;
                    match registry !! req_type with
                    | Some handler_name =>
                        call_handler handler_name [result; id_value req_id];;
                        modify (pop_status req_id);;
                        modify (fun w =>
                          match req_reply w !! req_id with
                          | Some _ =>
                              set_req_reply (delete req_id (req_reply w)) w
                          | None => w
                          end)
                    | None => skip
                    end
                | None => skip
                end
              else skip
          | None => skip
          end
      end
  end.

(** The [while True] of [on_msg_received] over the messages that
    [recv_pyobj] will hand out; on the empty queue it raises [ZMQError],
    which re-enables the notifier and returns. *)
Fixpoint drain (pending : list InMsg) : M unit :=
  match pending with
  | [] => modify (set_notifier_enabled true)
  | resp :: pending =>
      modify (set_inbox pending);;
      except_RuntimeError (handle_msg resp);;
      drain pending
  end.

Definition on_msg_received : M unit :=
  modify (set_notifier_enabled false);;
  pending ← gets inbox;
  drain pending.

(** ** Requests of the application *)

(** [getattr(self, handler_name)(params)] for a sender: [initialize] takes
    the payload, the other senders of this file take no argument, the rest
    are methods of the provider mix-in. *)
Definition call_sender (handler_name : string) (params : Dict) : M IdVal :=
  if String.eqb handler_name "initialize" then initialize (VDict params)
  else if String.eqb handler_name "shutdown" then raise TypeError
  else if String.eqb handler_name "exit" then raise TypeError
  else if String.eqb handler_name "initialized_call" then raise TypeError
  else
    senders ← asks mixin_senders;
    match senders handler_name with
    | Some s => send (s_method s) (s_build s params) (s_kind s)
    | None => raise AttributeError
    end.

Definition perform_request (method : string) (params : Dict) : M IdVal :=
  registry ← asks sender_registry;
  match registry !! method with
  | Some handler_name =>
      _id ← call_sender handler_name params;
      if dict_mem "response_callback" params then
        flag ← getitem (VDict params) "requires_response";
        if truthy flag then
          callback ← getitem (VDict params) "response_callback";
          modify (fun w =>
            set_req_reply (<[_id := callback]> (req_reply w)) w);;
          ret _id
        else ret _id
      else ret _id
  | None => ret None
  end.

(** ** Construction *)

(** The attributes [__init__] sets, for a session with the given
    configuration, module globals and surroundings. *)
Definition new_client (c : Config) (SERVER_CAPABILITES : gmap string Value)
    (sync_options : Dict) (p : Procs) (now : Z) : World :=
  {| cfg := c;
     stdio_pid := VNone;
     notifier_enabled := false;
     initialized := false;
     ready_to_close := false;
     request_seq := 1;
     req_status := ∅;
     req_reply := ∅;
     server_capabilites := SERVER_CAPABILITES;
     server_unresponsive := false;
     transport_unresponsive := false;
     TEXT_DOCUMENT_SYNC_OPTIONS := sync_options;
     procs := p;
     clock := now;
     zmq_calls := 0;
     sleeps := 0;
     inbox := [];
     trace := [] |}.

(** ** Starting and stopping *)

(** The part of the class that launches the two processes: [__init__],
    [create_transport_sockets], [start_server], [start_transport], [start]
    and [stop]. What these methods do to Qt, ZeroMQ and the file system is
    recorded, in order, in the [events] of the client. *)
Module Launch.

Inductive Error : Type :=
| KeyError (key : string)
| AssertionError (error : string)
| ValueError
| IndexError.

(** An element of [transport_args]: the ports are [int]s until
    [start_transport] maps [str] over the list. *)
Inductive Arg : Type :=
| AStr (s : string)
| AInt (n : Z).

Definition str (a : Arg) : string :=
  match a with
  | AStr s => s
  | AInt n => pretty n
  end.

(** [s.split(' ')] *)
Fixpoint split (s : string) : list string :=
  match s with
  | EmptyString => [EmptyString]
  | String c s =>
      if Ascii.eqb c " " then EmptyString :: split s
      else match split s with
           | word :: words => String c word :: words
           | [] => [String c EmptyString]
           end
  end.

(** [s[1:]] *)
Definition slice_from_1 (s : string) : string :=
  match s with
  | EmptyString => EmptyString
  | String _ s => s
  end.

(** [server_settings]: the dictionary of a server's configuration, its
    values typed as the configuration writes them; [None] is an absent
    key. *)
Record ServerSettings : Type := {
  external : option bool;
  port : option Z;
  host : option string;
  cmd : option string;
  stdio_setting : option bool;
  configurations : option Dict;
  args : option string }.

(** What the methods ask of the interpreter, the operating system and the
    modules outside this file. [format fmt host port] is
    [fmt.format(host=host, port=port)], [bind_to_random_port k] the port
    ZeroMQ picks for the [k]-th socket bound. *)
Record Host : Type := {
  sys_executable : string;
  sys_path : list string;
  os_pathsep : string;
  os_getpid : Z;
  osp_join : string -> string -> string;
  osp_dirname : string -> string;
  osp_exists : string -> bool;
  LOCATION : string;
  select_port : Z -> Z;
  format : string -> string -> Z -> Error + string;
  get_debug_level : Z;
  get_conf_path : string -> string;
  DEV : bool;
  running_under_pytest : bool;
  bind_to_random_port : nat -> Z;
  getsockopt_FD : Z }.

Inductive Process : Type := Server | Transport.

Inductive ChannelMode : Type := MergedChannels | SeparateChannels.

Inductive Level : Type := DEBUG | INFO.

Inductive Event : Type :=
| zmq_Context
| context_socket
| set_hwm (n : Z)
| bound (port : Z)
| makedirs (path : string)
| mkdir (path : string)
| logged (level : Level) (msg : string)
| QProcess (p : Process)
| errorOccurred_connect (p : Process)
| setWorkingDirectory (p : Process) (cwd : option string)
| setProcessChannelMode (p : Process) (mode : ChannelMode)
| setProcessEnvironment (p : Process) (env : list (string * string))
| setStandardOutputFile (p : Process) (file : string)
| setStandardErrorFile (p : Process) (file : string)
| process_start (p : Process) (program : string) (arguments : list string)
| kill (p : Process)
| QSocketNotifier (fd : Z)
| activated_connect
| activated_disconnect
| setEnabled (enabled : bool)
| context_destroy.

(** The attributes of the instance that the launch reads or writes
    ([transport], [server] and [notifier] say whether the attribute is set),
    the sockets bound and the directories made so far, and the events. *)
Record Client : Type := mkClient {
  language : string;
  folder : string;
  server_port : Z;
  server_host : string;
  transport_args : list Arg;
  server_args : list string;
  external_server : bool;
  stdio : bool;
  plugin_configurations : Dict;
  zmq_out_port : option Z;
  zmq_in_port : option Z;
  transport : bool;
  server : bool;
  notifier : bool;
  binds : nat;
  made : list string;
  events : list Event }.

Definition set_transport_args (v : list Arg) (c : Client) : Client :=
  mkClient (language c) (folder c) (server_port c) (server_host c) v
    (server_args c) (external_server c) (stdio c) (plugin_configurations c)
    (zmq_out_port c) (zmq_in_port c) (transport c) (server c) (notifier c)
    (binds c) (made c) (events c).

Definition set_server_args (v : list string) (c : Client) : Client :=
  mkClient (language c) (folder c) (server_port c) (server_host c)
    (transport_args c) v (external_server c) (stdio c)
    (plugin_configurations c) (zmq_out_port c) (zmq_in_port c) (transport c)
    (server c) (notifier c) (binds c) (made c) (events c).

Definition set_zmq_out_port (v : option Z) (c : Client) : Client :=
  mkClient (language c) (folder c) (server_port c) (server_host c)
    (transport_args c) (server_args c) (external_server c) (stdio c)
    (plugin_configurations c) v (zmq_in_port c) (transport c) (server c)
    (notifier c) (binds c) (made c) (events c).

Definition set_zmq_in_port (v : option Z) (c : Client) : Client :=
  mkClient (language c) (folder c) (server_port c) (server_host c)
    (transport_args c) (server_args c) (external_server c) (stdio c)
    (plugin_configurations c) (zmq_out_port c) v (transport c) (server c)
    (notifier c) (binds c) (made c) (events c).

Definition set_transport (v : bool) (c : Client) : Client :=
  mkClient (language c) (folder c) (server_port c) (server_host c)
    (transport_args c) (server_args c) (external_server c) (stdio c)
    (plugin_configurations c) (zmq_out_port c) (zmq_in_port c) v (server c)
    (notifier c) (binds c) (made c) (events c).

Definition set_server (v : bool) (c : Client) : Client :=
  mkClient (language c) (folder c) (server_port c) (server_host c)
    (transport_args c) (server_args c) (external_server c) (stdio c)
    (plugin_configurations c) (zmq_out_port c) (zmq_in_port c) (transport c)
    v (notifier c) (binds c) (made c) (events c).

Definition set_notifier (v : bool) (c : Client) : Client :=
  mkClient (language c) (folder c) (server_port c) (server_host c)
    (transport_args c) (server_args c) (external_server c) (stdio c)
    (plugin_configurations c) (zmq_out_port c) (zmq_in_port c) (transport c)
    (server c) v (binds c) (made c) (events c).

Definition set_binds (v : nat) (c : Client) : Client :=
  mkClient (language c) (folder c) (server_port c) (server_host c)
    (transport_args c) (server_args c) (external_server c) (stdio c)
    (plugin_configurations c) (zmq_out_port c) (zmq_in_port c) (transport c)
    (server c) (notifier c) v (made c) (events c).

Definition set_made (v : list string) (c : Client) : Client :=
  mkClient (language c) (folder c) (server_port c) (server_host c)
    (transport_args c) (server_args c) (external_server c) (stdio c)
    (plugin_configurations c) (zmq_out_port c) (zmq_in_port c) (transport c)
    (server c) (notifier c) (binds c) v (events c).

Definition set_events (v : list Event) (c : Client) : Client :=
  mkClient (language c) (folder c) (server_port c) (server_host c)
    (transport_args c) (server_args c) (external_server c) (stdio c)
    (plugin_configurations c) (zmq_out_port c) (zmq_in_port c) (transport c)
    (server c) (notifier c) (binds c) (made c) v.

Inductive Result : Type :=
| Ok (c : Client)
| Raised (e : Error) (c : Client).

Definition emit (e : Event) (c : Client) : Client :=
  set_events (events c ++ [e]) c.

Definition stdio_external_error : string :=
  "If server is set to use stdio communication, then it cannot be an external server".

Section Methods.

Context (h : Host).

(** [osp.exists(path)] *)
Definition exists_path (path : string) (c : Client) : bool :=
  osp_exists h path || bool_decide (path ∈ made c).

(** ['{0}_{1}_{2}.log'.format(kind, self.language, os.getpid())] under
    [lsp_logs] in the configuration directory. *)
Definition log_file (kind : string) (c : Client) : string :=
  get_conf_path h
    (osp_join h "lsp_logs"
       (kind +:+ "_" +:+ language c +:+ "_" +:+ pretty (os_getpid h) +:+ ".log")).

(** The [if not osp.exists(...): os.makedirs(...)] of both start methods. *)
Definition ensure_dirs (path : string) (c : Client) : Client :=
  if negb (exists_path path c)
  then set_made (path :: made c) (emit (makedirs path) c)
  else c.

Definition init (server_settings : ServerSettings) (folder language : string)
  : Error + Client :=
  match external server_settings with
  | None => inl (KeyError "external")
  | Some is_external =>
  match port server_settings with
  | None => inl (KeyError "port")
  | Some default_port =>
  let server_port :=
    if negb is_external then select_port h default_port else default_port in
  match host server_settings with
  | None => inl (KeyError "host")
  | Some server_host =>
  let transport_args :=
    [AStr (sys_executable h); AStr "-u";
     AStr (osp_join h (osp_join h (LOCATION h) "transport") "main.py")] in
  let external_server := default false (external server_settings) in
  let stdio := default false (stdio_setting server_settings) in
  if stdio && external_server then inl (AssertionError stdio_external_error)
  else
  let plugin_configurations := default [] (configurations server_settings) in
  let server_args_fmt := default "" (args server_settings) in
  match format h server_args_fmt server_host server_port with
  | inl e => inl e
  | inr server_args_text =>
  let transport_args_text :=
    "--server-host " +:+ server_host +:+ " --server-port "
    +:+ pretty server_port +:+ " " in
  let server_args :=
    if String.eqb language "python" then [sys_executable h; "-m"] else [] in
  match cmd server_settings with
  | None => inl (KeyError "cmd")
  | Some cmd =>
  let server_args := server_args ++ [cmd] in
  let server_args :=
    if (0 <? String.length server_args_text)%nat
    then server_args ++ split server_args_text
    else server_args in
  let transport_args := transport_args ++ map AStr (split transport_args_text) in
  let transport_args := transport_args ++ [AStr "--folder"; AStr folder] in
  let transport_args :=
    transport_args
    ++ [AStr "--transport-debug"; AStr (pretty (get_debug_level h))] in
  inr {| language := language;
         folder := folder;
         server_port := server_port;
         server_host := server_host;
         transport_args :=
           transport_args
           ++ (if negb stdio then [AStr "--external-server"]
               else [AStr "--stdio-server"]);
         server_args := server_args;
         external_server := if negb stdio then external_server else true;
         stdio := stdio;
         plugin_configurations := plugin_configurations;
         zmq_out_port := None;
         zmq_in_port := None;
         transport := false;
         server := false;
         notifier := false;
         binds := 0;
         made := [];
         events := [zmq_Context] |}
  end end end end end.

(** [socket.bind_to_random_port('tcp://127.0.0.1')] *)
Definition bind_socket (c : Client) : Z * Client :=
  let port := bind_to_random_port h (binds c) in
  (port, set_binds (S (binds c)) (emit (bound port) c)).

Definition create_transport_sockets (c : Client) : Client :=
  let c := emit context_socket c in
  let '(zmq_out_port, c) := bind_socket c in
  let c := set_zmq_out_port (Some zmq_out_port) c in
  let c := emit context_socket c in
  let c := emit (set_hwm 0) c in
  let '(zmq_in_port, c) := bind_socket c in
  let c := set_zmq_in_port (Some zmq_in_port) c in
  set_transport_args
    (transport_args c
     ++ [AStr "--zmq-in-port"; AInt zmq_out_port;
         AStr "--zmq-out-port"; AInt zmq_in_port]) c.

(** [self.<p>.start(args[0], args[1:])] *)
Definition start_process (p : Process) (args : list string) (c : Client)
  : Result :=
  match args with
  | [] => Raised IndexError c
  | program :: arguments => Ok (emit (process_start p program arguments) c)
  end.

Definition start_server (c : Client) : Result :=
  if external_server c then Ok c
  else
    let python := String.eqb (language c) "python" in
    let server_log_file :=
      if get_debug_level h >? 0 then Some (log_file "server" c) else None in
    let c :=
      match server_log_file with
      | Some file =>
          let c := ensure_dirs (osp_dirname h file) c in
          let c :=
            if stdio c then
              let c :=
                if python
                then set_server_args (server_args c ++ ["--log-file"; file]) c
                else c in
              set_transport_args
                (transport_args c ++ [AStr "--server-log-file"; AStr file]) c
            else c in
          if python then
            if get_debug_level h =? 2
            then set_server_args (server_args c ++ ["-v"]) c
            else if get_debug_level h =? 3
            then set_server_args (server_args c ++ ["-vv"]) c
            else c
          else c
      | None => c
      end in
    let c :=
      emit (logged INFO
              ("Starting server: " +:+ String.concat " " (server_args c))) c in
    let cwd := if python then Some (get_conf_path h "empty_cwd") else None in
    let c :=
      match cwd with
      | Some cwd =>
          if negb (exists_path cwd c)
          then set_made (cwd :: made c) (emit (mkdir cwd) c)
          else c
      | None => c
      end in
    let c := set_server true (emit (QProcess Server) c) in
    let c := emit (errorOccurred_connect Server) c in
    let c := emit (setWorkingDirectory Server cwd) c in
    let c := emit (setProcessChannelMode Server MergedChannels) c in
    let c :=
      match server_log_file with
      | Some file => emit (setStandardOutputFile Server file) c
      | None => c
      end in
    start_process Server (server_args c) c.

Definition start_transport (c : Client) : Result :=
  let c := set_transport_args (map (fun a => AStr (str a)) (transport_args c)) c in
  let c :=
    emit (logged INFO
            ("Starting transport: "
             +:+ String.concat " " (map str (transport_args c)))) c in
  let c := set_transport true (emit (QProcess Transport) c) in
  let c := emit (errorOccurred_connect Transport) c in
  let c :=
    if DEV h || running_under_pytest h then
      let joined := String.concat (os_pathsep h) (sys_path h) in
      let env :=
        if running_under_pytest h then [("PYTHONPATH", joined)]
        else [("PYTHONPATH", slice_from_1 joined)] in
      emit (setProcessEnvironment Transport env) c
    else c in
  let transport_log_file :=
    if get_debug_level h >? 0 then Some (log_file "transport" c) else None in
  let c :=
    match transport_log_file with
    | Some file => ensure_dirs (osp_dirname h file) c
    | None => c
    end in
  let c :=
    if stdio c then
      let c :=
        set_transport_args (transport_args c ++ map AStr (server_args c)) c in
      let c := emit (setProcessChannelMode Transport SeparateChannels) c in
      match transport_log_file with
      | Some file => emit (setStandardErrorFile Transport file) c
      | None => c
      end
    else
      let c := emit (setProcessChannelMode Transport MergedChannels) c in
      match transport_log_file with
      | Some file => emit (setStandardOutputFile Transport file) c
      | None => c
      end in
  start_process Transport (map str (transport_args c)) c.

Definition start (c : Client) : Result :=
  let c := create_transport_sockets c in
  match start_server c with
  | Raised e c => Raised e c
  | Ok c =>
      match start_transport c with
      | Raised e c => Raised e c
      | Ok c =>
          let c := set_notifier true (emit (QSocketNotifier (getsockopt_FD h)) c) in
          let c := emit activated_connect c in
          Ok (emit (logged DEBUG ("LSP " +:+ language c +:+ " client started!")) c)
      end
  end.

Definition stop (c : Client) : Client :=
  let c := emit (logged INFO ("Stopping " +:+ language c +:+ " client...")) c in
  let c :=
    if notifier c then
      set_notifier false (emit (setEnabled false) (emit activated_disconnect c))
    else c in
  let c := if transport c then emit (kill Transport) c else c in
  let c := emit context_destroy c in
  if server c then emit (kill Server) c else c.

End Methods.

(** *** Vocabulary *)

(** The command lines of the processes started so far, in order. *)
Definition started (c : Client) : list (Process * list string) :=
  omap (fun e =>
          match e with
          | process_start p program arguments => Some (p, program :: arguments)
          | _ => None
          end) (events c).

(** The processes killed so far, in order. *)
Definition killed (c : Client) : list Process :=
  omap (fun e => match e with kill p => Some p | _ => None end) (events c).

(** The verbosity flag a Python server is started with. *)
Definition verbosity (h : Host) (language : string) : list string :=
  if String.eqb language "python" then
    if get_debug_level h =? 2 then ["-v"]
    else if get_debug_level h =? 3 then ["-vv"]
    else []
  else [].

(** The text [__init__] formats for the transport, without the blank it
    ends with. *)
Definition server_address (c : Client) : string :=
  "--server-host " +:+ server_host c +:+ " --server-port "
  +:+ pretty (server_port c).

(** *** Sample hosts and settings *)

(** A workstation at the given debug level, on which a format string reads
    [--host {host} --port {port} --tcp] when it is not empty. *)
Definition workstation (level : Z) : Host :=
  {| sys_executable := "/usr/bin/python3";
     sys_path := [""; "/usr/lib/python3"];
     os_pathsep := ":";
     os_getpid := 31337;
     osp_join := fun a b => a +:+ "/" +:+ b;
     osp_dirname := fun _ => "/home/user/.config/spyder/lsp_logs";
     osp_exists := fun _ => false;
     LOCATION := "/opt/spyder/plugins/completion/languageserver";
     select_port := fun default_port => default_port + 1;
     format := fun fmt host port =>
       inr (if String.eqb fmt "" then ""
            else "--host " +:+ host +:+ " --port " +:+ pretty port +:+ " --tcp");
     get_debug_level := level;
     get_conf_path := fun name => "/home/user/.config/spyder/" +:+ name;
     DEV := false;
     running_under_pytest := false;
     bind_to_random_port := fun k => 50000 + Z.of_nat k;
     getsockopt_FD := 9 |}.

(** A server the client starts itself and talks to over TCP. *)
Definition pyls_tcp : ServerSettings :=
  {| external := Some false;
     port := Some 2087;
     host := Some "127.0.0.1";
     cmd := Some "pyls";
     stdio_setting := Some false;
     configurations := None;
     args := Some "--host {host} --port {port} --tcp" |}.

(** A server the transport starts and talks to over its standard streams. *)
Definition pyls_stdio : ServerSettings :=
  {| external := Some false;
     port := Some 2087;
     host := Some "127.0.0.1";
     cmd := Some "pyls";
     stdio_setting := Some true;
     configurations := None;
     args := None |}.

(** The default value of the parameter [server_settings]. *)
Definition no_settings : ServerSettings :=
  {| external := None;
     port := None;
     host := None;
     cmd := None;
     stdio_setting := None;
     configurations := None;
     args := None |}.

(** The clients constructed on the workstation, at debug level 2, for a
    Python project. *)
Definition constructed (s : ServerSettings) : option Client :=
  match init (workstation 2) s "/home/user/project" "python" with
  | inr c => Some c
  | inl _ => None
  end.

Definition unconfigured : Client :=
  {| language := "python";
     folder := "/home/user/project";
     server_port := 0;
     server_host := "";
     transport_args := [];
     server_args := [];
     external_server := true;
     stdio := false;
     plugin_configurations := [];
     zmq_out_port := None;
     zmq_in_port := None;
     transport := false;
     server := false;
     notifier := false;
     binds := 0;
     made := [];
     events := [] |}.

Definition tcp_client : Client := default unconfigured (constructed pyls_tcp).

Definition stdio_client : Client := default unconfigured (constructed pyls_stdio).

End Launch.

(** * Vocabulary of the statements *)

(** ** What a trace shows *)

(** The signals emitted so far. *)
Definition signals (w : World) : list Event := filter is_signal (trace w).

(** The messages the socket has accepted so far. *)
Definition written (w : World) : list Event := filter is_send_pyobj (trace w).

(** The handlers and callbacks of other modules called so far. *)
Definition calls (w : World) : list Event := filter is_call (trace w).

(** How often the connectivity-lost signal has been emitted so far. *)
Definition went_down_signals (w : World) : nat :=
  length (filter is_went_down (trace w)).

(** What the liveness poll and the retry loop add to a trace. *)
Definition liveness_event (e : Event) : bool :=
  match e with
  | sig_went_down _ | logged _ => true
  | _ => false
  end.

Definition queue_full_log (e : Event) : bool :=
  match e with logged LogQueueFull => true | _ => false end.

(** ** Frames *)


(** [w'] differs from [w] at most in the two one-shot flags and the trace. *)
Definition liveness_frame (w w' : World) : Prop :=
  w' = set_trace (trace w')
         (set_server_unresponsive (server_unresponsive w')
            (set_transport_unresponsive (transport_unresponsive w') w)).

(** [w'] differs from [w] at most in what the retry loop touches. *)
Definition loop_frame (w w' : World) : Prop :=
  w' = set_trace (trace w')
         (set_sleeps (sleeps w')
            (set_zmq_calls (zmq_calls w')
               (set_clock (clock w')
                  (set_request_seq (request_seq w') w)))).

(** [w'] differs from [w] at most in what [send] touches. *)
Definition send_frame (w w' : World) : Prop :=
  w' = set_trace (trace w')
         (set_sleeps (sleeps w')
            (set_zmq_calls (zmq_calls w')
               (set_clock (clock w')
                  (set_request_seq (request_seq w')
                     (set_req_status (req_status w')
                        (set_server_unresponsive (server_unresponsive w')
                           (set_transport_unresponsive
                              (transport_unresponsive w') w))))))).

(** ** Sending *)

(** The [msg] that [send] builds. *)
Definition out_msg (kind : MessageKind) (_id : Z) (method : string)
    (params : Dict) : OutMsg :=
  match kind with
  | REQUEST => Request _id method params
  | RESPONSE => Response _id params
  | NOTIFICATION => Notification method params
  end.

(** The world in which the retry loop of [send] starts. *)
Definition prepared (method : string) (kind : MessageKind) (w : World) : World :=
  set_trace (trace w ++ [logged (LogRequest (language (cfg w)) method)])
    match kind with
    | REQUEST => set_req_status (<[request_seq w := method]> (req_status w)) w
    | _ => w
    end.

(** The in-flight entry [send] writes for a request, whether or not the
    write is accepted later. *)
Definition recorded (method : string) (kind : MessageKind) (w : World)
  : gmap Z string :=
  match kind with
  | REQUEST => <[request_seq w := method]> (req_status w)
  | _ => req_status w
  end.

(** The world in which the next round starts after a refused write. *)
Definition after_retry (w : World) : World :=
  let w1 := set_zmq_calls (S (zmq_calls w)) w in
  let w2 := if initialized w
            then set_trace (trace w ++ [logged LogQueueFull]) w1 else w1 in
  set_sleeps (S (sleeps w))
    (set_clock (clock w + retry_delay
                + Z.of_nat (sleep_extra (cfg w) (sleeps w))) w2).

(** The overshoot of [n] consecutive sleeps, from the [k]-th on. *)
Fixpoint extra_sum (c : Config) (k n : nat) : Z :=
  match n with
  | O => 0
  | S n => Z.of_nat (sleep_extra c k) + extra_sum c (S k) n
  end.

(** ** Liveness *)

(** What a poll sees: the transport is down; the server is down, be it the
    local process or the stdio-hosted one. *)
Definition alive (s : ProcessState) : bool :=
  match s with NotRunning => false | _ => true end.

Definition stdio_alive (p : Procs) : bool :=
  pid_exists p
  && negb (String.eqb (default "" (pid_status p)) STATUS_ZOMBIE).

Definition transport_down (w : World) (p : Procs) : bool :=
  transport (cfg w) && negb (alive (transport_state p)).

Definition server_down (w : World) (p : Procs) : bool :=
  server (cfg w) && negb (alive (server_state p)).

Definition stdio_down (w : World) (p : Procs) : bool :=
  truthy (stdio_pid w) && negb (stdio_alive p).

(** The liveness poll run once per observed state of the processes. *)
Fixpoint polls (ps : list Procs) : M unit :=
  match ps with
  | [] => ret tt
  | p :: ps => modify (set_procs p);; is_down;; polls ps
  end.

(** ** Inbound messages *)

(** What reporting an error comes to. An error that is not a [dict], or
    whose ['data'] is there and is not a [dict], cannot be read:
    [AttributeError]. Without a traceback (none, or a null one) there is
    nothing to report. A traceback that cannot be joined, or a message that
    is not a [str], cannot be put into a text: [TypeError]. Otherwise the
    text is the joined traceback, a newline and the message. *)
Definition report (error : Value) : Exn + option string :=
  match error with
  | VDict e =>
      match default (VDict []) (dict_get "data" e) with
      | VDict data =>
          match default VNone (dict_get "traceback" data) with
          | VNone => inr None
          | traceback =>
              match join traceback, default (VStr "") (dict_get "message" e) with
              | Some text, VStr message =>
                  inr (Some ((text +:+ newline) +:+ message))
              | _, _ => inl TypeError
              end
          end
      | _ => inl AttributeError
      end
  | _ => inl AttributeError
  end.

(** The sessions that report errors: Python, in debug or development
    mode. *)
Definition reports_errors (w : World) : bool :=
  String.eqb (language (cfg w)) "python"
  && ((get_debug_level (cfg w) >? 0) || DEV (cfg w)).

(** The server-error signal an error response gives rise to: only in a
    session that reports errors, only for an error with a traceback that
    can be put into a text. *)
Definition diagnostics (w : World) (resp : InMsg) : list Event :=
  match in_error resp with
  | Some e =>
      if reports_errors w
      then match report e with
           | inr (Some text) => [sig_server_error text]
           | _ => []
           end
      else []
  | None => []
  end.

(** The exception that ends the handling of an error response before its
    id is read: only in a session that reports errors, only for an error
    that cannot be read or put into a text. *)
Definition unreadable (w : World) (resp : InMsg) : option Exn :=
  match in_error resp with
  | Some e =>
      if reports_errors w
      then match report e with
           | inl exn => Some exn
           | inr _ => None
           end
      else None
  | None => None
  end.

(** What the reply callback of a failed request is called with. *)
Definition null_reply : list Value := [VNone; VDict [("params", VList [])]].

(** The inbound messages that make the client overwrite its counter:
    server-initiated (no [error], a [method] that is not transport-internal)
    and carrying an id. *)
Definition resets_counter (resp : InMsg) : bool :=
  match in_error resp, in_method resp, in_id resp with
  | None, Some (String c _), Some _ => negb (Ascii.eqb c "$")
  | _, _, _ => false
  end.

(** ** Capabilities *)

(** The capability payload as it is merged: an [int] sync mode replaced by
    the options object with that ['change'], a null one left out. *)
Definition normalized (sync : Value) (capabilites options : Dict) : Dict :=
  let capabilites :=
    if isinstance_int sync
    then dict_set "textDocumentSync"
           (VDict (dict_set "change" sync options)) capabilites
    else capabilites in
  if is_None sync then dict_pop "textDocumentSync" capabilites
  else capabilites.

(** ** Runs of a session *)

(** What happens to a session from the outside: the application sends or
    polls, the supervised processes change state, messages arrive and the
    notifier fires. *)
Inductive Op : Type :=
| OSend (method : string) (params : Dict) (kind : MessageKind)
| OPoll
| OProcs (p : Procs)
| ODeliver (msgs : list InMsg).

Definition is_delivery (o : Op) : bool :=
  match o with ODeliver _ => true | _ => false end.

Definition delivers_reset (o : Op) : bool :=
  match o with
  | ODeliver msgs => existsb resets_counter msgs
  | _ => false
  end.

(** Runs the operations in order and collects what each [send] returned. *)
Fixpoint run (ops : list Op) : M (list IdVal) :=
  match ops with
  | [] => ret []
  | OSend method params kind :: ops =>
      r ← send method params kind;
      rs ← run ops;
      ret (r :: rs)
  | OPoll :: ops => is_down;; run ops
  | OProcs p :: ops => modify (set_procs p);; run ops
  | ODeliver msgs :: ops =>
      modify (fun w => set_inbox (inbox w ++ msgs) w);;
      on_msg_received;;
      run ops
  end.

(** The ids handed out, in order. *)
Definition assigned (rs : list IdVal) : list Z := omap id rs.

(** ** The counter and the accepted writes *)

(** Between [w] and [w'] the counter has moved with the accepted writes,
    one step per write, and the in-flight table has gained keys only among
    the values the counter took on the way. *)
Definition issues (w w' : World) : Prop :=
  cfg w' = cfg w
  ∧ request_seq w <= request_seq w'
  ∧ request_seq w' - Z.of_nat (length (written w'))
    = request_seq w - Z.of_nat (length (written w))
  ∧ ∀ k, is_Some (req_status w' !! k) ->
      is_Some (req_status w !! k) ∨ request_seq w <= k <= request_seq w'.

Definition steady (w w' : World) : Prop :=
  issues w w' ∧ inbox w' = inbox w.

(** Whatever [m] does and however it ends, it keeps the counter in step. *)
Definition preserves {A} (m : M A) : Prop :=
  ∀ w r w', m w = (r, w') -> steady w w'.

(** * Sample sessions *)

Definition all_up : Procs := mkProcs Running Running true (Some "running").

Definition server_gone : Procs := mkProcs Running NotRunning true (Some "running").
Definition both_gone : Procs := mkProcs Running NotRunning false None.

(** A mix-in sender as the providers define them: a hover request for the
    file named by the caller. *)
Definition hover_request : Sender :=
  {| s_method := "textDocument/hover";
     s_kind := REQUEST;
     s_build := fun params =>
       [("textDocument", VDict [("uri", default VNone (dict_get "file" params))])] |}.

Definition sample_config (lang : string) (debug : Z) (again : nat -> bool)
  : Config :=
  {| language := lang;
     transport := true;
     server := true;
     external_server := false;
     transport_pid := 77;
     root_uri := "file:///home/user/project";
     plugin_configurations := [];
     client_capabilites := VDict [];
     handler_registry :=
       {[ SERVER_READY := "initialize";
          INITIALIZE := "process_server_capabilities";
          SHUTDOWN := "handle_shutdown";
          "textDocument/hover" := "process_hover_result" ]};
     sender_registry := {[ "textDocument/hover" := "hover_request" ]};
     mixin_senders := fun name =>
       if String.eqb name "hover_request" then Some hover_request else None;
     CANCEL := "lsp-cancel";
     get_debug_level := debug;
     DEV := false;
     zmq_again := again;
     sleep_extra := fun _ => 0%nat;
     raises_RuntimeError := fun _ => false |}.

Definition sample_options : Dict :=
  [("openClose", VBool true); ("change", VInt 0); ("willSave", VBool false);
   ("willSaveWaitUntil", VBool false); ("save", VDict [("includeText", VBool true)])].

Definition sample_capabilities : gmap string Value :=
  {[ "textDocumentSync" := VDict sample_options;
     "hoverProvider" := VBool false ]}.

(** A fresh session whose outbound socket refuses the writes chosen by
    [again]. *)
Definition fresh (lang : string) (debug : Z) (again : nat -> bool) : World :=
  new_client (sample_config lang debug again) sample_capabilities
    sample_options all_up 5000.

Definition accepting : nat -> bool := fun _ => false.
Definition saturated : nat -> bool := fun _ => true.

(** A fresh session whose socket never accepts a write. *)
Definition blocked_world : World := fresh "python" 0 saturated.

(** The transport's "server ready" notification carrying the pid of the
    server it has spawned. *)
Definition server_ready (pid : Z) : InMsg :=
  {| in_id := None;
     in_method := Some SERVER_READY;
     in_params := Some (VDict [("pid", VInt pid)]);
     in_result := None;
     in_error := None |}.

(** A request of the server's own, numbered by the server. *)
Definition server_request (id : Z) : InMsg :=
  {| in_id := Some (Some id);
     in_method := Some "workspace/configuration";
     in_params := Some (VDict [("items", VList [])]);
     in_result := None;
     in_error := None |}.

Definition error_response (id : Z) : InMsg :=
  {| in_id := Some (Some id);
     in_method := None;
     in_params := None;
     in_result := None;
     in_error :=
       Some (VDict [("code", VInt (-32603));
                    ("message", VStr "internal error");
                    ("data", VDict [("traceback",
                                     VList [VStr "Traceback: "; VStr "pyls"])])])
  |}.

Definition null_result (id : Z) : InMsg :=
  {| in_id := Some (Some id);
     in_method := None;
     in_params := None;
     in_result := Some VNone;
     in_error := None |}.

(** An [initialize] response advertising the given sync mode. *)
Definition initialize_result (sync : Value) : Value :=
  VDict [("capabilities",
          VDict [("textDocumentSync", sync); ("hoverProvider", VBool true)])].

(** What the caller of a hover request passes when it forgets the flag. *)
Definition callback_only : Dict :=
  [("file", VStr "file:///a.py"); ("response_callback", VFunc "on_hover")].

(** Modelled from the spec: the registry of senders is built once by
    scanning all declared method bindings, so the senders this file
    declares are registered for their methods, beside those of the
    mix-in. *)
Definition own_senders : Config :=
  let c := sample_config "python" 0 accepting in
  {| language := language c;
     transport := transport c;
     server := server c;
     external_server := external_server c;
     transport_pid := transport_pid c;
     root_uri := root_uri c;
     plugin_configurations := plugin_configurations c;
     client_capabilites := client_capabilites c;
     handler_registry := handler_registry c;
     sender_registry :=
       {[ INITIALIZE := "initialize";
          SHUTDOWN := "shutdown";
          EXIT := "exit";
          INITIALIZED := "initialized_call";
          "textDocument/hover" := "hover_request" ]};
     mixin_senders := mixin_senders c;
     CANCEL := CANCEL c;
     get_debug_level := get_debug_level c;
     DEV := DEV c;
     zmq_again := zmq_again c;
     sleep_extra := sleep_extra c;
     raises_RuntimeError := raises_RuntimeError c |}.

(** A session of the given language that has sent a hover request (id 1)
    on behalf of a caller waiting for the reply. *)
Definition awaiting (lang : string) (debug : Z) : World :=
  (perform_request "textDocument/hover"
     [("file", VStr "file:///a.py"); ("response_callback", VFunc "on_hover");
      ("requires_response", VBool true)]
     (fresh lang debug accepting)).2.

(** * More vocabulary *)

(** Nothing that a liveness poll looks at is down. *)
Definition healthy (w : World) : bool :=
  negb (transport_down w (procs w) || server_down w (procs w)
        || stdio_down w (procs w)).

(** The world a [send] leaves when the socket takes the first write. *)
Definition after_send (method : string) (params : Dict) (kind : MessageKind)
    (w : World) : World :=
  let w1 := prepared method kind w in
  set_request_seq (request_seq w + 1)
    (set_trace
       (trace w1 ++ [send_pyobj (out_msg kind (request_seq w) method params)])
       (set_zmq_calls (S (zmq_calls w)) w1)).

(** A run of [send]s and nothing else. *)
Definition sends (l : list (string * Dict * MessageKind)) : list Op :=
  map (fun '(method, params, kind) => OSend method params kind) l.

(** A handler name that [getattr] resolves to a method of the provider
    mix-in, not to one of the three handlers of this file. *)
Definition mixin_handler (handler_name : string) : bool :=
  negb (String.eqb handler_name "initialize")
  && negb (String.eqb handler_name "handle_shutdown")
  && negb (String.eqb handler_name "process_server_capabilities").

(** A computation that, however it ends, leaves [w] and [w'] related. *)
Definition respects {A} (R : World -> World -> Prop) (m : M A) : Prop :=
  ∀ w r w', m w = (r, w') -> R w w'.

(** What only the receive loop and the outside change: the queue, the
    notifier, the configuration and the processes. *)
Definition handler_frame (w w' : World) : Prop :=
  cfg w' = cfg w ∧ procs w' = procs w ∧ inbox w' = inbox w
  ∧ notifier_enabled w' = notifier_enabled w.

(** The world after the handler of a result has been called. *)
Definition called (handler_name : string) (args : list Value) (w : World) : World :=
  set_trace (trace w ++ [call handler_name args]) w.

(** The world after a result has been handed to its handler and the request
    has left both tables. *)
Definition resolved (id : Z) (handler_name : string) (result : Value) (w : World) : World :=
  set_req_reply (delete (Some id) (req_reply w))
    (set_req_status (delete id (req_status w))
       (called handler_name [result; VInt id] w)).

(** A response that carries a result for the request [id]. *)
Definition result_for (id : Z) (result : Value) (resp : InMsg) : Prop :=
  in_error resp = None ∧ in_method resp = None
  ∧ in_result resp = Some result ∧ is_None result = false
  ∧ in_id resp = Some (Some id).

(** The result of the hover request [id]. *)
Definition hover_result (id : Z) : InMsg :=
  {| in_id := Some (Some id);
     in_method := None;
     in_params := None;
     in_result := Some (VDict [("contents", VStr "help")]);
     in_error := None |}.

(** The sample configuration with handlers that raise [RuntimeError] as
    [boom] says. *)
Definition raising_config (boom : string -> bool) : Config :=
  let c := sample_config "python" 0 accepting in
  {| language := language c;
     transport := transport c;
     server := server c;
     external_server := external_server c;
     transport_pid := transport_pid c;
     root_uri := root_uri c;
     plugin_configurations := plugin_configurations c;
     client_capabilites := client_capabilites c;
     handler_registry := handler_registry c;
     sender_registry := sender_registry c;
     mixin_senders := mixin_senders c;
     CANCEL := CANCEL c;
     get_debug_level := get_debug_level c;
     DEV := DEV c;
     zmq_again := zmq_again c;
     sleep_extra := sleep_extra c;
     raises_RuntimeError := boom |}.

(** A session that has sent a hover request (id 1) on behalf of a caller
    whose editor has been closed since: the handler of the result raises. *)
Definition editor_closed : World :=
  (perform_request "textDocument/hover"
     [("file", VStr "file:///a.py"); ("response_callback", VFunc "on_hover");
      ("requires_response", VBool true)]
     (new_client (raising_config (String.eqb "process_hover_result"))
        sample_capabilities sample_options all_up 5000)).2.

(** An error the transport could not attribute to a request. *)
Definition anonymous_error : InMsg :=
  {| in_id := None;
     in_method := None;
     in_params := None;
     in_result := None;
     in_error := Some (VDict [("code", VInt (-32700));
                              ("message", VStr "parse error")]) |}.

(** A server notification that omits its parameters. *)
Definition bare_notification (id : option IdVal) (method : string) : InMsg :=
  {| in_id := id;
     in_method := Some method;
     in_params := None;
     in_result := None;
     in_error := None |}.

(** The payload of the [initialize] request. *)
Definition initialize_params (c : Config) : Dict :=
  [("processId", if external_server c then VNone else VInt (transport_pid c));
   ("rootUri", VStr (root_uri c));
   ("capabilities", client_capabilites c);
   ("trace", VStr (TRACE (DEV c)))].

(** The response to the [initialize] request [id]. *)
Definition initialize_response (id : Z) (sync : Value) : InMsg :=
  {| in_id := Some (Some id);
     in_method := None;
     in_params := None;
     in_result := Some (initialize_result sync);
     in_error := None |}.

(** The sample configuration of a session whose server runs on stdio: the
    client has no server process of its own and counts the server as
    external. *)
Definition stdio_config : Config :=
  let c := sample_config "python" 0 accepting in
  {| language := language c;
     transport := transport c;
     server := false;
     external_server := true;
     transport_pid := transport_pid c;
     root_uri := root_uri c;
     plugin_configurations := plugin_configurations c;
     client_capabilites := client_capabilites c;
     handler_registry := handler_registry c;
     sender_registry := sender_registry c;
     mixin_senders := mixin_senders c;
     CANCEL := CANCEL c;
     get_debug_level := get_debug_level c;
     DEV := DEV c;
     zmq_again := zmq_again c;
     sleep_extra := sleep_extra c;
     raises_RuntimeError := raises_RuntimeError c |}.

(** A fresh session with its server on stdio. *)
Definition fresh_stdio : World :=
  new_client stdio_config sample_capabilities sample_options all_up 5000.

(** A session on stdio whose [initialize] request (id 1) is in flight. *)
Definition initializing : World :=
  (handle_msg (server_ready 4242) fresh_stdio).2.

(** The senders that belong to the provider mix-in. *)
Definition mixin_sender (handler_name : string) : bool :=
  negb (String.eqb handler_name "initialize")
  && negb (String.eqb handler_name "shutdown")
  && negb (String.eqb handler_name "exit")
  && negb (String.eqb handler_name "initialized_call").

(** What the caller of a hover request passes when it waits for the
    reply. *)
Definition callback_wanted : Dict :=
  [("file", VStr "file:///a.py"); ("response_callback", VFunc "on_hover");
   ("requires_response", VBool true)].

(** An error of the server that names no request: its id is null. *)
Definition null_id_error : InMsg :=
  {| in_id := Some None;
     in_method := None;
     in_params := None;
     in_result := None;
     in_error := Some (VDict [("code", VInt (-32700));
                              ("message", VStr "parse error")]) |}.
(** * Properties *)

(** ** Reasoning steps *)

Ltac unfold_M :=
  unfold log, emit, skip, bind, ret, gets, asks, modify, raise in *.

Ltac liveness_cases c p :=
  repeat (simpl; match goal with
    | |- context [transport c] => destruct (transport c)
    | |- context [server c] => destruct (server c)
    | |- context [transport_state p] => destruct (transport_state p)
    | |- context [server_state p] => destruct (server_state p)
    | |- context [pid_exists p] => destruct (pid_exists p)
    | |- context [String.eqb ?s STATUS_ZOMBIE] =>
        destruct (String.eqb s STATUS_ZOMBIE)
    | |- context [truthy ?v] => destruct (truthy v)
    | |- context [negb ?b] => is_var b; destruct b
    end); simpl.

(** ** Frames *)

Lemma loop_frame_refl w : loop_frame w w.
Proof. unfold loop_frame. by destruct w. Qed.

Lemma loop_frame_trans w1 w2 w3 :
  loop_frame w1 w2 -> loop_frame w2 w3 -> loop_frame w1 w3.
Proof.
  unfold loop_frame. intros H12 H23. destruct w1, w2, w3. simpl in *.
  inversion H12; inversion H23; subst; reflexivity.
Qed.

Lemma loop_frame_fields w w' :
  loop_frame w w' ->
  cfg w' = cfg w ∧ req_status w' = req_status w ∧ req_reply w' = req_reply w
  ∧ server_capabilites w' = server_capabilites w
  ∧ TEXT_DOCUMENT_SYNC_OPTIONS w' = TEXT_DOCUMENT_SYNC_OPTIONS w
  ∧ server_unresponsive w' = server_unresponsive w
  ∧ transport_unresponsive w' = transport_unresponsive w
  ∧ initialized w' = initialized w ∧ procs w' = procs w
  ∧ stdio_pid w' = stdio_pid w ∧ inbox w' = inbox w.
Proof. intros ->. by repeat split. Qed.

Lemma liveness_frame_fields w w' :
  liveness_frame w w' ->
  cfg w' = cfg w ∧ request_seq w' = request_seq w
  ∧ req_status w' = req_status w ∧ req_reply w' = req_reply w
  ∧ server_capabilites w' = server_capabilites w
  ∧ TEXT_DOCUMENT_SYNC_OPTIONS w' = TEXT_DOCUMENT_SYNC_OPTIONS w
  ∧ clock w' = clock w ∧ zmq_calls w' = zmq_calls w ∧ sleeps w' = sleeps w
  ∧ initialized w' = initialized w ∧ procs w' = procs w
  ∧ stdio_pid w' = stdio_pid w ∧ inbox w' = inbox w.
Proof. intros ->. by repeat split. Qed.

Lemma send_frame_fields w w' :
  send_frame w w' ->
  cfg w' = cfg w ∧ req_reply w' = req_reply w
  ∧ server_capabilites w' = server_capabilites w
  ∧ TEXT_DOCUMENT_SYNC_OPTIONS w' = TEXT_DOCUMENT_SYNC_OPTIONS w
  ∧ initialized w' = initialized w ∧ procs w' = procs w
  ∧ stdio_pid w' = stdio_pid w ∧ inbox w' = inbox w
  ∧ ready_to_close w' = ready_to_close w
  ∧ notifier_enabled w' = notifier_enabled w.
Proof. intros ->. by repeat split. Qed.

Lemma send_frame_refl w : send_frame w w.
Proof. unfold send_frame. by destruct w. Qed.

Lemma send_frame_trans w1 w2 w3 :
  send_frame w1 w2 -> send_frame w2 w3 -> send_frame w1 w3.
Proof.
  unfold send_frame. intros H12 H23. destruct w1, w2, w3. simpl in *.
  inversion H12; inversion H23; subst; reflexivity.
Qed.

Lemma liveness_send_frame w w' : liveness_frame w w' -> send_frame w w'.
Proof. unfold liveness_frame, send_frame. intros ->. by destruct w. Qed.

Lemma loop_send_frame w w' : loop_frame w w' -> send_frame w w'.
Proof. unfold loop_frame, send_frame. intros ->. by destruct w. Qed.

Lemma prepared_send_frame method kind w : send_frame w (prepared method kind w).
Proof. unfold send_frame, prepared. destruct w, kind; reflexivity. Qed.

Lemma liveness_not_sent evs :
  forallb liveness_event evs = true -> filter is_send_pyobj evs = [].
Proof.
  induction evs as [|e evs IH]; [done|]. simpl. intros H.
  apply andb_prop in H as [He Hevs]. destruct e; try discriminate; simpl;
    rewrite ?decide_False; auto.
Qed.

Lemma queue_full_not_sent evs :
  forallb queue_full_log evs = true -> filter is_send_pyobj evs = [].
Proof.
  induction evs as [|e evs IH]; [done|]. simpl. intros H.
  apply andb_prop in H as [He Hevs]. destruct e; try discriminate; auto.
Qed.

(** ** The liveness poll *)

Lemma is_down_total w :
  ∃ b w' evs, is_down w = (Ret b, w') ∧ liveness_frame w w'
    ∧ trace w' = trace w ++ evs ∧ forallb liveness_event evs = true.
Proof.
  unfold is_down, and_not, is_transport_alive, is_server_alive, is_stdio_alive.
  unfold_M. unfold liveness_frame.
  destruct w as [c ? ? ? ? ? ? ? ? su tu ? p ? ? ? ? tr].
  liveness_cases c p; repeat rewrite <- app_assoc; simpl;
  (do 3 eexists; split; [reflexivity|]; simpl; split; [reflexivity|];
   split; [ first [ reflexivity | symmetry; apply app_nil_r ] | reflexivity ]).
Qed.

Lemma is_down_false w w' : is_down w = (Ret false, w') -> w' = w.
Proof.
  unfold is_down, and_not, is_transport_alive, is_server_alive, is_stdio_alive.
  unfold_M.
  destruct w as [c ? ? ? ? ? ? ? ? su tu ? p ? ? ? ? tr].
  liveness_cases c p; intros H; inversion H; reflexivity.
Qed.

(** ** The retry loop *)

Lemma extra_sum_nonneg c k n : 0 <= extra_sum c k n.
Proof. revert k. induction n as [|n IH]; intros k; simpl; [lia|]. specialize (IH (S k)). lia. Qed.

Lemma extra_sum_snoc c k n :
  extra_sum c k (S n) = extra_sum c k n + Z.of_nat (sleep_extra c (k + n)).
Proof.
  revert k. induction n as [|n IH]; intros k.
  - simpl. rewrite Nat.add_0_r. lia.
  - change (extra_sum c k (S (S n)))
      with (Z.of_nat (sleep_extra c k) + extra_sum c (S k) (S n)).
    rewrite IH. simpl. replace (S (k + n)) with (k + S n)%nat by lia. lia.
Qed.

Lemma extra_sum_exact c k n :
  (∀ i, sleep_extra c i = 0%nat) -> extra_sum c k n = 0.
Proof.
  intros Hexact. revert k. induction n as [|n IH]; intros k; simpl; [done|].
  rewrite Hexact, IH. reflexivity.
Qed.

Lemma after_retry_fields w :
  cfg (after_retry w) = cfg w
  ∧ clock (after_retry w)
    = clock w + retry_delay + Z.of_nat (sleep_extra (cfg w) (sleeps w))
  ∧ sleeps (after_retry w) = S (sleeps w)
  ∧ zmq_calls (after_retry w) = S (zmq_calls w)
  ∧ request_seq (after_retry w) = request_seq w
  ∧ signals (after_retry w) = signals w
  ∧ written (after_retry w) = written w.
Proof.
  unfold after_retry, signals, written. destruct (initialized w); simpl;
    rewrite ?filter_app; simpl; rewrite ?app_nil_r; by repeat split.
Qed.

Section RetryLoop.

Variables (msg : OutMsg) (_id timeout_time : Z).

Lemma send_loop_S fuel w :
  send_loop (S fuel) msg _id timeout_time w =
  if zmq_again (cfg w) (zmq_calls w) then
    if clock w >? timeout_time then
      (Ret None,
       set_trace (trace w ++ [sig_went_down (language (cfg w))])
         (set_zmq_calls (S (zmq_calls w)) w))
    else send_loop fuel msg _id timeout_time (after_retry w)
  else
    (Ret (Some _id),
     set_request_seq (request_seq w + 1)
       (set_trace (trace w ++ [send_pyobj msg])
          (set_zmq_calls (S (zmq_calls w)) w))).
Proof.
  cbn [send_loop]. unfold try_send_pyobj, time_time, sleep, after_retry.
  unfold_M. simpl.
  destruct (zmq_again (cfg w) (zmq_calls w)); simpl; [|reflexivity].
  destruct (clock w >? timeout_time); simpl; [reflexivity|].
  destruct (initialized w); reflexivity.
Qed.

(** What one run of the loop can do: it returns [_id] after exactly one
    accepted write, or no id after the signal, and in both cases only
    "queue full" warnings come before. The rounds given are enough as soon
    as they cover what is left of the budget. *)
Lemma send_loop_spec fuel w :
  timeout_time - clock w < retry_delay * Z.of_nat fuel ->
  ∃ r w' logs,
    send_loop (S fuel) msg _id timeout_time w = (Ret r, w')
    ∧ loop_frame w w'
    ∧ forallb queue_full_log logs = true
    ∧ ((r = Some _id ∧ request_seq w' = request_seq w + 1
        ∧ trace w' = trace w ++ logs ++ [send_pyobj msg])
       ∨ (r = None ∧ request_seq w' = request_seq w
          ∧ trace w' = trace w ++ logs ++ [sig_went_down (language (cfg w))]
          ∧ timeout_time < clock w')).
Proof.
  revert w. induction fuel as [|fuel IH]; intros w Hfuel;
    rewrite send_loop_S;
    (destruct (zmq_again (cfg w) (zmq_calls w));
     [destruct (clock w >? timeout_time) eqn:Hpast|]).
  1,4: exists None; eexists; exists []; split; [reflexivity|];
       split; [by destruct w|]; split; [reflexivity|];
       right; simpl; repeat split; lia.
  2,4: exists (Some _id); eexists; exists []; split; [reflexivity|];
       split; [by destruct w|]; split; [reflexivity|];
       left; simpl; repeat split.
  - unfold retry_delay in *. lia.
  - destruct (IH (after_retry w)) as (r & w' & logs & Hrun & Hframe & Hlogs & Hres).
    { unfold after_retry, retry_delay in *. simpl. lia. }
    rewrite Hrun. exists r, w'.
    exists ((if initialized w then [logged LogQueueFull] else []) ++ logs).
    split; [reflexivity|].
    split. { eapply loop_frame_trans; [|exact Hframe].
             unfold after_retry. destruct w; simpl. by destruct initialized0. }
    split. { destruct (initialized w); exact Hlogs. }
    unfold after_retry in Hres. simpl in Hres.
    destruct (initialized w); simpl in *; rewrite <- ?app_assoc in Hres; exact Hres.
Qed.

(** The loop against a socket that never accepts: [n] sleeps, [n + 1]
    refused writes, then the signal. *)
Lemma send_loop_blocked fuel w :
  (∀ k, zmq_again (cfg w) k = true) ->
  timeout_time - clock w < retry_delay * Z.of_nat fuel ->
  ∃ n w', send_loop (S fuel) msg _id timeout_time w = (Ret None, w')
    ∧ (n <= fuel)%nat
    ∧ zmq_calls w' = (zmq_calls w + S n)%nat
    ∧ sleeps w' = (sleeps w + n)%nat
    ∧ clock w' = clock w + retry_delay * Z.of_nat n
                 + extra_sum (cfg w) (sleeps w) n
    ∧ timeout_time < clock w'
    ∧ (∀ m, n = S m ->
         clock w' - retry_delay
           - Z.of_nat (sleep_extra (cfg w) (sleeps w + m)) <= timeout_time)
    ∧ request_seq w' = request_seq w
    ∧ signals w' = signals w ++ [sig_went_down (language (cfg w))]
    ∧ written w' = written w.
Proof.
  intros Hblocked. revert w Hblocked.
  induction fuel as [|fuel IH]; intros w Hblocked Hfuel;
    rewrite send_loop_S, Hblocked;
    destruct (clock w >? timeout_time) eqn:Hpast.
  1,3: exists 0%nat; eexists; split; [reflexivity|]; simpl;
       unfold signals, written; simpl; rewrite !filter_app; simpl;
       rewrite ?app_nil_r, ?Nat.add_0_r;
       repeat split; try lia; try reflexivity; intros; discriminate.
  - unfold retry_delay in *. lia.
  - destruct (after_retry_fields w) as (Ec & Et & Es & Ez & Eq & Esig & Ewr).
    destruct (IH (after_retry w)) as (n & w' & Hrun & Hn & Hcalls & Hsl & Hclk
                                       & Hpast' & Hprev & Hseq & Hsig & Hwr).
    { by rewrite Ec. }
    { rewrite Et. unfold retry_delay in *. lia. }
    rewrite Ec, Et, Es, Ez, Eq in *. rewrite Esig in Hsig. rewrite Ewr in Hwr.
    exists (S n), w'. split; [exact Hrun|].
    repeat split; try assumption; try lia.
    + rewrite Hclk. simpl extra_sum. unfold retry_delay. lia.
    + intros m Hm. injection Hm as <-. destruct n as [|n'].
      * rewrite Hclk. simpl. rewrite Nat.add_0_r. unfold retry_delay in *. lia.
      * specialize (Hprev n' eq_refl).
        replace (sleeps w + S n')%nat with (S (sleeps w) + n')%nat by lia.
        exact Hprev.
Qed.

End RetryLoop.

(** ** Sending *)

Lemma send_unfold method params kind w :
  send method params kind w =
  match is_down w with
  | (Ret true, w1) => (Ret None, w1)
  | (Ret false, w1) =>
      if dict_mem (CANCEL (cfg w1)) params then (Ret None, w1)
      else send_loop send_rounds (out_msg kind (request_seq w1) method params)
             (request_seq w1) (clock w1 + timeout) (prepared method kind w1)
  | (Raise e, w1) => (Raise e, w1)
  end.
Proof.
  unfold send. unfold bind at 1. destruct (is_down w) as [[[|]|e] w1]; try reflexivity.
  unfold time_time, prepared. unfold_M. simpl.
  destruct (dict_mem (CANCEL (cfg w1)) params); [reflexivity|].
  destruct kind; reflexivity.
Qed.

(** Every call of [send] returns: an id after one accepted write, or no id
    and nothing written. *)
Lemma send_spec method params kind w :
  ∃ r w', send method params kind w = (Ret r, w')
    ∧ send_frame w w'
    ∧ ((r = None ∧ request_seq w' = request_seq w
        ∧ filter is_send_pyobj (trace w') = filter is_send_pyobj (trace w)
        ∧ (req_status w' = req_status w
           ∨ req_status w' = recorded method kind w))
       ∨ (r = Some (request_seq w) ∧ request_seq w' = request_seq w + 1
          ∧ req_status w' = recorded method kind w
          ∧ filter is_send_pyobj (trace w')
            = filter is_send_pyobj (trace w)
              ++ [send_pyobj (out_msg kind (request_seq w) method params)])).
Proof.
  rewrite send_unfold.
  destruct (is_down_total w) as (b & w1 & evs & Hdown & Hlive & Htr & Hevs).
  rewrite Hdown. destruct b.
  - exists None, w1. split; [reflexivity|]. split; [by apply liveness_send_frame|].
    left. apply liveness_frame_fields in Hlive as (_ & Hseq & Hst & _).
    rewrite Htr, filter_app, (liveness_not_sent _ Hevs), app_nil_r. auto.
  - apply is_down_false in Hdown as ->.
    destruct (dict_mem (CANCEL (cfg w)) params).
    + exists None, w. split; [reflexivity|]. split; [apply send_frame_refl|]. left. auto.
    + destruct (send_loop_spec (out_msg kind (request_seq w) method params)
                  (request_seq w) (clock w + timeout) 11
                  (prepared method kind w))
        as (r & w' & logs & Hrun & Hframe & Hlogs & Hres).
      { unfold prepared, timeout, retry_delay. destruct kind; simpl; lia. }
      unfold send_rounds. rewrite Hrun. exists r, w'. split; [reflexivity|].
      split. { eapply send_frame_trans; [apply prepared_send_frame|].
               by apply loop_send_frame. }
      apply loop_frame_fields in Hframe as (_ & Hst & _).
      assert (Hprep : req_status (prepared method kind w) = recorded method kind w).
      { unfold prepared, recorded. by destruct kind. }
      assert (Hseq : request_seq (prepared method kind w) = request_seq w).
      { unfold prepared. by destruct kind. }
      assert (Hsent : filter is_send_pyobj (trace (prepared method kind w))
                      = filter is_send_pyobj (trace w)).
      { unfold prepared. simpl. rewrite filter_app. simpl. apply app_nil_r. }
      destruct Hres as [(-> & Hn & Htr')|(-> & Hn & Htr' & _)]; [right|left];
        rewrite Htr', !filter_app, (queue_full_not_sent _ Hlogs), Hsent; simpl;
        rewrite ?app_nil_r; repeat split; try congruence.
      right. congruence.
Qed.

(** ** Successful sends (C9) *)

(** C9. Every [send] returns. When it returns an id, that id is the counter
    as it was before the call and the counter is left one higher, whatever
    the kind of the message: notifications and responses draw from the same
    counter as requests. Only a request adds an entry, under that id, to
    [req_status]. And it does return an id when nothing is down, [params]
    holds no cancel key and the socket accepts the first write. *)
Theorem send_success_advances method params kind w :
  ∃ r w', send method params kind w = (Ret r, w')
    ∧ (∀ _id, r = Some _id ->
         _id = request_seq w
         ∧ request_seq w' = request_seq w + 1
         ∧ req_status w' = match kind with
                           | REQUEST =>
                               <[request_seq w := method]> (req_status w)
                           | RESPONSE | NOTIFICATION => req_status w
                           end)
    ∧ ((is_down w).1 = Ret false ->
       dict_mem (CANCEL (cfg w)) params = false ->
       zmq_again (cfg w) (zmq_calls w) = false ->
       r = Some (request_seq w)).
Proof.
  destruct (send_spec method params kind w) as (r & w1 & Hrun & _ & Hres).
  exists r, w1. split; [exact Hrun|]. split.
  - intros _id ->.
    destruct Hres as [(Hr & _)|(Hr & Hseq & Hst & _)]; [discriminate|].
    injection Hr as ->. unfold recorded in Hst. by destruct kind.
  - intros Hup Hcancel Haccept. rewrite send_unfold in Hrun.
    destruct (is_down w) as [d w0] eqn:Hdown. simpl in Hup. subst d.
    apply is_down_false in Hdown as ->. rewrite Hcancel in Hrun.
    unfold send_rounds in Hrun. rewrite send_loop_S in Hrun.
    assert (Hprep : zmq_again (cfg (prepared method kind w))
                      (zmq_calls (prepared method kind w)) = false).
    { unfold prepared. by destruct kind. }
    rewrite Hprep in Hrun. by injection Hrun as <- _.
Qed.

Lemma send_success_advances_witness :
  let w := fresh "python" 0 accepting in
  ∃ w', send "textDocument/didOpen" [] NOTIFICATION w = (Ret (Some 1), w')
    ∧ request_seq w' = 2
    ∧ req_status w' = req_status w.
Proof.
  intros w.
  destruct (send_success_advances "textDocument/didOpen" [] NOTIFICATION w)
    as (r & w' & Hrun & Hid & Hok).
  assert (Hr : r = Some 1) by (apply Hok; reflexivity). subst r.
  destruct (Hid 1 eq_refl) as (_ & Hseq & Hst).
  exists w'. split; [exact Hrun|]. split; [exact Hseq|exact Hst].
Defined.

(** ** The cancel sentinel (C7) *)

(** C7. When [params] contains the reserved cancel key, [send] returns no
    id and drops the message: no write is attempted on the socket, nothing
    is recorded as written, and the counter and the in-flight tables are as
    before. All that the call has done is the liveness poll it starts with. *)
Theorem send_cancel_drops method params kind w :
  dict_mem (CANCEL (cfg w)) params = true ->
  ∃ w', send method params kind w = (Ret None, w')
    ∧ w' = (is_down w).2
    ∧ request_seq w' = request_seq w
    ∧ req_status w' = req_status w
    ∧ req_reply w' = req_reply w
    ∧ zmq_calls w' = zmq_calls w
    ∧ written w' = written w.
Proof.
  intros Hcancel. rewrite send_unfold.
  destruct (is_down_total w) as (b & w1 & evs & Hdown & Hlive & Htr & Hevs).
  rewrite Hdown. simpl.
  assert (Hcfg : cfg w1 = cfg w) by (by apply liveness_frame_fields in Hlive as (? & _)).
  assert (Hsame : (if b then (Ret None, w1) : Outcome IdVal * World
                   else if dict_mem (CANCEL (cfg w1)) params then (Ret None, w1)
                   else send_loop send_rounds
                          (out_msg kind (request_seq w1) method params)
                          (request_seq w1) (clock w1 + timeout)
                          (prepared method kind w1)) = (Ret None, w1)).
  { destruct b; [reflexivity|]. by rewrite Hcfg, Hcancel. }
  exists w1. split; [destruct b; exact Hsame|]. split; [reflexivity|].
  apply liveness_frame_fields in Hlive
    as (_ & Hseq & Hst & Hrep & _ & _ & _ & Hcalls & _).
  unfold written. rewrite Htr, filter_app, (liveness_not_sent _ Hevs), app_nil_r.
  auto.
Qed.

Lemma send_cancel_drops_witness :
  let w := fresh "python" 0 accepting in
  ∃ w', send "textDocument/completion" [("lsp-cancel", VBool true)] REQUEST w
        = (Ret None, w')
    ∧ w' = (is_down w).2
    ∧ request_seq w' = request_seq w
    ∧ req_status w' = req_status w
    ∧ req_reply w' = req_reply w
    ∧ zmq_calls w' = zmq_calls w
    ∧ written w' = written w.
Proof.
  intros w.
  apply (send_cancel_drops "textDocument/completion"
           [("lsp-cancel", VBool true)] REQUEST w).
  reflexivity.
Defined.

(** ** The retry budget (C2) *)

(** C2. A [send] that gets as far as the socket (the liveness poll reports
    nothing down and [params] carries no cancel key) and finds it saturated
    for good retries every 100 ms, a sleep lasting 100 ms and what the
    scheduler adds: it makes [n + 1] attempts with [n] sleeps between them,
    [1 <= n <= 11]. It returns no id and leaves the counter alone, and it
    emits the connectivity-lost signal once, when the budget is exhausted:
    at the first refusal it sees after the second, counted from the first
    attempt, has elapsed. That is within the budget up to the scheduling
    slack of one retry: the attempt before was still inside the second, so
    the return comes after it by no more than one sleep. With sleeps of
    exactly 100 ms it is the twelfth attempt, 1100 ms after the first. *)
Theorem send_blocked_gives_up method params kind w :
  (is_down w).1 = Ret false ->
  dict_mem (CANCEL (cfg w)) params = false ->
  (∀ k, zmq_again (cfg w) k = true) ->
  ∃ n w', send method params kind w = (Ret None, w')
    ∧ request_seq w' = request_seq w
    ∧ signals w' = signals w ++ [sig_went_down (language (cfg w))]
    ∧ written w' = written w
    ∧ (1 <= n <= 11)%nat
    ∧ zmq_calls w' = (zmq_calls w + S n)%nat
    ∧ sleeps w' = (sleeps w + n)%nat
    ∧ clock w' = clock w + retry_delay * Z.of_nat n
                 + extra_sum (cfg w) (sleeps w) n
    ∧ clock w + timeout < clock w'
    ∧ clock w' <= clock w + timeout + retry_delay
                  + Z.of_nat (sleep_extra (cfg w) (sleeps w + n - 1))
    ∧ ((∀ i, sleep_extra (cfg w) i = 0%nat) ->
       n = 11%nat ∧ clock w' = clock w + 1100).
Proof.
  intros Hup Hcancel Hblocked. rewrite send_unfold.
  destruct (is_down w) as [r w1] eqn:Hdown. simpl in Hup. subst r.
  apply is_down_false in Hdown as ->. rewrite Hcancel.
  destruct (send_loop_blocked (out_msg kind (request_seq w) method params)
              (request_seq w) (clock w + timeout) 11 (prepared method kind w))
    as (n & w' & Hrun & Hn & Hcalls & Hsl & Hclk & Hpast & Hprev & Hseq
        & Hsig & Hwr).
  { unfold prepared. by destruct kind. }
  { unfold prepared, timeout, retry_delay. destruct kind; simpl; lia. }
  assert (Hprep : cfg (prepared method kind w) = cfg w
                  ∧ clock (prepared method kind w) = clock w
                  ∧ sleeps (prepared method kind w) = sleeps w
                  ∧ zmq_calls (prepared method kind w) = zmq_calls w
                  ∧ request_seq (prepared method kind w) = request_seq w
                  ∧ signals (prepared method kind w) = signals w
                  ∧ written (prepared method kind w) = written w).
  { unfold prepared, signals, written. destruct kind; simpl;
      rewrite !filter_app; simpl; rewrite !app_nil_r; by repeat split. }
  destruct Hprep as (Ec & Et & Es & Ez & Eq & Esig & Ewr).
  rewrite Ec, Et, Es, Ez, Eq in *. rewrite Esig in Hsig. rewrite Ewr in Hwr.
  unfold send_rounds. exists n, w'. split; [exact Hrun|].
  assert (Hn1 : (1 <= n)%nat).
  { destruct n as [|n']; [|lia]. simpl in Hclk. unfold timeout in *. lia. }
  repeat split; try assumption; try lia.
  - destruct n as [|m]; [lia|]. specialize (Hprev m eq_refl).
    replace (sleeps w + S m - 1)%nat with (sleeps w + m)%nat by lia. lia.
  - pose proof (extra_sum_exact (cfg w) (sleeps w) n H) as Hzero.
    rewrite Hzero in Hclk. unfold retry_delay, timeout in *. lia.
  - pose proof (extra_sum_exact (cfg w) (sleeps w) n H) as Hzero.
    rewrite Hzero in Hclk.
    assert (n = 11%nat) as -> by (unfold retry_delay, timeout in *; lia).
    rewrite Hclk. unfold retry_delay. lia.
Qed.

Lemma send_blocked_gives_up_witness :
  ∃ n w', send "textDocument/hover" [] REQUEST blocked_world = (Ret None, w')
    ∧ request_seq w' = request_seq blocked_world
    ∧ signals w' = signals blocked_world ++ [sig_went_down "python"]
    ∧ written w' = written blocked_world
    ∧ (1 <= n <= 11)%nat
    ∧ zmq_calls w' = (zmq_calls blocked_world + S n)%nat
    ∧ sleeps w' = (sleeps blocked_world + n)%nat
    ∧ clock w' = clock blocked_world + retry_delay * Z.of_nat n
                 + extra_sum (cfg blocked_world) (sleeps blocked_world) n
    ∧ clock blocked_world + timeout < clock w'
    ∧ clock w' <= clock blocked_world + timeout + retry_delay
                  + Z.of_nat (sleep_extra (cfg blocked_world)
                                (sleeps blocked_world + n - 1))
    ∧ ((∀ i, sleep_extra (cfg blocked_world) i = 0%nat) ->
       n = 11%nat ∧ clock w' = clock blocked_world + 1100).
Proof.
  apply (send_blocked_gives_up "textDocument/hover" [] REQUEST blocked_world).
  - reflexivity.
  - reflexivity.
  - intros k. reflexivity.
Defined.

(** ** The liveness poll (C5) *)

(** One poll: it reports whether anything is down, raises each flag that
    has a reason to be raised, and signals once per flag it raises. *)
Lemma is_down_poll w :
  let td := transport_down w (procs w) in
  let sd := server_down w (procs w) || stdio_down w (procs w) in
  ∃ w', is_down w = (Ret (td || sd), w')
    ∧ liveness_frame w w'
    ∧ transport_unresponsive w' = transport_unresponsive w || td
    ∧ server_unresponsive w' = server_unresponsive w || sd
    ∧ went_down_signals w'
      = (went_down_signals w
         + (if negb (transport_unresponsive w) && td then 1 else 0)
         + (if negb (server_unresponsive w) && sd then 1 else 0))%nat.
Proof.
  unfold is_down, and_not, is_transport_alive, is_server_alive, is_stdio_alive.
  unfold transport_down, server_down, stdio_down, stdio_alive, alive.
  unfold went_down_signals, liveness_frame. unfold_M.
  destruct w as [c pid ? ? ? ? ? ? ? su tu ? p ? ? ? ? tr].
  destruct p as [ts ss pe ps]. unfold STATUS_ZOMBIE, default. simpl.
  destruct (transport c), ts, tu; simpl;
    destruct (server c), ss, su; simpl;
    destruct (truthy pid), pe; simpl;
    try (destruct ps as [s|]; simpl; try destruct (String.eqb s "zombie"));
    simpl;
    (eexists; split; [reflexivity|]; simpl;
     repeat split; rewrite ?filter_app, ?length_app; simpl; lia).
Qed.

Lemma polls_cons p ps w :
  polls (p :: ps) w =
  match is_down (set_procs p w) with
  | (Ret _, w1) => polls ps w1
  | (Raise e, w1) => (Raise e, w1)
  end.
Proof. reflexivity. Qed.

Lemma existsb_pointwise {A} (f g : A -> bool) l :
  (∀ x, f x = g x) -> existsb f l = existsb g l.
Proof. intros Hfg. induction l as [|x l IH]; simpl; [done|]. by rewrite Hfg, IH. Qed.

(** Over any run of polls, whatever the processes do in between, each of
    the two flags is raised by the first poll that finds a process of its
    own down, and the connectivity-lost signal is emitted once per flag
    raised. *)
Lemma polls_flags ps w :
  let td := existsb (transport_down w) ps in
  let sd := existsb (fun p => server_down w p || stdio_down w p) ps in
  ∃ w', polls ps w = (Ret tt, w')
    ∧ transport_unresponsive w' = transport_unresponsive w || td
    ∧ server_unresponsive w' = server_unresponsive w || sd
    ∧ went_down_signals w'
      = (went_down_signals w
         + (if negb (transport_unresponsive w) && td then 1 else 0)
         + (if negb (server_unresponsive w) && sd then 1 else 0))%nat.
Proof.
  revert w. induction ps as [|p ps IH]; intros w; simpl existsb.
  - exists w. rewrite !orb_false_r, !andb_false_r. repeat split. lia.
  - rewrite polls_cons.
    destruct (is_down_poll (set_procs p w)) as (w1 & Hrun & Hframe & Ht & Hs & Hn).
    rewrite Hrun.
    apply liveness_frame_fields in Hframe
      as (Hcfg & _ & _ & _ & _ & _ & _ & _ & _ & _ & _ & Hpid & _).
    destruct (IH w1) as (w' & Hrun' & Ht' & Hs' & Hn').
    exists w'. split; [exact Hrun'|].
    assert (Et : ∀ q, transport_down w1 q = transport_down w q).
    { intros q. unfold transport_down. by rewrite Hcfg. }
    assert (Es : ∀ q, server_down w1 q || stdio_down w1 q
                      = server_down w q || stdio_down w q).
    { intros q. unfold server_down, stdio_down. by rewrite Hcfg, Hpid. }
    rewrite (existsb_pointwise _ _ ps Et) in Ht', Hn'.
    rewrite (existsb_pointwise _ _ ps Es) in Hs', Hn'.
    change (transport_down (set_procs p w) (procs (set_procs p w)))
      with (transport_down w p) in *.
    change (server_down (set_procs p w) (procs (set_procs p w)))
      with (server_down w p) in *.
    change (stdio_down (set_procs p w) (procs (set_procs p w)))
      with (stdio_down w p) in *.
    change (transport_unresponsive (set_procs p w))
      with (transport_unresponsive w) in *.
    change (server_unresponsive (set_procs p w))
      with (server_unresponsive w) in *.
    change (went_down_signals (set_procs p w)) with (went_down_signals w) in *.
    rewrite Ht', Hs', Hn', Ht, Hs, Hn.
    destruct (transport_unresponsive w), (server_unresponsive w),
      (transport_down w p), (server_down w p || stdio_down w p),
      (existsb (transport_down w) ps),
      (existsb (λ q, server_down w q || stdio_down w q) ps);
      simpl; repeat split; lia.
Qed.

Lemma existsb_orb {A} (f g : A -> bool) l :
  existsb (fun x => f x || g x) l = existsb f l || existsb g l.
Proof.
  induction l as [|x l IH]; simpl; [reflexivity|]. rewrite IH.
  destruct (f x), (g x), (existsb f l), (existsb g l); reflexivity.
Qed.

Lemma existsb_never {A} (f : A -> bool) l :
  (∀ x, f x = false) -> existsb f l = false.
Proof. intros Hf. induction l as [|x l IH]; simpl; [done|]. by rewrite Hf. Qed.

(** C5. A session watches a local server process or a stdio-hosted server,
    never both: the client starts no process of its own for a server on
    stdio. In such a session, over any run of polls and whatever the
    processes do in between, each failure category (the transport, the
    server process, the stdio-hosted server) is signalled exactly once if
    some poll finds it down and it had not been reported before, at the
    first such poll, and never again however many polls follow while it
    stays down; a category that no poll finds down is not signalled. *)
Theorem polls_one_shot ps w :
  server (cfg w) && truthy (stdio_pid w) = false ->
  ∃ w', polls ps w = (Ret tt, w')
    ∧ transport_unresponsive w'
      = transport_unresponsive w || existsb (transport_down w) ps
    ∧ server_unresponsive w'
      = server_unresponsive w
        || existsb (server_down w) ps || existsb (stdio_down w) ps
    ∧ went_down_signals w'
      = (went_down_signals w
         + (if negb (transport_unresponsive w)
               && existsb (transport_down w) ps then 1 else 0)
         + (if negb (server_unresponsive w)
               && existsb (server_down w) ps then 1 else 0)
         + (if negb (server_unresponsive w)
               && existsb (stdio_down w) ps then 1 else 0))%nat.
Proof.
  intros Hone.
  destruct (polls_flags ps w) as (w' & Hrun & Ht & Hs & Hn).
  exists w'. split; [exact Hrun|]. split; [exact Ht|].
  rewrite existsb_orb in Hs, Hn.
  split; [by rewrite Hs, orb_assoc|].
  rewrite Hn.
  assert (Hnever : existsb (server_down w) ps = false
                   ∨ existsb (stdio_down w) ps = false).
  { apply andb_false_iff in Hone as [Hserver|Hpid].
    - left. apply existsb_never. intros p. unfold server_down.
      by rewrite Hserver.
    - right. apply existsb_never. intros p. unfold stdio_down.
      by rewrite Hpid. }
  destruct Hnever as [-> | ->];
    rewrite ?orb_false_l, ?orb_false_r, ?andb_false_r; lia.
Qed.

Lemma polls_one_shot_witness :
  let w := fresh "python" 0 accepting in
  let ps := [all_up; server_gone; server_gone; server_gone] in
  ∃ w', polls ps w = (Ret tt, w')
    ∧ transport_unresponsive w'
      = transport_unresponsive w || existsb (transport_down w) ps
    ∧ server_unresponsive w'
      = server_unresponsive w
        || existsb (server_down w) ps || existsb (stdio_down w) ps
    ∧ went_down_signals w'
      = (went_down_signals w
         + (if negb (transport_unresponsive w)
               && existsb (transport_down w) ps then 1 else 0)
         + (if negb (server_unresponsive w)
               && existsb (server_down w) ps then 1 else 0)
         + (if negb (server_unresponsive w)
               && existsb (stdio_down w) ps then 1 else 0))%nat.
Proof.
  intros w ps. apply (polls_one_shot ps w). reflexivity.
Defined.

(** ** Inbound responses (C8, C6, C3) *)


(** C8. A response without [error] and [method] whose [result] is null is
    dropped whole, whatever its id: processing it returns and leaves the
    world as it was, so no handler is called, no callback fires, and the
    entries of a matching request stay in [req_status] and [req_reply]: the
    caller waiting for that response is not completed. *)
Theorem null_result_resolves_nothing resp w :
  in_error resp = None ->
  in_method resp = None ->
  in_result resp = Some VNone ->
  handle_msg resp w = (Ret tt, w)
  ∧ ∀ i, in_id resp = Some i ->
      status_of i (handle_msg resp w).2 = status_of i w
      ∧ req_reply (handle_msg resp w).2 !! i = req_reply w !! i
      ∧ calls (handle_msg resp w).2 = calls w.
Proof.
  intros Herr Hm Hres.
  assert (Hrun : handle_msg resp w = (Ret tt, w)).
  { unfold handle_msg. unfold_M. by rewrite Herr, Hm, Hres. }
  split; [exact Hrun|]. intros i _. by rewrite Hrun.
Qed.

Lemma null_result_resolves_nothing_witness :
  let w := awaiting "python" 0 in
  (handle_msg (null_result 1) w = (Ret tt, w)
   ∧ ∀ i, in_id (null_result 1) = Some i ->
       status_of i (handle_msg (null_result 1) w).2 = status_of i w
       ∧ req_reply (handle_msg (null_result 1) w).2 !! i = req_reply w !! i
       ∧ calls (handle_msg (null_result 1) w).2 = calls w)
  ∧ status_of (Some 1) w = Some "textDocument/hover"
  ∧ req_reply w !! Some 1 = Some (VFunc "on_hover").
Proof.
  intros w. split.
  - apply (null_result_resolves_nothing (null_result 1) w); reflexivity.
  - vm_compute. split; reflexivity.
Defined.

(** Reporting an error does what [report] says. *)
Lemma report_error_spec error w :
  report_error error w
  = match report error with
    | inl exn => (Raise exn, w)
    | inr None => (Ret tt, w)
    | inr (Some text) =>
        (Ret tt, set_trace (trace w ++ [sig_server_error text]) w)
    end.
Proof.
  unfold report_error, report, or_raise, get_or, concat_str. unfold_M.
  destruct error as [| | | | |e|]; try reflexivity.
  destruct (dict_get "data" e) as [[| | | | |data|]|]; simpl; try reflexivity.
  destruct (dict_get "traceback" data) as [traceback|]; simpl; [|reflexivity].
  destruct traceback; simpl; try reflexivity;
    repeat match goal with
      | |- context [strings ?l] => destruct (strings l); simpl
      | |- context [dict_get "message" e] =>
          destruct (dict_get "message" e) as [[]|]; simpl
      end;
    reflexivity.
Qed.








(** ** Registering the reply callback (C10) *)

(** C10 (as the code has it). For a method with a registered sender,
    [perform_request] first calls the sender with [params]; when that call
    raises, [perform_request] raises the same and stores nothing. The
    senders of this file that take no [params], [shutdown], [exit] and
    [initialized_call], always raise [TypeError] so, and [initialize] raises
    [KeyError] for [params] without a ['pid']; a sender of the provider
    mix-in always returns. When the sender has returned [_id] and [params]
    has the key ['response_callback'] but not ['requires_response'],
    [perform_request] raises [KeyError] for the missing key instead of
    returning the id (the message has gone out by then). In every other
    case it returns the sender's id, and it has stored the callback in
    [req_reply] under that id exactly when both keys are present and the
    flag is true; otherwise [req_reply] is as the sender left it. *)
Theorem perform_request_callback method handler_name params w :
  sender_registry (cfg w) !! method = Some handler_name ->
  perform_request method params w
  = match call_sender handler_name params w with
    | (Raise e, w1) => (Raise e, w1)
    | (Ret _id, w1) =>
        match dict_get "response_callback" params,
              dict_get "requires_response" params with
        | Some callback, Some flag =>
            if truthy flag
            then (Ret _id, set_req_reply (<[_id := callback]> (req_reply w1)) w1)
            else (Ret _id, w1)
        | Some _, None => (Raise (KeyError "requires_response"), w1)
        | None, _ => (Ret _id, w1)
        end
    end
  ∧ (handler_name = "shutdown" ∨ handler_name = "exit"
     ∨ handler_name = "initialized_call" ->
     perform_request method params w = (Raise TypeError, w))
  ∧ (handler_name = "initialize" -> dict_get "pid" params = None ->
     perform_request method params w = (Raise (KeyError "pid"), w))
  ∧ (mixin_sender handler_name = true ->
     is_Some (mixin_senders (cfg w) handler_name) ->
     ∃ _id w1, call_sender handler_name params w = (Ret _id, w1)
       ∧ (dict_mem "response_callback" params = true ->
          dict_mem "requires_response" params = false ->
          perform_request method params w
          = (Raise (KeyError "requires_response"), w1))).
Proof.
  intros Hreg.
  assert (Hrun : perform_request method params w
    = match call_sender handler_name params w with
      | (Raise e, w1) => (Raise e, w1)
      | (Ret _id, w1) =>
          match dict_get "response_callback" params,
                dict_get "requires_response" params with
          | Some callback, Some flag =>
              if truthy flag
              then (Ret _id,
                    set_req_reply (<[_id := callback]> (req_reply w1)) w1)
              else (Ret _id, w1)
          | Some _, None => (Raise (KeyError "requires_response"), w1)
          | None, _ => (Ret _id, w1)
          end
      end).
  { unfold perform_request, getitem, dict_mem. unfold_M. rewrite Hreg.
    destruct (call_sender handler_name params w) as [[_id|e] w1]; [|done].
    destruct (dict_get "response_callback" params) as [cb|]; [|done].
    destruct (dict_get "requires_response" params) as [flag|]; [|done].
    by destruct (truthy flag). }
  split; [exact Hrun|]. split; [|split].
  - intros [-> | [-> | ->]]; rewrite Hrun; reflexivity.
  - intros -> Hpid. rewrite Hrun. unfold call_sender. simpl.
    unfold initialize, send_request, getitem. rewrite Hpid. reflexivity.
  - intros Hmix [s Hs]. unfold mixin_sender in Hmix.
    apply andb_prop in Hmix as [Hmix H4]. apply andb_prop in Hmix as [Hmix H3].
    apply andb_prop in Hmix as [H1 H2].
    apply negb_true_iff in H1, H2, H3, H4.
    destruct (send_spec (s_method s) (s_build s params) (s_kind s) w)
      as (_id & w1 & Hsend & _).
    assert (Hcall : call_sender handler_name params w = (Ret _id, w1)).
    { unfold call_sender. rewrite H1, H2, H3, H4. unfold_M. by rewrite Hs. }
    exists _id, w1. split; [exact Hcall|].
    intros Hcb Hflag. rewrite Hrun, Hcall. unfold dict_mem in Hcb, Hflag.
    destruct (dict_get "response_callback" params); [|discriminate].
    by destruct (dict_get "requires_response" params).
Qed.

Lemma perform_request_callback_witness :
  let w := fresh "python" 0 accepting in
  let method := "textDocument/hover" in
  let handler_name := "hover_request" in
  let params := callback_only in
  perform_request method params w
  = match call_sender handler_name params w with
    | (Raise e, w1) => (Raise e, w1)
    | (Ret _id, w1) =>
        match dict_get "response_callback" params,
              dict_get "requires_response" params with
        | Some callback, Some flag =>
            if truthy flag
            then (Ret _id, set_req_reply (<[_id := callback]> (req_reply w1)) w1)
            else (Ret _id, w1)
        | Some _, None => (Raise (KeyError "requires_response"), w1)
        | None, _ => (Ret _id, w1)
        end
    end
  ∧ (handler_name = "shutdown" ∨ handler_name = "exit"
     ∨ handler_name = "initialized_call" ->
     perform_request method params w = (Raise TypeError, w))
  ∧ (handler_name = "initialize" -> dict_get "pid" params = None ->
     perform_request method params w = (Raise (KeyError "pid"), w))
  ∧ (mixin_sender handler_name = true ->
     is_Some (mixin_senders (cfg w) handler_name) ->
     ∃ _id w1, call_sender handler_name params w = (Ret _id, w1)
       ∧ (dict_mem "response_callback" params = true ->
          dict_mem "requires_response" params = false ->
          perform_request method params w
          = (Raise (KeyError "requires_response"), w1))).
Proof.
  intros w method handler_name params.
  apply (perform_request_callback method handler_name params w).
  reflexivity.
Defined.

(** C10 as stated fails for the senders of this file that take no
    [params]: [shutdown] is registered for its method like every decorated
    sender, and a request for it whose [params] hold a callback and no flag
    raises [TypeError] when the sender is called, not [KeyError]; nothing is
    sent. *)
Lemma perform_request_sender_counterexample :
  let w := new_client own_senders sample_capabilities sample_options all_up 5000 in
  sender_registry (cfg w) !! SHUTDOWN = Some "shutdown"
  ∧ dict_mem "response_callback" callback_only = true
  ∧ dict_mem "requires_response" callback_only = false
  ∧ perform_request SHUTDOWN callback_only w = (Raise TypeError, w).
Proof. vm_compute. repeat split. Qed.

(** ** Merging the server's capabilities (C4) *)

Lemma dict_get_set_eq k v d : dict_get k (dict_set k v d) = Some v.
Proof.
  induction d as [|[k' v'] d IH]; simpl.
  - by rewrite String.eqb_refl.
  - destruct (String.eqb k k') eqn:E; simpl; by rewrite E.
Qed.

Lemma dict_get_set_ne k k' v d :
  k ≠ k' -> dict_get k (dict_set k' v d) = dict_get k d.
Proof.
  intros Hne. induction d as [|[k'' v''] d IH]; simpl.
  - by apply String.eqb_neq in Hne as ->.
  - destruct (String.eqb k' k'') eqn:E; simpl.
    + apply String.eqb_eq in E as <-. by apply String.eqb_neq in Hne as ->.
    + by rewrite IH.
Qed.

Lemma dict_get_pop_eq k d : dict_get k (dict_pop k d) = None.
Proof.
  induction d as [|[k' v'] d IH]; simpl; [done|].
  destruct (String.eqb k k') eqn:E; simpl; [done|]. by rewrite E.
Qed.

Lemma dict_get_pop_ne k k' d :
  k ≠ k' -> dict_get k (dict_pop k' d) = dict_get k d.
Proof.
  intros Hne. induction d as [|[k'' v''] d IH]; simpl; [done|].
  destruct (String.eqb k' k'') eqn:E; simpl.
  - apply String.eqb_eq in E as <-. by apply String.eqb_neq in Hne as ->.
  - by rewrite IH.
Qed.

Lemma dict_set_idemp k v d : dict_set k v (dict_set k v d) = dict_set k v d.
Proof.
  induction d as [|[k' v'] d IH]; simpl.
  - by rewrite String.eqb_refl.
  - destruct (String.eqb k k') eqn:E; simpl; rewrite E; [done|]. by rewrite IH.
Qed.

Lemma lookup_list_to_map_dict (d : Dict) k :
  (list_to_map d : gmap string Value) !! k = dict_get k d.
Proof.
  induction d as [|[k' v'] d IH]; simpl; [done|].
  destruct (String.eqb k k') eqn:E.
  - apply String.eqb_eq in E as ->. by rewrite lookup_insert_eq.
  - apply String.eqb_neq in E. by rewrite lookup_insert_ne.
Qed.

Lemma lookup_dict_update d m k :
  dict_update d m !! k = match dict_get k d with
                         | Some v => Some v
                         | None => m !! k
                         end.
Proof.
  unfold dict_update. rewrite lookup_union, lookup_list_to_map_dict.
  destruct (dict_get k d), (m !! k); reflexivity.
Qed.

Lemma dict_update_idemp d m : dict_update d (dict_update d m) = dict_update d m.
Proof.
  unfold dict_update. rewrite (assoc_L (∪)). by rewrite (idemp_L (∪)).
Qed.

Lemma normalized_idemp sync capabilites options :
  normalized sync capabilites
    (if isinstance_int sync then dict_set "change" sync options else options)
  = normalized sync capabilites options.
Proof.
  unfold normalized. destruct (isinstance_int sync); [|done].
  by rewrite dict_set_idemp.
Qed.

Lemma bind_Ret {A B} (m : M A) (k : A -> M B) a w w1 :
  m w = (Ret a, w1) -> bind m k w = k a w1.
Proof. unfold bind. by intros ->. Qed.

Lemma send_notification_ret method d w :
  send_notification method (ret d) w = send method d NOTIFICATION w.
Proof. reflexivity. Qed.

Ltac bind_step := erewrite bind_Ret by reflexivity.

(** What the handler does with a payload it can read. *)
Lemma process_server_capabilities_spec payload capabilites sync w :
  dict_get "capabilities" payload = Some (VDict capabilites) ->
  dict_get "textDocumentSync" capabilites = Some sync ->
  ∃ w', process_server_capabilities (VDict payload) w
        = (Ret (VDict (dict_set "capabilities"
                         (VDict (normalized sync capabilites
                                   (TEXT_DOCUMENT_SYNC_OPTIONS w)))
                         payload)), w')
    ∧ cfg w' = cfg w
    ∧ initialized w' = true
    ∧ TEXT_DOCUMENT_SYNC_OPTIONS w'
      = (if isinstance_int sync
         then dict_set "change" sync (TEXT_DOCUMENT_SYNC_OPTIONS w)
         else TEXT_DOCUMENT_SYNC_OPTIONS w)
    ∧ server_capabilites w'
      = dict_update
          (normalized sync capabilites (TEXT_DOCUMENT_SYNC_OPTIONS w))
          (server_capabilites w).
Proof.
  intros Hcaps Hsync. unfold process_server_capabilities.
  bind_step. unfold send_plugin_configurations.
  destruct (send_spec WORKSPACE_CONFIGURATION_CHANGE
              [("settings", VDict (plugin_configurations (cfg w)))]
              NOTIFICATION w) as (r1 & w1 & Hrun1 & Hframe1 & _).
  erewrite bind_Ret by (rewrite send_notification_ret; exact Hrun1).
  apply send_frame_fields in Hframe1 as (Hcfg1 & _ & Hcap1 & Hopt1 & _).
  rewrite <- Hcfg1, <- Hcap1, <- Hopt1. clear Hrun1 Hcfg1 Hcap1 Hopt1.
  bind_step.
  erewrite bind_Ret by (unfold getitem; rewrite Hcaps; reflexivity).
  erewrite bind_Ret by (unfold getitem; rewrite Hsync; reflexivity).
  bind_step.
  assert (Hsend : ∀ (v : Value) w4, ∃ w5,
            bind initialized_call (fun _ => ret v) w4 = (Ret v, w5)
            ∧ cfg w5 = cfg w4 ∧ initialized w5 = initialized w4
            ∧ TEXT_DOCUMENT_SYNC_OPTIONS w5 = TEXT_DOCUMENT_SYNC_OPTIONS w4
            ∧ server_capabilites w5 = server_capabilites w4).
  { intros v w4. destruct (send_spec INITIALIZED [] NOTIFICATION w4)
      as (r2 & w5 & Hrun2 & Hframe2 & _).
    apply send_frame_fields in Hframe2 as (? & _ & ? & ? & ? & _).
    exists w5. split; [|done].
    erewrite bind_Ret
      by (unfold initialized_call; rewrite send_notification_ret; exact Hrun2).
    reflexivity. }
  unfold normalized. destruct (isinstance_int sync) eqn:Hint.
  - assert (is_None sync = false) as -> by (by destruct sync).
    bind_step. unfold getitem at 1. rewrite dict_get_set_eq.
    repeat bind_step.
    match goal with |- context [bind initialized_call (fun _ => ret ?v) ?w4] =>
      destruct (Hsend v w4) as (w5 & -> & E1 & E2 & E3 & E4) end.
    exists w5. split; [reflexivity|]. by rewrite E1, E2, E3, E4.
  - bind_step.
    erewrite bind_Ret by (unfold getitem; rewrite Hsync; reflexivity).
    destruct (is_None sync); repeat bind_step;
      match goal with |- context [bind initialized_call (fun _ => ret ?v) ?w4] =>
        destruct (Hsend v w4) as (w5 & -> & E1 & E2 & E3 & E4) end;
      exists w5; (split; [reflexivity|]); by rewrite E1, E2, E3, E4.
Qed.

(** A payload whose capabilities lack the sync mode: the handler raises
    before it merges anything. *)
Lemma process_server_capabilities_KeyError payload capabilites w :
  dict_get "capabilities" payload = Some (VDict capabilites) ->
  dict_get "textDocumentSync" capabilites = None ->
  ∃ w', process_server_capabilities (VDict payload) w
        = (Raise (KeyError "textDocumentSync"), w')
    ∧ TEXT_DOCUMENT_SYNC_OPTIONS w' = TEXT_DOCUMENT_SYNC_OPTIONS w
    ∧ server_capabilites w' = server_capabilites w.
Proof.
  intros Hcaps Hsync. unfold process_server_capabilities.
  bind_step. unfold send_plugin_configurations.
  destruct (send_spec WORKSPACE_CONFIGURATION_CHANGE
              [("settings", VDict (plugin_configurations (cfg w)))]
              NOTIFICATION w) as (r1 & w1 & Hrun1 & Hframe1 & _).
  erewrite bind_Ret by (rewrite send_notification_ret; exact Hrun1).
  apply send_frame_fields in Hframe1 as (_ & _ & Hcap1 & Hopt1 & _).
  bind_step.
  erewrite bind_Ret by (unfold getitem; rewrite Hcaps; reflexivity).
  unfold bind, getitem. rewrite Hsync. eexists. split; [reflexivity|].
  simpl. by rewrite Hcap1, Hopt1.
Qed.

(** C4 (as the code has it). For a payload the handler can read (a
    [capabilities] object with a [textDocumentSync] entry), processing it
    returns, and processing an equal payload once more leaves the merged
    capability set and the shared sync options as the first time; so does
    handing the handler the very object it has already updated in place,
    although for a null sync mode that second call raises [KeyError]. An
    [int] sync mode is stored as the options object with ['change'] set to
    that integer, a function of the integer and the options alone. A null
    sync mode is dropped from the payload before the merge, so the merged
    set keeps the entry it had (the default, or what an earlier response put
    there): it is neither removed from the merged set nor set to null. Any
    other sync mode is stored as it is, and every other key of the payload
    overrides the merged set's, the rest of which stays. *)
Theorem capability_merge payload capabilites sync w :
  dict_get "capabilities" payload = Some (VDict capabilites) ->
  dict_get "textDocumentSync" capabilites = Some sync ->
  ∃ updated w1 w2,
    process_server_capabilities (VDict payload) w = (Ret updated, w1)
    ∧ process_server_capabilities (VDict payload) w1 = (Ret updated, w2)
    ∧ server_capabilites w2 = server_capabilites w1
    ∧ TEXT_DOCUMENT_SYNC_OPTIONS w2 = TEXT_DOCUMENT_SYNC_OPTIONS w1
    ∧ server_capabilites (process_server_capabilities updated w1).2
      = server_capabilites w1
    ∧ TEXT_DOCUMENT_SYNC_OPTIONS (process_server_capabilities updated w1).2
      = TEXT_DOCUMENT_SYNC_OPTIONS w1
    ∧ (isinstance_int sync = true ->
       server_capabilites w1 !! "textDocumentSync"
       = Some (VDict (dict_set "change" sync (TEXT_DOCUMENT_SYNC_OPTIONS w)))
       ∧ dict_get "change" (dict_set "change" sync (TEXT_DOCUMENT_SYNC_OPTIONS w))
         = Some sync)
    ∧ (sync = VNone ->
       server_capabilites w1 !! "textDocumentSync"
       = server_capabilites w !! "textDocumentSync"
       ∧ (process_server_capabilities updated w1).1
         = Raise (KeyError "textDocumentSync"))
    ∧ (isinstance_int sync = false -> sync ≠ VNone ->
       server_capabilites w1 !! "textDocumentSync" = Some sync)
    ∧ (∀ k, k ≠ "textDocumentSync" ->
       server_capabilites w1 !! k
       = match dict_get k capabilites with
         | Some v => Some v
         | None => server_capabilites w !! k
         end).
Proof.
  intros Hcaps Hsync.
  destruct (process_server_capabilities_spec payload capabilites sync w Hcaps Hsync)
    as (w1 & Hrun1 & _ & _ & Hopt1 & Hmerged1).
  destruct (process_server_capabilities_spec payload capabilites sync w1 Hcaps Hsync)
    as (w2 & Hrun2 & _ & _ & Hopt2 & Hmerged2).
  assert (Hnorm : normalized sync capabilites (TEXT_DOCUMENT_SYNC_OPTIONS w1)
                  = normalized sync capabilites (TEXT_DOCUMENT_SYNC_OPTIONS w)).
  { rewrite Hopt1. apply normalized_idemp. }
  rewrite Hnorm in Hrun2, Hmerged2.
  set (merged := normalized sync capabilites (TEXT_DOCUMENT_SYNC_OPTIONS w)) in *.
  exists (VDict (dict_set "capabilities" (VDict merged) payload)), w1, w2.
  split; [exact Hrun1|]. split; [exact Hrun2|].
  assert (Hidem : server_capabilites w2 = server_capabilites w1).
  { rewrite Hmerged2, Hmerged1. apply dict_update_idemp. }
  assert (Hoptidem : TEXT_DOCUMENT_SYNC_OPTIONS w2 = TEXT_DOCUMENT_SYNC_OPTIONS w1).
  { rewrite Hopt2, Hopt1. destruct (isinstance_int sync); [|done].
    apply dict_set_idemp. }
  split; [exact Hidem|]. split; [exact Hoptidem|].
  assert (Hagain :
    server_capabilites
      (process_server_capabilities
         (VDict (dict_set "capabilities" (VDict merged) payload)) w1).2
    = server_capabilites w1
    ∧ TEXT_DOCUMENT_SYNC_OPTIONS
        (process_server_capabilities
           (VDict (dict_set "capabilities" (VDict merged) payload)) w1).2
      = TEXT_DOCUMENT_SYNC_OPTIONS w1
    ∧ (sync = VNone ->
       (process_server_capabilities
          (VDict (dict_set "capabilities" (VDict merged) payload)) w1).1
       = Raise (KeyError "textDocumentSync"))).
  { pose proof (dict_get_set_eq "capabilities" (VDict merged) payload) as Hcaps'.
    destruct (is_None sync) eqn:Hnone.
    - assert (sync = VNone) as -> by (by destruct sync).
      assert (Hgone : dict_get "textDocumentSync" merged = None).
      { subst merged. unfold normalized. simpl. apply dict_get_pop_eq. }
      destruct (process_server_capabilities_KeyError _ _ w1 Hcaps' Hgone)
        as (w3 & -> & E1 & E2). by repeat split.
    - destruct (isinstance_int sync) eqn:Hint.
      + assert (Hsync' : dict_get "textDocumentSync" merged
                         = Some (VDict (dict_set "change" sync
                                          (TEXT_DOCUMENT_SYNC_OPTIONS w)))).
        { subst merged. unfold normalized. rewrite Hint, Hnone.
          apply dict_get_set_eq. }
        destruct (process_server_capabilities_spec _ _ _ w1 Hcaps' Hsync')
          as (w3 & -> & _ & _ & E1 & E2). simpl.
        assert (Hfix : normalized
                  (VDict (dict_set "change" sync (TEXT_DOCUMENT_SYNC_OPTIONS w)))
                  merged (TEXT_DOCUMENT_SYNC_OPTIONS w1) = merged) by done.
        rewrite Hfix in E2. simpl in E1.
        split; [|split; [exact E1|by intros ->]].
        rewrite E2, Hmerged1. apply dict_update_idemp.
      + assert (Hsame : merged = capabilites).
        { subst merged. unfold normalized. by rewrite Hint, Hnone. }
        rewrite Hsame in *.
        destruct (process_server_capabilities_spec _ _ _ w1 Hcaps' Hsync)
          as (w3 & -> & _ & _ & E1 & E2). simpl.
        rewrite Hint in E1. rewrite Hnorm in E2.
        split; [|split; [exact E1|by intros ->]].
        rewrite E2, Hmerged1. apply dict_update_idemp. }
  destruct Hagain as (Hagain1 & Hagain2 & Hagain3).
  split; [exact Hagain1|]. split; [exact Hagain2|].
  rewrite Hmerged1. subst merged. unfold normalized.
  split; [|split; [|split]].
  - intros Hint. rewrite Hint.
    assert (is_None sync = false) as -> by (by destruct sync).
    split; [|apply dict_get_set_eq].
    by rewrite lookup_dict_update, dict_get_set_eq.
  - intros Hnone. split; [|by apply Hagain3]. subst sync. simpl.
    by rewrite lookup_dict_update, dict_get_pop_eq.
  - intros Hint Hnone. rewrite Hint.
    assert (is_None sync = false) as -> by (by destruct sync).
    by rewrite lookup_dict_update, Hsync.
  - intros k Hk. rewrite lookup_dict_update.
    destruct (isinstance_int sync), (is_None sync);
      rewrite ?dict_get_pop_ne, ?dict_get_set_ne by done; reflexivity.
Qed.

Lemma capability_merge_witness :
  let w := fresh "python" 0 accepting in
  let capabilites := [("textDocumentSync", VInt 2);
                      ("hoverProvider", VBool true)] in
  let payload := [("capabilities", VDict capabilites)] in
  let sync := VInt 2 in
  ∃ updated w1 w2,
    process_server_capabilities (VDict payload) w = (Ret updated, w1)
    ∧ process_server_capabilities (VDict payload) w1 = (Ret updated, w2)
    ∧ server_capabilites w2 = server_capabilites w1
    ∧ TEXT_DOCUMENT_SYNC_OPTIONS w2 = TEXT_DOCUMENT_SYNC_OPTIONS w1
    ∧ server_capabilites (process_server_capabilities updated w1).2
      = server_capabilites w1
    ∧ TEXT_DOCUMENT_SYNC_OPTIONS (process_server_capabilities updated w1).2
      = TEXT_DOCUMENT_SYNC_OPTIONS w1
    ∧ (isinstance_int sync = true ->
       server_capabilites w1 !! "textDocumentSync"
       = Some (VDict (dict_set "change" sync (TEXT_DOCUMENT_SYNC_OPTIONS w)))
       ∧ dict_get "change" (dict_set "change" sync (TEXT_DOCUMENT_SYNC_OPTIONS w))
         = Some sync)
    ∧ (sync = VNone ->
       server_capabilites w1 !! "textDocumentSync"
       = server_capabilites w !! "textDocumentSync"
       ∧ (process_server_capabilities updated w1).1
         = Raise (KeyError "textDocumentSync"))
    ∧ (isinstance_int sync = false -> sync ≠ VNone ->
       server_capabilites w1 !! "textDocumentSync" = Some sync)
    ∧ (∀ k, k ≠ "textDocumentSync" ->
       server_capabilites w1 !! k
       = match dict_get k capabilites with
         | Some v => Some v
         | None => server_capabilites w !! k
         end).
Proof.
  intros w capabilites payload sync.
  apply (capability_merge payload capabilites sync w); reflexivity.
Defined.

(** C4 as stated fails on the null sync mode: a session that has merged a
    response advertising sync mode 2 and then one advertising a null sync
    mode still has the ['textDocumentSync'] entry of the first in its
    merged set; the null one removed nothing from it. *)
Lemma null_sync_counterexample :
  let w := new_client (sample_config "python" 0 accepting) ∅ sample_options
             all_up 5000 in
  let w1 := (process_server_capabilities (initialize_result (VInt 2)) w).2 in
  let r := process_server_capabilities (initialize_result VNone) w1 in
  server_capabilites w !! "textDocumentSync" = None
  ∧ r.1 = Ret (VDict [("capabilities", VDict [("hoverProvider", VBool true)])])
  ∧ server_capabilites r.2 !! "textDocumentSync"
    = Some (VDict (dict_set "change" (VInt 2) sample_options))
  ∧ server_capabilites r.2 !! "textDocumentSync"
    = server_capabilites w1 !! "textDocumentSync".
Proof. vm_compute. repeat split. Qed.

(** ** Request ids (C1) *)

Lemma issues_refl w : issues w w.
Proof. unfold issues. repeat split; try lia. intros k Hk. by left. Qed.

Lemma issues_trans w1 w2 w3 : issues w1 w2 -> issues w2 w3 -> issues w1 w3.
Proof.
  intros (Hc1 & Hle1 & Hn1 & Hk1) (Hc2 & Hle2 & Hn2 & Hk2).
  unfold issues. repeat split; try congruence; try lia.
  intros k Hk. destruct (Hk2 k Hk) as [Hin|Hin]; [|right; lia].
  destruct (Hk1 k Hin) as [Hin'|Hin']; [by left|right; lia].
Qed.

Lemma steady_refl w : steady w w.
Proof. split; [apply issues_refl|done]. Qed.

Lemma steady_trans w1 w2 w3 : steady w1 w2 -> steady w2 w3 -> steady w1 w3.
Proof.
  intros [H1 E1] [H2 E2]. split; [by eapply issues_trans|congruence].
Qed.

Lemma issues_fields w w' :
  cfg w' = cfg w -> request_seq w' = request_seq w ->
  written w' = written w ->
  (∀ k, is_Some (req_status w' !! k) -> is_Some (req_status w !! k)) ->
  issues w w'.
Proof.
  intros Hc Hs Hw Hk. unfold issues.
  rewrite Hc, Hs, Hw. repeat split; try lia. intros k Hin. left. by apply Hk.
Qed.

Lemma steady_fields w w' :
  cfg w' = cfg w -> request_seq w' = request_seq w ->
  written w' = written w ->
  (∀ k, is_Some (req_status w' !! k) -> is_Some (req_status w !! k)) ->
  inbox w' = inbox w ->
  steady w w'.
Proof. intros Hc Hs Hw Hk Hi. split; [by apply issues_fields|exact Hi]. Qed.

Lemma preserves_ret {A} (a : A) : preserves (ret a).
Proof. intros w r w' H. injection H as _ <-. apply steady_refl. Qed.

Lemma preserves_raise {A} e : preserves (@raise A e).
Proof. intros w r w' H. injection H as _ <-. apply steady_refl. Qed.

Lemma preserves_gets {A} (f : World -> A) : preserves (gets f).
Proof. intros w r w' H. injection H as _ <-. apply steady_refl. Qed.

Lemma preserves_asks {A} (f : Config -> A) : preserves (asks f).
Proof. intros w r w' H. injection H as _ <-. apply steady_refl. Qed.

Lemma preserves_skip : preserves skip.
Proof. apply preserves_ret. Qed.

Lemma preserves_bind {A B} (m : M A) (k : A -> M B) :
  preserves m -> (∀ a, preserves (k a)) -> preserves (bind m k).
Proof.
  intros Hm Hk w r w'. unfold bind.
  destruct (m w) as [[a|e] w1] eqn:Hrun; intros H.
  - eapply steady_trans; [by eapply Hm|by eapply Hk].
  - injection H as _ <-. by eapply Hm.
Qed.

Lemma preserves_modify (f : World -> World) :
  (∀ w, steady w (f w)) -> preserves (modify f).
Proof. intros Hf w r w' H. injection H as _ <-. apply Hf. Qed.

Lemma preserves_emit e : is_send_pyobj e = false -> preserves (emit e).
Proof.
  intros He. apply preserves_modify. intros w.
  apply steady_fields; try done. unfold written. simpl.
  rewrite filter_app. simpl. destruct e; try discriminate; apply app_nil_r.
Qed.

Lemma preserves_log r : preserves (log r).
Proof. by apply preserves_emit. Qed.

Lemma preserves_except m : preserves m -> preserves (except_RuntimeError m).
Proof.
  intros Hm w r w'. unfold except_RuntimeError.
  destruct (m w) as [[[]|e] w1] eqn:Hrun; intros H;
    [|destruct e]; injection H as _ <-; by eapply Hm.
Qed.

Lemma preserves_send method params kind : preserves (send method params kind).
Proof.
  intros w r w' Hrun.
  destruct (send_spec method params kind w) as (r0 & w0 & Hrun0 & Hframe & Hres).
  rewrite Hrun in Hrun0. inversion Hrun0; subst; clear Hrun0.
  apply send_frame_fields in Hframe as (Hcfg & _ & _ & _ & _ & _ & _ & Hin & _).
  split; [|exact Hin]. unfold issues, written.
  assert (Hrec : ∀ k, is_Some (recorded method kind w !! k) ->
            is_Some (req_status w !! k) ∨ k = request_seq w).
  { intros k. unfold recorded. destruct kind; auto.
    intros [<-|[_ Hk]]%lookup_insert_is_Some; auto. }
  destruct Hres as [(_ & Hs & Hw & Hst)|(_ & Hs & Hst & Hw)]; rewrite Hs, Hw.
  - repeat split; try done; try lia. intros k Hk.
    destruct Hst as [Hst|Hst]; rewrite Hst in Hk; [by left|].
    destruct (Hrec k Hk) as [? | ->]; [by left|right; lia].
  - rewrite length_app. simpl. repeat split; try done; try lia.
    intros k Hk. rewrite Hst in Hk.
    destruct (Hrec k Hk) as [? | ->]; [by left|right; lia].
Qed.

Lemma preserves_is_down : preserves is_down.
Proof.
  intros w r w' Hrun.
  destruct (is_down_total w) as (b & w1 & evs & Hrun1 & Hframe & Htr & Hevs).
  rewrite Hrun in Hrun1. inversion Hrun1; subst; clear Hrun1.
  apply liveness_frame_fields in Hframe
    as (Hc & Hs & Hst & _ & _ & _ & _ & _ & _ & _ & _ & _ & Hi).
  apply steady_fields; try done.
  - unfold written. by rewrite Htr, filter_app, (liveness_not_sent _ Hevs), app_nil_r.
  - intros k. by rewrite Hst.
Qed.

Create HintDb preserves.

#[local] Hint Resolve preserves_ret preserves_raise preserves_gets
  preserves_asks preserves_skip preserves_log preserves_send
  preserves_is_down preserves_except : preserves.

(** Walks down a computation: splits binds, follows branches, and leaves
    the steps to the hints. *)
Ltac preserve :=
  repeat first
    [ solve [auto with preserves]
    | match goal with
      | |- preserves (if ?b then _ else _) => destruct b
      | |- preserves (match ?x with _ => _ end) => destruct x
      | |- preserves (bind _ _) => apply preserves_bind; [|intros ?]
      end
    | apply preserves_emit; reflexivity
    | apply preserves_modify; intros ?; apply steady_fields; done ].

Lemma preserves_getitem v k : preserves (getitem v k).
Proof. unfold getitem. preserve. Qed.

Lemma preserves_call_value f args : preserves (call_value f args).
Proof. unfold call_value. preserve. Qed.

#[local] Hint Resolve preserves_getitem preserves_call_value : preserves.

Lemma preserves_send_request method req :
  preserves req -> preserves (send_request method req).
Proof. intros Hreq. unfold send_request. preserve. Qed.

Lemma preserves_send_notification method req :
  preserves req -> preserves (send_notification method req).
Proof. intros Hreq. unfold send_notification. preserve. Qed.

Lemma preserves_initialize params : preserves (initialize params).
Proof. unfold initialize. apply preserves_send_request. preserve. Qed.

Lemma preserves_process_server_capabilities response :
  preserves (process_server_capabilities response).
Proof.
  unfold process_server_capabilities, send_plugin_configurations,
    initialized_call, as_dict.
  preserve; apply preserves_send_notification; preserve.
Qed.

#[local] Hint Resolve preserves_initialize
  preserves_process_server_capabilities : preserves.

Lemma preserves_call_handler handler_name args :
  preserves (call_handler handler_name args).
Proof. unfold call_handler, handle_shutdown. preserve. Qed.

#[local] Hint Resolve preserves_call_handler : preserves.

Lemma steady_pop_status req_id w : steady w (pop_status req_id w).
Proof.
  destruct req_id as [z|]; [|apply steady_refl]. apply steady_fields; try done.
  simpl. intros k [_ Hk]%lookup_delete_is_Some. exact Hk.
Qed.

Lemma preserves_handle_msg resp :
  resets_counter resp = false -> preserves (handle_msg resp).
Proof.
  unfold resets_counter, handle_msg, resp_id, resp_params, py_int,
    report_error, or_raise.
  destruct (in_error resp) as [error|].
  - intros _. preserve.
  - destruct (in_method resp) as [[|c method]|].
    + intros _. preserve.
    + destruct (in_id resp) as [i|]; intros Hc.
      * apply negb_false_iff in Hc. rewrite Hc. preserve.
      * preserve.
    + intros _. preserve.
      * apply preserves_modify. apply steady_pop_status.
      * apply preserves_modify. intros w.
        destruct (req_reply w !! _); [|apply steady_refl].
        by apply steady_fields.
Qed.

Lemma send_success_counter method params kind w i w' :
  send method params kind w = (Ret (Some i), w') ->
  i = request_seq w ∧ request_seq w' = request_seq w + 1.
Proof.
  intros Hsend.
  destruct (send_spec method params kind w) as (r & w1 & Hrun & _ & Hres).
  rewrite Hsend in Hrun. injection Hrun as <- <-.
  destruct Hres as [(Hr & _)|(Hr & Hseq & _)]; [discriminate|].
  by injection Hr as ->.
Qed.

Lemma drain_issues pending :
  existsb resets_counter pending = false ->
  ∀ w r w', drain pending w = (r, w') ->
    existsb resets_counter (inbox w) = false ->
    issues w w' ∧ existsb resets_counter (inbox w') = false.
Proof.
  induction pending as [|resp pending IH]; intros Hpending w r w' Hrun Hin.
  - injection Hrun as _ <-. split; [by apply issues_fields|exact Hin].
  - simpl in Hpending. apply orb_false_elim in Hpending as [Hresp Hrest].
    cbn [drain] in Hrun. unfold bind at 1, modify at 1 in Hrun.
    unfold bind at 1 in Hrun.
    destruct (except_RuntimeError (handle_msg resp) (set_inbox pending w))
      as [[[]|e] w1] eqn:Hmsg.
    + apply (preserves_except _ (preserves_handle_msg resp Hresp)) in Hmsg
        as [Hiss Hbox].
      destruct (IH Hrest w1 r w' Hrun) as [Hiss' Hbox'].
      { by rewrite Hbox. }
      split; [|exact Hbox']. eapply issues_trans; [|exact Hiss'].
      eapply issues_trans; [|exact Hiss]. by apply issues_fields.
    + apply (preserves_except _ (preserves_handle_msg resp Hresp)) in Hmsg
        as [Hiss Hbox].
      injection Hrun as _ <-. split; [|by rewrite Hbox].
      eapply issues_trans; [|exact Hiss]. by apply issues_fields.
Qed.

Lemma on_msg_received_issues w r w' :
  existsb resets_counter (inbox w) = false ->
  on_msg_received w = (r, w') ->
  issues w w' ∧ existsb resets_counter (inbox w') = false.
Proof.
  intros Hin Hrun. unfold on_msg_received in Hrun.
  unfold bind at 1, modify at 1, bind at 1, gets at 1 in Hrun.
  apply drain_issues in Hrun as [Hiss Hbox]; try exact Hin.
  split; [|exact Hbox]. eapply issues_trans; [|exact Hiss]. by apply issues_fields.
Qed.

Lemma run_send method params kind ops w :
  run (OSend method params kind :: ops) w =
  match send method params kind w with
  | (Ret r, w1) =>
      match run ops w1 with
      | (Ret rs, w2) => (Ret (r :: rs), w2)
      | (Raise e, w2) => (Raise e, w2)
      end
  | (Raise e, w1) => (Raise e, w1)
  end.
Proof.
  simpl. unfold_M. destruct (send method params kind w) as [[r|e] w1]; [|done].
  by destruct (run ops w1) as [[rs|e] w2].
Qed.

Lemma run_poll ops w :
  run (OPoll :: ops) w =
  match is_down w with
  | (Ret _, w1) => run ops w1
  | (Raise e, w1) => (Raise e, w1)
  end.
Proof. reflexivity. Qed.

Lemma run_procs p ops w : run (OProcs p :: ops) w = run ops (set_procs p w).
Proof. reflexivity. Qed.

Lemma run_deliver msgs ops w :
  run (ODeliver msgs :: ops) w =
  match on_msg_received (set_inbox (inbox w ++ msgs) w) with
  | (Ret _, w1) => run ops w1
  | (Raise e, w1) => (Raise e, w1)
  end.
Proof. reflexivity. Qed.

(** However a run without counter-resetting messages ends, the counter has
    moved in step with the accepted writes, and the ids it has returned are
    increasing values of the counter. *)
Lemma run_issues ops :
  existsb delivers_reset ops = false ->
  ∀ w r w', run ops w = (r, w') ->
    existsb resets_counter (inbox w) = false ->
    issues w w' ∧ existsb resets_counter (inbox w') = false
    ∧ ∀ rs, r = Ret rs ->
        StronglySorted Z.lt (assigned rs)
        ∧ Forall (fun i => request_seq w <= i < request_seq w') (assigned rs).
Proof.
  induction ops as [|o ops IH]; intros Hops w r w' Hrun Hin.
  - injection Hrun as <- <-. split; [apply issues_refl|]. split; [exact Hin|].
    intros rs [= <-]. split; constructor.
  - simpl in Hops. apply orb_false_elim in Hops as [Ho Hops].
    specialize (IH Hops). destruct o as [method params kind| |p|msgs].
    + rewrite run_send in Hrun.
      destruct (send method params kind w) as [[r1|e] w1] eqn:Hsend.
      2: { injection Hrun as <- <-. apply preserves_send in Hsend as [Hiss Hbox].
           split; [exact Hiss|]. split; [by rewrite Hbox|]. intros rs [=]. }
      pose proof (preserves_send _ _ _ _ _ _ Hsend) as [Hiss Hbox].
      destruct (run ops w1) as [r2 w2] eqn:Hrest.
      destruct (IH w1 r2 w2 Hrest) as (Hiss' & Hbox' & Hids);
        [by rewrite Hbox|].
      assert (w' = w2) as -> by (destruct r2; by injection Hrun).
      split; [by eapply issues_trans|]. split; [exact Hbox'|].
      intros rs ->. destruct r2 as [rs2|e]; [|discriminate].
      injection Hrun as <-. destruct (Hids rs2 eq_refl) as [Hsorted Hrange].
      destruct Hiss as (_ & Hle & _). destruct Hiss' as (_ & Hle' & _).
      destruct r1 as [i|]; simpl.
      * apply send_success_counter in Hsend as [-> Hs].
        split; [constructor; [exact Hsorted|]|constructor; [lia|]];
          (eapply Forall_impl; [exact Hrange|]); simpl; intros; lia.
      * split; [exact Hsorted|].
        eapply Forall_impl; [exact Hrange|]. simpl. intros. lia.
    + rewrite run_poll in Hrun.
      destruct (is_down w) as [[b|e] w1] eqn:Hpoll.
      2: { injection Hrun as <- <-. apply preserves_is_down in Hpoll as [Hiss Hbox].
           split; [exact Hiss|]. split; [by rewrite Hbox|]. intros rs [=]. }
      apply preserves_is_down in Hpoll as [Hiss Hbox].
      destruct (IH w1 r w' Hrun) as (Hiss' & Hbox' & Hids); [by rewrite Hbox|].
      split; [by eapply issues_trans|]. split; [exact Hbox'|].
      intros rs Hrs. destruct (Hids rs Hrs) as [Hsorted Hrange].
      split; [exact Hsorted|]. destruct Hiss as (_ & Hle & _).
      eapply Forall_impl; [exact Hrange|]. simpl. intros. lia.
    + rewrite run_procs in Hrun.
      destruct (IH (set_procs p w) r w' Hrun Hin) as (Hiss' & Hbox' & Hids).
      split; [|split; [exact Hbox'|exact Hids]].
      eapply issues_trans; [|exact Hiss']. by apply issues_fields.
    + rewrite run_deliver in Hrun. simpl in Ho.
      destruct (on_msg_received (set_inbox (inbox w ++ msgs) w))
        as [[[]|e] w1] eqn:Hrecv;
        apply on_msg_received_issues in Hrecv as [Hiss Hbox];
        try (simpl; rewrite existsb_app, Hin, Ho; reflexivity).
      * destruct (IH w1 r w' Hrun Hbox) as (Hiss' & Hbox' & Hids).
        assert (Hw : issues w w1).
        { eapply issues_trans; [|exact Hiss]. by apply issues_fields. }
        split; [by eapply issues_trans|]. split; [exact Hbox'|].
        intros rs Hrs. destruct (Hids rs Hrs) as [Hsorted Hrange].
        split; [exact Hsorted|]. destruct Hw as (_ & Hle & _).
        eapply Forall_impl; [exact Hrange|]. simpl. intros. lia.
      * injection Hrun as <- <-. split; [|split; [exact Hbox|intros rs [=]]].
        eapply issues_trans; [|exact Hiss]. by apply issues_fields.
Qed.

(** Without any delivery, every operation returns and the ids are
    consecutive. *)
Lemma run_consecutive ops :
  existsb is_delivery ops = false ->
  ∀ w, ∃ rs w', run ops w = (Ret rs, w')
    ∧ assigned rs = seqZ (request_seq w) (Z.of_nat (length (assigned rs)))
    ∧ request_seq w' = request_seq w + Z.of_nat (length (assigned rs)).
Proof.
  induction ops as [|o ops IH]; intros Hlocal w.
  - exists [], w. simpl. repeat split; lia.
  - simpl in Hlocal. apply orb_false_elim in Hlocal as [Ho Hops].
    specialize (IH Hops). destruct o as [method params kind| |p|msgs];
      [| | |discriminate].
    + rewrite run_send.
      destruct (send_spec method params kind w) as (r & w1 & Hrun & _ & Hres).
      rewrite Hrun. destruct (IH w1) as (rs & w' & Hrun' & Hids & Hseq).
      rewrite Hrun'. exists (r :: rs), w'. split; [reflexivity|].
      destruct Hres as [(-> & Hseq1 & _)|(-> & Hseq1 & _)];
        simpl; rewrite Hseq1 in *; [by split|].
      rewrite Nat2Z.inj_succ, seqZ_cons by lia.
      rewrite Z.pred_succ, <- Z.add_1_r. split; [by f_equal|lia].
    + rewrite run_poll.
      destruct (is_down_total w) as (b & w1 & evs & Hrun & Hframe & _).
      rewrite Hrun. destruct (IH w1) as (rs & w' & Hrun' & Hids & Hseq).
      apply liveness_frame_fields in Hframe as (_ & Hseq1 & _).
      rewrite Hseq1 in *. by exists rs, w'.
    + rewrite run_procs. destruct (IH (set_procs p w)) as (rs & w' & H).
      by exists rs, w'.
Qed.

(** A server-initiated message with an id and a method nobody handles:
    the counter is overwritten with the id it carries. *)
Lemma server_request_sets_counter resp method i w :
  resets_counter resp = true ->
  in_method resp = Some method ->
  in_id resp = Some (Some i) ->
  handler_registry (cfg w) !! method = None ->
  handle_msg resp w
  = (Ret tt,
     set_request_seq i
       (set_trace (trace w ++ [logged (LogResponse (language (cfg w)) method)]) w)).
Proof.
  unfold resets_counter. intros Hreset Hm Hid Hreg. rewrite Hm, Hid in Hreset.
  destruct (in_error resp) eqn:Herr; [discriminate|].
  destruct method as [|c s]; [discriminate|].
  unfold handle_msg, py_int. unfold_M. rewrite Herr, Hm, Hid. simpl.
  rewrite Hreset. simpl. rewrite Hreg. reflexivity.
Qed.

(** C1 (as the code has it). Take any run of sends, polls, process deaths
    and deliveries of inbound messages in which no delivered message is a
    server-initiated one carrying an id. However the run ends, the counter
    has only moved up, by exactly one per write the socket has accepted, and
    every key added to [req_status] is a value the counter has held; the ids
    the sends have returned are strictly increasing values of the counter,
    whatever failed or retried sends lie between them; and when nothing is
    delivered at all, every operation returns and the ids are consecutive
    from the counter's starting value (1 in a fresh session). A server-
    initiated message that does carry an id overwrites the counter with that
    id, so the ids handed out afterwards continue from there. *)
Theorem request_ids_consecutive ops w :
  existsb delivers_reset ops = false ->
  existsb resets_counter (inbox w) = false ->
  issues w (run ops w).2
  ∧ (∀ rs, (run ops w).1 = Ret rs ->
       StronglySorted Z.lt (assigned rs)
       ∧ Forall (fun i => request_seq w <= i < request_seq (run ops w).2)
           (assigned rs))
  ∧ (existsb is_delivery ops = false ->
     ∃ rs, (run ops w).1 = Ret rs
       ∧ assigned rs = seqZ (request_seq w) (Z.of_nat (length (assigned rs)))
       ∧ request_seq (run ops w).2
         = request_seq w + Z.of_nat (length (assigned rs)))
  ∧ (∀ resp method i,
       resets_counter resp = true ->
       in_method resp = Some method ->
       in_id resp = Some (Some i) ->
       handler_registry (cfg w) !! method = None ->
       ∃ w', handle_msg resp w = (Ret tt, w') ∧ request_seq w' = i).
Proof.
  intros Hops Hin. destruct (run ops w) as [r w'] eqn:Hrun.
  destruct (run_issues ops Hops w r w' Hrun Hin) as (Hiss & _ & Hids).
  split; [exact Hiss|]. split; [exact Hids|]. split.
  - intros Hlocal.
    destruct (run_consecutive ops Hlocal w) as (rs & w1 & Hrun1 & Hseq & Hend).
    rewrite Hrun in Hrun1. injection Hrun1 as -> ->. by exists rs.
  - intros resp method i Hreset Hm Hid Hreg. eexists.
    split; [by apply server_request_sets_counter|reflexivity].
Qed.

Lemma request_ids_consecutive_witness :
  let w := fresh "python" 0 (fun k => Nat.ltb k 13) in
  let ops := [OSend "textDocument/hover" [] REQUEST; OPoll;
              ODeliver [server_ready 4242];
              OSend "textDocument/didOpen" [] NOTIFICATION;
              OProcs server_gone; OSend "textDocument/hover" [] REQUEST;
              OProcs all_up; ODeliver [error_response 1; null_result 2];
              OSend "textDocument/hover" [] REQUEST] in
  issues w (run ops w).2
  ∧ (∀ rs, (run ops w).1 = Ret rs ->
       StronglySorted Z.lt (assigned rs)
       ∧ Forall (fun i => request_seq w <= i < request_seq (run ops w).2)
           (assigned rs))
  ∧ (existsb is_delivery ops = false ->
     ∃ rs, (run ops w).1 = Ret rs
       ∧ assigned rs = seqZ (request_seq w) (Z.of_nat (length (assigned rs)))
       ∧ request_seq (run ops w).2
         = request_seq w + Z.of_nat (length (assigned rs)))
  ∧ (∀ resp method i,
       resets_counter resp = true ->
       in_method resp = Some method ->
       in_id resp = Some (Some i) ->
       handler_registry (cfg w) !! method = None ->
       ∃ w', handle_msg resp w = (Ret tt, w') ∧ request_seq w' = i).
Proof.
  intros w ops. apply (request_ids_consecutive ops w); reflexivity.
Defined.

(** C1 as stated fails once the server numbers a request of its own: after
    the first send has been given id 1, a server request carrying id 1 puts
    the counter back, and the next send is given id 1 again. *)
Lemma request_id_reuse_counterexample :
  ∃ w', run [OSend "textDocument/hover" [] REQUEST;
             ODeliver [server_request 1];
             OSend "textDocument/completion" [] REQUEST]
          (fresh "python" 0 accepting)
        = (Ret [Some 1; Some 1], w')
    ∧ request_seq w' = 2.
Proof. eexists. split; [vm_compute; reflexivity|reflexivity]. Qed.

(** * Further properties *)

(** ** Sending, continued *)

Lemma healthy_is_down w : healthy w = true -> is_down w = (Ret false, w).
Proof.
  unfold healthy. intros H. apply negb_true_iff in H.
  destruct (is_down_poll w) as (w' & Hrun & _).
  rewrite orb_assoc, H in Hrun.
  pose proof (is_down_false _ _ Hrun) as ->. exact Hrun.
Qed.

Lemma unhealthy_is_down w :
  healthy w = false -> ∃ w', is_down w = (Ret true, w').
Proof.
  unfold healthy. intros H. apply negb_false_iff in H.
  destruct (is_down_poll w) as (w' & Hrun & _).
  rewrite orb_assoc, H in Hrun. by exists w'.
Qed.

Lemma prepared_fields method kind w :
  cfg (prepared method kind w) = cfg w
  ∧ zmq_calls (prepared method kind w) = zmq_calls w
  ∧ clock (prepared method kind w) = clock w
  ∧ sleeps (prepared method kind w) = sleeps w
  ∧ request_seq (prepared method kind w) = request_seq w
  ∧ initialized (prepared method kind w) = initialized w
  ∧ req_status (prepared method kind w) = recorded method kind w
  ∧ signals (prepared method kind w) = signals w
  ∧ written (prepared method kind w) = written w.
Proof.
  unfold prepared, recorded, signals, written. destruct kind; simpl;
    rewrite !filter_app; simpl; rewrite !app_nil_r; by repeat split.
Qed.

(** A healthy session, no cancel key, a socket that takes the write: the
    message goes out at once. *)
Lemma send_accepted method params kind w :
  healthy w = true ->
  dict_mem (CANCEL (cfg w)) params = false ->
  zmq_again (cfg w) (zmq_calls w) = false ->
  send method params kind w
  = (Ret (Some (request_seq w)), after_send method params kind w).
Proof.
  intros Hup Hcancel Haccept. rewrite send_unfold, (healthy_is_down w Hup), Hcancel.
  unfold send_rounds. rewrite send_loop_S.
  destruct (prepared_fields method kind w) as (Ec & Ez & _ & _ & Es & _).
  rewrite Ec, Ez, Es, Haccept. reflexivity.
Qed.

(** X1. Once a poll finds something down, sending is switched off: any
    number of [send]s return no id, attempt no write, never sleep, and
    leave the counter and both tables alone (a request is not even
    recorded). The first of them emits the connectivity-lost signal for
    each flag that was not raised yet; the others emit nothing. *)
Theorem sends_when_down l w :
  healthy w = false ->
  ∃ w', run (sends l) w = (Ret (map (fun _ => None) l), w')
    ∧ written w' = written w
    ∧ zmq_calls w' = zmq_calls w
    ∧ clock w' = clock w
    ∧ request_seq w' = request_seq w
    ∧ req_status w' = req_status w
    ∧ req_reply w' = req_reply w
    ∧ went_down_signals w'
      = (went_down_signals w
         + match l with
           | [] => 0
           | _ :: _ =>
               (if negb (transport_unresponsive w)
                   && transport_down w (procs w) then 1 else 0)
               + (if negb (server_unresponsive w)
                     && (server_down w (procs w) || stdio_down w (procs w))
                  then 1 else 0)
           end)%nat.
Proof.
  revert w. induction l as [|[[method params] kind] l IH]; intros w Hdown.
  - exists w. simpl. repeat split. lia.
  - change (sends ((method, params, kind) :: l))
      with (OSend method params kind :: sends l).
    rewrite run_send, send_unfold.
    destruct (is_down_poll w) as (w1 & Hrun & Hframe & Ht & Hs & Hn).
    cbv zeta in Hrun. unfold healthy in Hdown. apply negb_false_iff in Hdown.
    rewrite orb_assoc, Hdown in Hrun. rewrite Hrun.
    pose proof (liveness_frame_fields _ _ Hframe)
      as (Ec & Eq & Est & Erep & _ & _ & Eclk & Ez & _ & _ & Ep & Epid & _).
    assert (Etd : transport_down w1 (procs w1) = transport_down w (procs w)).
    { unfold transport_down. by rewrite Ec, Ep. }
    assert (Esd : server_down w1 (procs w1) = server_down w (procs w)).
    { unfold server_down. by rewrite Ec, Ep. }
    assert (Exd : stdio_down w1 (procs w1) = stdio_down w (procs w)).
    { unfold stdio_down. by rewrite Epid, Ep. }
    destruct (IH w1) as (w' & Hrest & Hw & Hz & Hc & Hq & Hst & Hrep & Hcount).
    { unfold healthy. by rewrite Etd, Esd, Exd, Hdown. }
    rewrite Hrest. exists w'. split; [reflexivity|].
    assert (Hwr : written w1 = written w).
    { destruct (is_down_total w) as (b & w2 & evs & Hrun2 & _ & Htr & Hevs).
      rewrite Hrun in Hrun2. injection Hrun2 as _ <-.
      unfold written. by rewrite Htr, filter_app, (liveness_not_sent _ Hevs), app_nil_r. }
    repeat split; try congruence.
    rewrite Hcount, Hn, Ht, Hs, Etd, Esd, Exd.
    destruct l; destruct (transport_unresponsive w), (server_unresponsive w),
      (transport_down w (procs w)),
      (server_down w (procs w) || stdio_down w (procs w)); simpl; lia.
Qed.

Lemma sends_when_down_witness :
  let w := set_procs server_gone (fresh "python" 0 accepting) in
  let l := [("textDocument/hover", [], REQUEST);
            ("textDocument/didOpen", [], NOTIFICATION)] in
  ∃ w', run (sends l) w = (Ret (map (fun _ => None) l), w')
    ∧ written w' = written w
    ∧ zmq_calls w' = zmq_calls w
    ∧ clock w' = clock w
    ∧ request_seq w' = request_seq w
    ∧ req_status w' = req_status w
    ∧ req_reply w' = req_reply w
    ∧ went_down_signals w'
      = (went_down_signals w
         + match l with
           | [] => 0
           | _ :: _ =>
               (if negb (transport_unresponsive w)
                   && transport_down w (procs w) then 1 else 0)
               + (if negb (server_unresponsive w)
                     && (server_down w (procs w) || stdio_down w (procs w))
                  then 1 else 0)
           end)%nat.
Proof. intros w l. apply (sends_when_down l w). reflexivity. Defined.

Lemma extra_sum_mono c k i j : (i <= j)%nat -> extra_sum c k i <= extra_sum c k j.
Proof.
  induction 1 as [|j Hle IH]; [lia|]. rewrite extra_sum_snoc. lia.
Qed.

Lemma after_retry_frame w : loop_frame w (after_retry w).
Proof.
  unfold loop_frame, after_retry.
  destruct w as [? ? ? init ? ? ? ? ? ? ? ? ? ? ? ? ? ?]; simpl. by destruct init.
Qed.

(** The loop against a socket that refuses [j] writes, each seen no later
    than the deadline, and takes the next. *)
Lemma send_loop_retries msg _id timeout_time j :
  ∀ fuel w,
    (j <= fuel)%nat ->
    (∀ i, (i < j)%nat -> zmq_again (cfg w) (zmq_calls w + i) = true) ->
    zmq_again (cfg w) (zmq_calls w + j) = false ->
    (∀ i, (i < j)%nat ->
       clock w + retry_delay * Z.of_nat i + extra_sum (cfg w) (sleeps w) i
       <= timeout_time) ->
    ∃ w', send_loop (S fuel) msg _id timeout_time w = (Ret (Some _id), w')
      ∧ loop_frame w w'
      ∧ request_seq w' = request_seq w + 1
      ∧ zmq_calls w' = (zmq_calls w + S j)%nat
      ∧ sleeps w' = (sleeps w + j)%nat
      ∧ clock w' = clock w + retry_delay * Z.of_nat j
                   + extra_sum (cfg w) (sleeps w) j
      ∧ written w' = written w ++ [send_pyobj msg]
      ∧ signals w' = signals w.
Proof.
  induction j as [|j IH]; intros fuel w Hfuel Hrefused Htaken Hclock.
  - rewrite send_loop_S. rewrite Nat.add_0_r in Htaken. rewrite Htaken.
    eexists. split; [reflexivity|]. unfold signals, written. simpl.
    rewrite !filter_app. simpl. rewrite app_nil_r.
    repeat split; try lia; by destruct w.
  - destruct fuel as [|fuel]; [lia|]. rewrite send_loop_S.
    pose proof (Hrefused 0%nat ltac:(lia)) as H0. rewrite Nat.add_0_r in H0.
    rewrite H0.
    pose proof (Hclock 0%nat ltac:(lia)) as Hc0. simpl in Hc0.
    assert (Hpast : (clock w >? timeout_time) = false) by lia.
    rewrite Hpast.
    destruct (after_retry_fields w) as (Ec & Et & Es & Ez & Eq & Esig & Ewr).
    destruct (IH fuel (after_retry w)) as (w' & Hrun & Hframe & Hseq & Hcalls
                                           & Hsl & Hclk & Hwr & Hsig).
    + lia.
    + intros i Hi. rewrite Ec, Ez.
      replace (S (zmq_calls w) + i)%nat with (zmq_calls w + S i)%nat by lia.
      apply Hrefused. lia.
    + rewrite Ec, Ez.
      by replace (S (zmq_calls w) + j)%nat with (zmq_calls w + S j)%nat by lia.
    + intros i Hi. rewrite Ec, Et, Es.
      pose proof (Hclock (S i) ltac:(lia)) as Hci.
      change (extra_sum (cfg w) (sleeps w) (S i))
        with (Z.of_nat (sleep_extra (cfg w) (sleeps w))
              + extra_sum (cfg w) (S (sleeps w)) i) in Hci.
      unfold retry_delay in *. lia.
    + rewrite Ec, Et, Es, Ez, Eq, Esig, Ewr in *.
      exists w'. split; [exact Hrun|].
      split; [eapply loop_frame_trans; [apply after_retry_frame|exact Hframe]|].
      repeat split; try assumption; try lia.
      rewrite Hclk.
      change (extra_sum (cfg w) (sleeps w) (S j))
        with (Z.of_nat (sleep_extra (cfg w) (sleeps w))
              + extra_sum (cfg w) (S (sleeps w)) j).
      unfold retry_delay. lia.
Qed.

(** X2. A [send] that finds the socket full retries: when the socket
    refuses [j] writes and takes the next, and the last refusal is seen no
    later than one second after the start, the message goes out on attempt
    [j + 1], after [j] sleeps of at least 100 ms each. The id returned is
    the counter as it was, and the counter is advanced by one, not by the
    number of attempts; no signal is emitted. *)
Theorem send_retries_then_succeeds method params kind j w :
  healthy w = true ->
  dict_mem (CANCEL (cfg w)) params = false ->
  (∀ i, (i < j)%nat -> zmq_again (cfg w) (zmq_calls w + i) = true) ->
  zmq_again (cfg w) (zmq_calls w + j) = false ->
  retry_delay * Z.of_nat (j - 1) + extra_sum (cfg w) (sleeps w) (j - 1)
  <= timeout ->
  ∃ w', send method params kind w = (Ret (Some (request_seq w)), w')
    ∧ request_seq w' = request_seq w + 1
    ∧ req_status w' = recorded method kind w
    ∧ zmq_calls w' = (zmq_calls w + S j)%nat
    ∧ sleeps w' = (sleeps w + j)%nat
    ∧ clock w' = clock w + retry_delay * Z.of_nat j
                 + extra_sum (cfg w) (sleeps w) j
    ∧ written w'
      = written w ++ [send_pyobj (out_msg kind (request_seq w) method params)]
    ∧ signals w' = signals w.
Proof.
  intros Hup Hcancel Hrefused Htaken Hdeadline.
  rewrite send_unfold, (healthy_is_down w Hup), Hcancel.
  destruct (prepared_fields method kind w)
    as (Ec & Ez & Et & Es & Eq & _ & Est & Esig & Ewr).
  assert (Hj : (j <= 11)%nat).
  { pose proof (extra_sum_nonneg (cfg w) (sleeps w) (j - 1)).
    unfold retry_delay, timeout in *. lia. }
  destruct (send_loop_retries (out_msg kind (request_seq w) method params)
              (request_seq w) (clock w + timeout) j 11
              (prepared method kind w))
    as (w' & Hrun & Hframe & Hseq & Hcalls & Hsl & Hclk & Hwr & Hsig).
  - exact Hj.
  - intros i Hi. rewrite Ec, Ez. by apply Hrefused.
  - by rewrite Ec, Ez.
  - intros i Hi. rewrite Ec, Et, Es.
    pose proof (extra_sum_mono (cfg w) (sleeps w) i (j - 1) ltac:(lia)).
    unfold retry_delay in *. lia.
  - unfold send_rounds. rewrite Hrun. exists w'. split; [reflexivity|].
    apply loop_frame_fields in Hframe as (_ & Hst & _).
    rewrite Ec, Ez, Et, Es, Eq, Esig, Ewr, Est in *.
    by repeat split.
Qed.

Lemma send_retries_then_succeeds_witness :
  let w := fresh "python" 0 (fun k => Nat.ltb k 3) in
  ∃ w', send "textDocument/hover" [] REQUEST w = (Ret (Some (request_seq w)), w')
    ∧ request_seq w' = request_seq w + 1
    ∧ req_status w' = recorded "textDocument/hover" REQUEST w
    ∧ zmq_calls w' = (zmq_calls w + 4)%nat
    ∧ sleeps w' = (sleeps w + 3)%nat
    ∧ clock w' = clock w + retry_delay * Z.of_nat 3
                 + extra_sum (cfg w) (sleeps w) 3
    ∧ written w'
      = written w ++ [send_pyobj (out_msg REQUEST (request_seq w)
                                    "textDocument/hover" [])]
    ∧ signals w' = signals w.
Proof.
  intros w. apply (send_retries_then_succeeds "textDocument/hover" [] REQUEST 3 w).
  - reflexivity.
  - reflexivity.
  - intros i Hi. destruct i as [|[|[|i]]]; [reflexivity..|lia].
  - reflexivity.
  - vm_compute. discriminate.
Defined.





(** ** The receive loop, continued *)

Section Respects.

Variable R : World -> World -> Prop.
Hypothesis R_refl : ∀ w, R w w.
Hypothesis R_trans : ∀ w1 w2 w3, R w1 w2 -> R w2 w3 -> R w1 w3.

Lemma respects_ret {A} (a : A) : respects R (ret a).
Proof. intros w r w' H. injection H as _ <-. apply R_refl. Qed.

Lemma respects_raise {A} e : respects R (@raise A e).
Proof. intros w r w' H. injection H as _ <-. apply R_refl. Qed.

Lemma respects_gets {A} (f : World -> A) : respects R (gets f).
Proof. intros w r w' H. injection H as _ <-. apply R_refl. Qed.

Lemma respects_asks {A} (f : Config -> A) : respects R (asks f).
Proof. intros w r w' H. injection H as _ <-. apply R_refl. Qed.

Lemma respects_skip : respects R skip.
Proof. apply respects_ret. Qed.

Lemma respects_bind {A B} (m : M A) (k : A -> M B) :
  respects R m -> (∀ a, respects R (k a)) -> respects R (bind m k).
Proof.
  intros Hm Hk w r w'. unfold bind.
  destruct (m w) as [[a|e] w1] eqn:Hrun; intros H.
  - eapply R_trans; [by eapply Hm|by eapply Hk].
  - injection H as _ <-. by eapply Hm.
Qed.

Lemma respects_modify (f : World -> World) :
  (∀ w, R w (f w)) -> respects R (modify f).
Proof. intros Hf w r w' H. injection H as _ <-. apply Hf. Qed.

Lemma respects_except m : respects R m -> respects R (except_RuntimeError m).
Proof.
  intros Hm w r w'. unfold except_RuntimeError.
  destruct (m w) as [[[]|e] w1] eqn:Hrun; intros H;
    [|destruct e]; injection H as _ <-; by eapply Hm.
Qed.

End Respects.

Lemma handler_frame_refl w : handler_frame w w.
Proof. by repeat split. Qed.

Lemma handler_frame_trans w1 w2 w3 :
  handler_frame w1 w2 -> handler_frame w2 w3 -> handler_frame w1 w3.
Proof.
  intros (A1 & B1 & C1 & D1) (A2 & B2 & C2 & D2). repeat split; congruence.
Qed.

Lemma respects_send method params kind :
  respects handler_frame (send method params kind).
Proof.
  intros w r w' Hrun.
  destruct (send_spec method params kind w) as (r0 & w0 & Hrun0 & Hframe & _).
  rewrite Hrun in Hrun0. inversion Hrun0; subst; clear Hrun0.
  apply send_frame_fields in Hframe
    as (Hc & _ & _ & _ & _ & Hp & _ & Hi & _ & Hn).
  by repeat split.
Qed.

Create HintDb respects.

#[local] Hint Resolve handler_frame_refl handler_frame_trans respects_ret
  respects_raise respects_gets respects_asks respects_skip respects_send
  : respects.

(** Walks down a handler: splits binds, follows branches, and checks each
    assignment against the frame. *)
Ltac respect :=
  repeat first
    [ solve [auto with respects]
    | match goal with
      | |- respects _ (if ?b then _ else _) => destruct b
      | |- respects _ (match ?x with _ => _ end) => destruct x
      | |- respects _ (bind _ _) =>
          apply respects_bind; [apply handler_frame_trans| |intros ?]
      | |- respects _ (emit _) => apply respects_modify
      | |- respects _ (log _) => apply respects_modify
      | |- respects _ (modify _) => apply respects_modify
      | |- respects _ (except_RuntimeError _) =>
          apply respects_except
      end
    | (intros ?; by repeat split) ].

Lemma respects_getitem v k : respects handler_frame (getitem v k).
Proof. unfold getitem. respect. Qed.

Lemma respects_call_value f args : respects handler_frame (call_value f args).
Proof. unfold call_value. respect. Qed.

#[local] Hint Resolve respects_getitem respects_call_value : respects.

Lemma respects_initialize params : respects handler_frame (initialize params).
Proof. unfold initialize, send_request. respect. Qed.

Lemma respects_process_server_capabilities response :
  respects handler_frame (process_server_capabilities response).
Proof.
  unfold process_server_capabilities, send_plugin_configurations,
    initialized_call, send_notification, as_dict.
  respect.
Qed.

#[local] Hint Resolve respects_initialize
  respects_process_server_capabilities : respects.

Lemma respects_call_handler handler_name args :
  respects handler_frame (call_handler handler_name args).
Proof. unfold call_handler, handle_shutdown. respect. Qed.

#[local] Hint Resolve respects_call_handler : respects.

Lemma respects_handle_msg resp : respects handler_frame (handle_msg resp).
Proof.
  unfold handle_msg, resp_id, resp_params, py_int, report_error, or_raise.
  respect; intros w; unfold pop_status; repeat case_match; by repeat split.
Qed.

Lemma drain_outcome pending :
  ∀ w r w', drain pending w = (r, w') ->
    cfg w' = cfg w ∧ procs w' = procs w
    ∧ (r = Ret tt ∧ notifier_enabled w' = true
       ∧ inbox w' = match pending with [] => inbox w | _ :: _ => [] end
       ∨ ∃ e before resp,
           r = Raise e ∧ e ≠ RuntimeError
           ∧ pending = before ++ resp :: inbox w'
           ∧ notifier_enabled w' = notifier_enabled w).
Proof.
  induction pending as [|resp pending IH]; intros w r w' Hrun.
  - injection Hrun as <- <-. do 2 (split; [done|]). left. by repeat split.
  - cbn [drain] in Hrun. unfold bind at 1, modify at 1 in Hrun.
    unfold bind at 1 in Hrun.
    destruct (except_RuntimeError (handle_msg resp) (set_inbox pending w))
      as [r1 w1] eqn:Hmsg.
    pose proof (respects_except handler_frame _
                  (respects_handle_msg resp) _ _ _ Hmsg)
      as (Hcfg & Hprocs & Hbox & Hnot).
    simpl in Hcfg, Hprocs, Hbox, Hnot. destruct r1 as [[]|e].
    + destruct (IH w1 r w' Hrun) as (Hc & Hp & Hcases).
      do 2 (split; [congruence|]).
      destruct Hcases as [(-> & Hen & Hin)|(e & before & resp' & -> & He & Hq & Hn)].
      * left. repeat split; [exact Hen|]. rewrite Hin, Hbox. by destruct pending.
      * right. exists e, (resp :: before), resp'. repeat split; try done.
        -- by rewrite Hq at 1.
        -- congruence.
    + injection Hrun as <- <-. do 2 (split; [done|]).
      right. exists e, [], resp.
      repeat split; try done; [|by rewrite Hbox].
      intros ->. unfold except_RuntimeError in Hmsg.
      destruct (handle_msg resp (set_inbox pending w)) as [[[]|[]] ?];
        discriminate.
Qed.

(** X4. The receive loop drains its queue. It either returns, and then
    every queued message has been handled in order (handlers that raise
    [RuntimeError] included), the queue is empty and the notifier is enabled
    again; or it ends with the exception of the one message it could not
    handle, which is never [RuntimeError], and then the messages after that
    one are still queued and the notifier stays disabled. Nothing it calls
    changes the configuration or the processes. *)
Theorem receive_loop_drains w :
  cfg (on_msg_received w).2 = cfg w
  ∧ procs (on_msg_received w).2 = procs w
  ∧ ((on_msg_received w).1 = Ret tt
     ∧ inbox (on_msg_received w).2 = []
     ∧ notifier_enabled (on_msg_received w).2 = true
     ∨ ∃ e before resp,
         (on_msg_received w).1 = Raise e
         ∧ e ≠ RuntimeError
         ∧ inbox w = before ++ resp :: inbox (on_msg_received w).2
         ∧ notifier_enabled (on_msg_received w).2 = false).
Proof.
  destruct (on_msg_received w) as [r w'] eqn:Hrun. simpl.
  unfold on_msg_received in Hrun.
  unfold bind at 1, modify at 1, bind at 1, gets at 1 in Hrun.
  change (inbox (set_notifier_enabled false w)) with (inbox w) in Hrun.
  destruct (drain_outcome _ _ _ _ Hrun) as (Hc & Hp & Hcases).
  do 2 (split; [done|]).
  destruct Hcases as [(-> & Hen & Hin)|(e & before & resp & -> & He & Hq & Hn)].
  - left. repeat split; [|exact Hen]. rewrite Hin. simpl.
    by destruct (inbox w).
  - right. by exists e, before, resp.
Qed.

(** ** Results *)

Lemma set_req_reply_same w : set_req_reply (req_reply w) w = w.
Proof. by destruct w. Qed.

(** A result for a request in flight whose handler belongs to the mix-in:
    the handler is called, and unless it raises the request leaves both
    tables. *)
Lemma handle_msg_result resp id result req_type handler_name w :
  result_for id result resp ->
  req_status w !! id = Some req_type ->
  handler_registry (cfg w) !! req_type = Some handler_name ->
  mixin_handler handler_name = true ->
  handle_msg resp w
  = if raises_RuntimeError (cfg w) handler_name
    then (Raise RuntimeError, called handler_name [result; VInt id] w)
    else (Ret tt, resolved id handler_name result w).
Proof.
  intros (Herr & Hmethod & Hresult & Hnull & Hid) Hstatus Hreg Hmix.
  unfold mixin_handler in Hmix.
  apply andb_prop in Hmix as [Hmix H3]. apply andb_prop in Hmix as [H1 H2].
  apply negb_true_iff in H1, H2, H3.
  unfold handle_msg, resp_id, call_handler, call_value.
  rewrite Herr, Hmethod, Hresult, Hnull, Hid.
  unfold_M. simpl. rewrite Hstatus, Hreg. simpl. rewrite H1, H2, H3.
  destruct (raises_RuntimeError (cfg w) handler_name); [reflexivity|].
  simpl. unfold resolved, called.
  destruct (req_reply w !! Some id) eqn:Hreply; [reflexivity|].
  simpl. rewrite (delete_id _ _ Hreply). by destruct w.
Qed.



(** X6. When the handler of a result raises [RuntimeError], the receive
    loop goes on with the messages that follow, but the request is not
    resolved: it stays in both tables, where no later message of the server
    need ever reach it. *)
Theorem handler_error_keeps_request resp rest id result req_type handler_name w :
  result_for id result resp ->
  req_status w !! id = Some req_type ->
  handler_registry (cfg w) !! req_type = Some handler_name ->
  mixin_handler handler_name = true ->
  raises_RuntimeError (cfg w) handler_name = true ->
  let w' := called handler_name [result; VInt id] w in
  on_msg_received (set_inbox (resp :: rest) w)
  = on_msg_received (set_inbox rest w')
  ∧ req_status w' = req_status w
  ∧ req_reply w' = req_reply w.
Proof.
  intros Hresp Hstatus Hreg Hmix Hboom w'.
  split; [|by split].
  unfold on_msg_received, bind, modify, gets.
  change (inbox (set_notifier_enabled false (set_inbox ?l w))) with l.
  cbn [drain]. unfold bind, modify, except_RuntimeError.
  erewrite handle_msg_result; [|exact Hresp|exact Hstatus|exact Hreg|exact Hmix].
  change (cfg (set_inbox _ _)) with (cfg w). rewrite Hboom.
  by destruct w.
Qed.

Lemma handler_error_keeps_request_witness :
  let w := editor_closed in
  let w' := called "process_hover_result"
              [VDict [("contents", VStr "help")]; VInt 1] w in
  on_msg_received (set_inbox [hover_result 1; hover_result 1] w)
  = on_msg_received (set_inbox [hover_result 1] w')
  ∧ req_status w' = req_status w
  ∧ req_reply w' = req_reply w.
Proof.
  intros w.
  apply (handler_error_keeps_request (hover_result 1) [hover_result 1] 1
           (VDict [("contents", VStr "help")]) "textDocument/hover"
           "process_hover_result" w);
    try reflexivity.
  by repeat split.
Defined.

(** ** Messages the loop cannot read *)

(** X7. In a Python session an error that carries no id ends the receive
    loop with [KeyError], unless reporting the error has raised before: the
    diagnostic is emitted first where one is due, no callback is called, the
    messages queued behind the error are left unread and the notifier stays
    disabled. *)
Theorem error_without_id_stalls resp rest e w :
  in_error resp = Some e ->
  in_id resp = None ->
  String.eqb (language (cfg w)) "python" = true ->
  unreadable w resp = None ->
  ∃ w', on_msg_received (set_inbox (resp :: rest) w)
        = (Raise (KeyError "id"), w')
    ∧ inbox w' = rest
    ∧ notifier_enabled w' = false
    ∧ signals w' = signals w ++ diagnostics w resp
    ∧ calls w' = calls w.
Proof.
  intros Herr Hid Hpy Hread.
  unfold unreadable, reports_errors in Hread. rewrite Herr, Hpy in Hread.
  unfold on_msg_received, bind, modify, gets.
  change (inbox (set_notifier_enabled false (set_inbox ?l w))) with l.
  cbn [drain]. unfold bind, modify, except_RuntimeError.
  unfold handle_msg, resp_id, diagnostics, reports_errors. rewrite Herr, Hid.
  unfold_M. simpl. rewrite Hpy. simpl.
  destruct (in_method resp) as [m|]; simpl;
    (destruct ((get_debug_level (cfg w) >? 0) || DEV (cfg w)); simpl;
     [rewrite report_error_spec; simpl in Hread;
      destruct (report e) as [exn|[text|]]; [discriminate Hread|..]; simpl|]);
    (eexists; split; [reflexivity|]); simpl;
    unfold signals, calls; simpl; rewrite ?filter_app; simpl;
    rewrite ?app_nil_r; by repeat split.
Qed.

Lemma error_without_id_stalls_witness :
  ∃ w', on_msg_received
          (set_inbox [anonymous_error; hover_result 1] (awaiting "python" 1))
        = (Raise (KeyError "id"), w')
    ∧ inbox w' = [hover_result 1]
    ∧ notifier_enabled w' = false
    ∧ signals w' = signals (awaiting "python" 1)
                   ++ diagnostics (awaiting "python" 1) anonymous_error
    ∧ calls w' = calls (awaiting "python" 1).
Proof.
  apply (error_without_id_stalls anonymous_error [hover_result 1]
           (VDict [("code", VInt (-32700)); ("message", VStr "parse error")])
           (awaiting "python" 1));
    reflexivity.
Defined.

(** X8. A message of the server for a registered method that omits its
    parameters raises [KeyError]: the handler is not called, but the counter
    has already been overwritten with the id the message carries. *)
Theorem omitted_params_raise resp c tail handler_name w :
  in_error resp = None ->
  in_method resp = Some (String c tail) ->
  Ascii.eqb c "$" = false ->
  in_id resp ≠ Some None ->
  handler_registry (cfg w) !! String c tail = Some handler_name ->
  in_params resp = None ->
  ∃ w', handle_msg resp w = (Raise (KeyError "params"), w')
    ∧ request_seq w'
      = match in_id resp with Some (Some n) => n | _ => request_seq w end
    ∧ calls w' = calls w
    ∧ written w' = written w
    ∧ req_status w' = req_status w.
Proof.
  intros Herr Hmethod Hc Hid Hreg Hparams.
  unfold handle_msg, resp_params, py_int.
  rewrite Herr, Hmethod, Hc, Hparams. unfold_M. simpl.
  destruct (in_id resp) as [[n|]|]; [| done |]; simpl; rewrite Hreg;
    (eexists; split; [reflexivity|]); simpl;
    unfold calls, written; simpl; rewrite ?filter_app; simpl;
    rewrite ?app_nil_r; by repeat split.
Qed.

Lemma omitted_params_raise_witness :
  ∃ w', handle_msg (bare_notification (Some (Some 40)) "textDocument/hover")
          (awaiting "python" 0)
        = (Raise (KeyError "params"), w')
    ∧ request_seq w' = 40
    ∧ calls w' = calls (awaiting "python" 0)
    ∧ written w' = written (awaiting "python" 0)
    ∧ req_status w' = req_status (awaiting "python" 0).
Proof.
  apply (omitted_params_raise
           (bare_notification (Some (Some 40)) "textDocument/hover")
           "t" "extDocument/hover" "process_hover_result"
           (awaiting "python" 0));
    try reflexivity.
  discriminate.
Defined.

(** ** The handshake *)

Lemma healthy_ext w w' :
  cfg w' = cfg w -> procs w' = procs w -> stdio_pid w' = stdio_pid w ->
  healthy w' = healthy w.
Proof.
  unfold healthy, transport_down, server_down, stdio_down.
  by intros -> -> ->.
Qed.

(** The payload method of [initialize] on a payload that names a pid. *)
Lemma initialize_accepted params pid w :
  dict_get "pid" params = Some pid ->
  (external_server (cfg w) = false -> transport (cfg w) = true) ->
  healthy (set_stdio_pid pid w) = true ->
  dict_mem (CANCEL (cfg w)) (initialize_params (cfg w)) = false ->
  zmq_again (cfg w) (zmq_calls w) = false ->
  initialize (VDict params) w
  = (Ret (Some (request_seq w)),
     after_send INITIALIZE (initialize_params (cfg w)) REQUEST
       (set_stdio_pid pid w)).
Proof.
  intros Hpid Htransport Hup Hcancel Haccept.
  unfold initialize, send_request, getitem. rewrite Hpid.
  assert (Hreq : ∀ k : Dict -> M (option Z),
            bind (pid ← ret pid;
     modify (set_stdio_pid pid);;
     ext ← asks external_server;
     pid ← (if negb ext then
              t ← asks transport;
              if t then (tpid ← asks transport_pid; ret (VInt tpid))
              else raise AttributeError
            else ret VNone);
     uri ← asks root_uri;
     caps ← asks client_capabilites;
     dev ← asks DEV;
     ret [("processId", pid); ("rootUri", VStr uri);
          ("capabilities", caps); ("trace", VStr (TRACE dev))]) k w
            = k (initialize_params (cfg w)) (set_stdio_pid pid w)).
  { intros k. unfold_M. simpl. unfold initialize_params.
    destruct (external_server (cfg w)) eqn:Hext; simpl; [reflexivity|].
    by rewrite (Htransport eq_refl). }
  rewrite Hreq.
  rewrite send_accepted; [reflexivity|exact Hup|exact Hcancel|exact Haccept].
Qed.

(** A message of the server's own, once logged. *)
Lemma handle_msg_server resp c tail w :
  in_error resp = None ->
  in_method resp = Some (String c tail) ->
  Ascii.eqb c "$" = false ->
  handle_msg resp w
  = ((match in_id resp with
      | Some i => n ← py_int i; modify (set_request_seq n)
      | None => skip
      end);;
     registry ← asks handler_registry;
     match registry !! String c tail with
     | Some handler_name =>
         params ← resp_params resp;
         call_handler handler_name [params]
     | None => skip
     end)
      (set_trace
         (trace w ++ [logged (LogResponse (language (cfg w)) (String c tail))])
         w).
Proof.
  intros Herr Hmethod Hc. unfold handle_msg. rewrite Herr, Hmethod, Hc.
  reflexivity.
Qed.

(** X9. The transport's [server_ready] notification starts the handshake:
    the pid it names becomes the pid of the stdio server, and the
    [initialize] request goes out under the current counter value, carrying
    the pid of the transport process, or null when the server is external,
    with the root URI, the client capabilities and the trace level. The
    session is not yet initialized, and nothing is signalled. *)
Theorem server_ready_initializes resp params pid w :
  in_error resp = None ->
  in_method resp = Some SERVER_READY ->
  in_id resp = None ->
  in_params resp = Some (VDict params) ->
  dict_get "pid" params = Some pid ->
  handler_registry (cfg w) !! SERVER_READY = Some "initialize" ->
  (external_server (cfg w) = false -> transport (cfg w) = true) ->
  healthy (set_stdio_pid pid w) = true ->
  dict_mem (CANCEL (cfg w)) (initialize_params (cfg w)) = false ->
  zmq_again (cfg w) (zmq_calls w) = false ->
  ∃ w', handle_msg resp w = (Ret tt, w')
    ∧ stdio_pid w' = pid
    ∧ written w'
      = written w ++ [send_pyobj (Request (request_seq w) INITIALIZE
                                    (initialize_params (cfg w)))]
    ∧ request_seq w' = request_seq w + 1
    ∧ req_status w' = <[request_seq w := INITIALIZE]> (req_status w)
    ∧ initialized w' = initialized w
    ∧ signals w' = signals w.
Proof.
  intros Herr Hmethod Hid Hparams Hpid Hreg Htransport Hup Hcancel Haccept.
  set (w1 := set_trace
               (trace w ++ [logged (LogResponse (language (cfg w)) SERVER_READY)])
               w).
  assert (Hrun : handle_msg resp w
                 = (initialize (VDict params);; ret tt) w1).
  { rewrite (handle_msg_server resp "s" "erver_ready" w Herr Hmethod eq_refl).
    fold SERVER_READY. fold w1. rewrite Hid. do 2 bind_step.
    change (cfg w1) with (cfg w). rewrite Hreg.
    unfold resp_params. rewrite Hparams. bind_step. reflexivity. }
  rewrite Hrun.
  erewrite bind_Ret; cycle 1.
  { by apply initialize_accepted. }
  eexists. split; [reflexivity|].
  unfold after_send, prepared, written, signals. simpl.
  rewrite !filter_app. simpl. rewrite !app_nil_r. by repeat split.
Qed.

Lemma server_ready_initializes_witness :
  let w := fresh_stdio in
  ∃ w', handle_msg (server_ready 4242) w = (Ret tt, w')
    ∧ stdio_pid w' = VInt 4242
    ∧ written w'
      = written w ++ [send_pyobj (Request (request_seq w) INITIALIZE
                                    (initialize_params (cfg w)))]
    ∧ request_seq w' = request_seq w + 1
    ∧ req_status w' = <[request_seq w := INITIALIZE]> (req_status w)
    ∧ initialized w' = initialized w
    ∧ signals w' = signals w.
Proof.
  intros w.
  apply (server_ready_initializes (server_ready 4242) [("pid", VInt 4242)]
           (VInt 4242) w);
    reflexivity.
Defined.

(** A result for a request in flight, up to the call of its handler. *)
Lemma handle_msg_resolve resp id result req_type handler_name w :
  result_for id result resp ->
  req_status w !! id = Some req_type ->
  handler_registry (cfg w) !! req_type = Some handler_name ->
  handle_msg resp w
  = (call_handler handler_name [result; VInt id];;
     modify (pop_status (Some id));;
     modify (fun w =>
       match req_reply w !! Some id with
       | Some _ => set_req_reply (delete (Some id) (req_reply w)) w
       | None => w
       end)) w.
Proof.
  intros (Herr & Hmethod & Hresult & Hnull & Hid) Hstatus Hreg.
  unfold handle_msg, resp_id. rewrite Herr, Hmethod, Hresult, Hnull, Hid.
  do 2 bind_step. cbn [negb]. do 2 bind_step.
  change (status_of (Some id) w) with (req_status w !! id). rewrite Hstatus.
  bind_step. rewrite Hreg. reflexivity.
Qed.

Lemma after_send_fields method params kind w :
  cfg (after_send method params kind w) = cfg w
  ∧ procs (after_send method params kind w) = procs w
  ∧ stdio_pid (after_send method params kind w) = stdio_pid w
  ∧ zmq_calls (after_send method params kind w) = S (zmq_calls w)
  ∧ request_seq (after_send method params kind w) = request_seq w + 1
  ∧ healthy (after_send method params kind w) = healthy w.
Proof. unfold after_send, prepared. by destruct kind. Qed.

(** The handler of the [initialize] response in a healthy session whose
    socket takes both notifications. *)
Lemma process_server_capabilities_accepted payload capabilites sync w :
  dict_get "capabilities" payload = Some (VDict capabilites) ->
  dict_get "textDocumentSync" capabilites = Some sync ->
  healthy w = true ->
  String.eqb (CANCEL (cfg w)) "settings" = false ->
  zmq_again (cfg w) (zmq_calls w) = false ->
  zmq_again (cfg w) (S (zmq_calls w)) = false ->
  ∃ r w', process_server_capabilities (VDict payload) w = (Ret r, w')
    ∧ trace w'
      = trace w
        ++ [logged (LogRequest (language (cfg w)) WORKSPACE_CONFIGURATION_CHANGE);
            send_pyobj (Notification WORKSPACE_CONFIGURATION_CHANGE
                          [("settings", VDict (plugin_configurations (cfg w)))]);
            sig_initialize (server_capabilites w') (language (cfg w));
            logged (LogRequest (language (cfg w)) INITIALIZED);
            send_pyobj (Notification INITIALIZED [])]
    ∧ cfg w' = cfg w
    ∧ initialized w' = true
    ∧ request_seq w' = request_seq w + 2
    ∧ req_status w' = req_status w
    ∧ req_reply w' = req_reply w
    ∧ ready_to_close w' = ready_to_close w
    ∧ server_capabilites w'
      = dict_update
          (normalized sync capabilites (TEXT_DOCUMENT_SYNC_OPTIONS w))
          (server_capabilites w).
Proof.
  intros Hcaps Hsync Hup Hcancel Hfirst Hsecond.
  unfold process_server_capabilities.
  bind_step. unfold send_plugin_configurations.
  erewrite bind_Ret; cycle 1.
  { rewrite send_notification_ret. apply send_accepted; [done| |done].
    unfold dict_mem. simpl. by rewrite Hcancel. }
  set (w1 := after_send _ _ _ w).
  destruct (after_send_fields WORKSPACE_CONFIGURATION_CHANGE
              [("settings", VDict (plugin_configurations (cfg w)))]
              NOTIFICATION w) as (Hc1 & _ & _ & Hz1 & Hs1 & Hup1).
  fold w1 in Hc1, Hz1, Hs1, Hup1.
  bind_step.
  erewrite bind_Ret by (unfold getitem; rewrite Hcaps; reflexivity).
  erewrite bind_Ret by (unfold getitem; rewrite Hsync; reflexivity).
  bind_step.
  assert (Hsend : ∀ (v : Value) w4,
            cfg w4 = cfg w -> zmq_calls w4 = S (zmq_calls w) ->
            healthy w4 = true ->
            bind initialized_call (fun _ => ret v) w4
            = (Ret v, after_send INITIALIZED [] NOTIFICATION w4)).
  { intros v w4 Hc Hz Hup4.
    erewrite bind_Ret; [reflexivity|].
    unfold initialized_call. rewrite send_notification_ret.
    apply send_accepted; [done|done|]. by rewrite Hc, Hz. }
  assert (Hup' : ∀ w4, cfg w4 = cfg w1 -> procs w4 = procs w1 ->
                  stdio_pid w4 = stdio_pid w1 -> healthy w4 = true).
  { intros w4 ? ? ?. by rewrite (healthy_ext w1 w4), Hup1. }
  unfold normalized. destruct (isinstance_int sync) eqn:Hint.
  - assert (is_None sync = false) as -> by (by destruct sync).
    bind_step. unfold getitem at 1. rewrite dict_get_set_eq.
    repeat bind_step.
    rewrite Hsend; [|done|done|by apply Hup'].
    do 2 eexists. split; [reflexivity|].
    unfold after_send, prepared. simpl. rewrite <- !app_assoc. simpl.
    repeat split; lia.
  - bind_step.
    erewrite bind_Ret by (unfold getitem; rewrite Hsync; reflexivity).
    destruct (is_None sync); repeat bind_step;
      (rewrite Hsend; [|done|done|by apply Hup']);
      (do 2 eexists; split; [reflexivity|]);
      unfold after_send, prepared; simpl; rewrite <- !app_assoc; simpl;
      repeat split; lia.
Qed.

(** X10. The response to the [initialize] request completes the handshake
    in this order: the plugin configuration is pushed to the server, the
    capabilities of the response are merged into the session's, the
    application is told once that the session is initialized, with the
    merged capabilities, and the [initialized] notification is sent. Two ids
    are consumed by the two notifications, the session is marked initialized
    and the request leaves both tables. *)
Theorem initialize_response_completes resp id payload capabilites sync w :
  result_for id (VDict payload) resp ->
  req_status w !! id = Some INITIALIZE ->
  handler_registry (cfg w) !! INITIALIZE = Some "process_server_capabilities" ->
  dict_get "capabilities" payload = Some (VDict capabilites) ->
  dict_get "textDocumentSync" capabilites = Some sync ->
  healthy w = true ->
  String.eqb (CANCEL (cfg w)) "settings" = false ->
  zmq_again (cfg w) (zmq_calls w) = false ->
  zmq_again (cfg w) (S (zmq_calls w)) = false ->
  ∃ w', handle_msg resp w = (Ret tt, w')
    ∧ trace w'
      = trace w
        ++ [logged (LogRequest (language (cfg w)) WORKSPACE_CONFIGURATION_CHANGE);
            send_pyobj (Notification WORKSPACE_CONFIGURATION_CHANGE
                          [("settings", VDict (plugin_configurations (cfg w)))]);
            sig_initialize (server_capabilites w') (language (cfg w));
            logged (LogRequest (language (cfg w)) INITIALIZED);
            send_pyobj (Notification INITIALIZED [])]
    ∧ server_capabilites w'
      = dict_update
          (normalized sync capabilites (TEXT_DOCUMENT_SYNC_OPTIONS w))
          (server_capabilites w)
    ∧ initialized w' = true
    ∧ request_seq w' = request_seq w + 2
    ∧ req_status w' = delete id (req_status w)
    ∧ req_reply w' = delete (Some id) (req_reply w).
Proof.
  intros Hresp Hstatus Hreg Hcaps Hsync Hup Hcancel Hfirst Hsecond.
  rewrite (handle_msg_resolve _ _ _ _ _ _ Hresp Hstatus Hreg).
  destruct (process_server_capabilities_accepted payload capabilites sync w
              Hcaps Hsync Hup Hcancel Hfirst Hsecond)
    as (r & w1 & Hrun & Htrace & _ & Hinit & Hseq & Hst & Hrep & _ & Hmerged).
  unfold call_handler.
  change (String.eqb "process_server_capabilities" "initialize") with false.
  change (String.eqb "process_server_capabilities" "handle_shutdown")
    with false.
  change (String.eqb "process_server_capabilities"
            "process_server_capabilities") with true.
  cbv iota.
  erewrite bind_Ret; cycle 1.
  { erewrite bind_Ret by exact Hrun. reflexivity. }
  unfold bind, modify, pop_status.
  change (req_reply (set_req_status ?m w1)) with (req_reply w1).
  rewrite Hrep, Hst.
  destruct (req_reply w !! Some id) eqn:Hreply;
    (eexists; split; [reflexivity|]); simpl;
    rewrite ?Hrep, ?(delete_id _ _ Hreply); by repeat split.
Qed.

Lemma initialize_response_completes_witness :
  let w := initializing in
  let capabilites := [("textDocumentSync", VInt 2); ("hoverProvider", VBool true)] in
  ∃ w', handle_msg (initialize_response 1 (VInt 2)) w = (Ret tt, w')
    ∧ trace w'
      = trace w
        ++ [logged (LogRequest (language (cfg w)) WORKSPACE_CONFIGURATION_CHANGE);
            send_pyobj (Notification WORKSPACE_CONFIGURATION_CHANGE
                          [("settings", VDict (plugin_configurations (cfg w)))]);
            sig_initialize (server_capabilites w') (language (cfg w));
            logged (LogRequest (language (cfg w)) INITIALIZED);
            send_pyobj (Notification INITIALIZED [])]
    ∧ server_capabilites w'
      = dict_update
          (normalized (VInt 2) capabilites (TEXT_DOCUMENT_SYNC_OPTIONS w))
          (server_capabilites w)
    ∧ initialized w' = true
    ∧ request_seq w' = request_seq w + 2
    ∧ req_status w' = delete 1 (req_status w)
    ∧ req_reply w' = delete (Some 1) (req_reply w).
Proof.
  intros w capabilites.
  apply (initialize_response_completes (initialize_response 1 (VInt 2)) 1
           [("capabilities", VDict capabilites)] capabilites (VInt 2) w);
    try reflexivity.
  by repeat split.
Defined.

(** ** Shutting down *)



(** ** Requests that could not be sent *)

Lemma send_down method params kind w :
  healthy w = false ->
  ∃ w', send method params kind w = (Ret None, w')
    ∧ liveness_frame w w'
    ∧ written w' = written w
    ∧ calls w' = calls w
    ∧ ∃ evs, trace w' = trace w ++ evs.
Proof.
  intros Hdown. rewrite send_unfold.
  destruct (unhealthy_is_down w Hdown) as (w1 & Hrun). rewrite Hrun.
  exists w1. split; [reflexivity|].
  destruct (is_down_total w) as (b & w2 & evs & Hrun2 & Hframe & Htr & Hevs).
  rewrite Hrun in Hrun2. injection Hrun2 as _ <-.
  split; [exact Hframe|].
  unfold written, calls. rewrite Htr, !filter_app.
  rewrite (liveness_not_sent _ Hevs), app_nil_r. split; [reflexivity|].
  split; [|by exists evs].
  replace (filter is_call evs) with (@nil Event); [by rewrite app_nil_r|].
  clear -Hevs. induction evs as [|e evs IH]; [reflexivity|].
  simpl in Hevs. apply andb_prop in Hevs as [He Hevs].
  destruct e; try discriminate; simpl; by apply IH.
Qed.

(** X12. A request made while the session is down is not sent and gets no
    id, yet the reply callback that comes with it is stored all the same,
    under the key [None]. Nothing was recorded in flight, so no result will
    ever reach that callback; it is called by the next error of the server
    that carries a null id and can be read, whatever request that error is
    about. *)
Theorem unsent_request_callback method handler_name s params callback flag w :
  sender_registry (cfg w) !! method = Some handler_name ->
  mixin_sender handler_name = true ->
  mixin_senders (cfg w) handler_name = Some s ->
  healthy w = false ->
  dict_get "response_callback" params = Some callback ->
  dict_get "requires_response" params = Some flag ->
  truthy flag = true ->
  ∃ w', perform_request method params w = (Ret None, w')
    ∧ req_reply w' = <[None := callback]> (req_reply w)
    ∧ req_status w' = req_status w
    ∧ request_seq w' = request_seq w
    ∧ written w' = written w
    ∧ ∀ resp e f,
        callback = VFunc f ->
        in_error resp = Some e ->
        in_id resp = Some None ->
        String.eqb (language (cfg w)) "python" = true ->
        unreadable w resp = None ->
        calls (handle_msg resp w').2 = calls w ++ [call f null_reply].
Proof.
  intros Hreg Hmix Hsender Hdown Hcallback Hflag Htruthy.
  unfold mixin_sender in Hmix.
  apply andb_prop in Hmix as [Hmix H4]. apply andb_prop in Hmix as [Hmix H3].
  apply andb_prop in Hmix as [H1 H2].
  apply negb_true_iff in H1, H2, H3, H4.
  destruct (send_down (s_method s) (s_build s params) (s_kind s) w Hdown)
    as (w1 & Hsend & Hframe & Hwritten & Hcalls & _).
  apply liveness_frame_fields in Hframe
    as (Hcfg & Hseq & Hst & Hrep & _).
  assert (Hrun : perform_request method params w
                 = (Ret None,
                    set_req_reply (<[None := callback]> (req_reply w1)) w1)).
  { unfold perform_request. bind_step. rewrite Hreg.
    erewrite bind_Ret; cycle 1.
    { unfold call_sender. rewrite H1, H2, H3, H4. bind_step.
      rewrite Hsender. exact Hsend. }
    unfold dict_mem, getitem. rewrite Hcallback, Hflag.
    bind_step. rewrite Htruthy. by do 2 bind_step. }
  eexists. split; [exact Hrun|].
  simpl. rewrite Hrep. do 4 (split; [done|]).
  intros resp e f -> Herr Hid Hpy Hread.
  unfold unreadable, reports_errors in Hread. rewrite Herr, Hpy in Hread.
  assert (Hgen : ∀ k w0, in_id resp = Some k -> cfg w0 = cfg w ->
            req_reply w0 !! k = Some (VFunc f) ->
            calls (handle_msg resp w0).2 = calls w0 ++ [call f null_reply]).
  { clear Hid. intros k w0 Hid Hcfg0 Hlook.
    unfold handle_msg, resp_id, call_value, null_reply. rewrite Herr, Hid.
    unfold_M. simpl. rewrite Hcfg0, Hpy. simpl. unfold calls.
    destruct (in_method resp) as [m|]; simpl; rewrite ?Hcfg0;
      (destruct ((get_debug_level (cfg w) >? 0) || DEV (cfg w)); simpl;
       [rewrite report_error_spec; simpl in Hread;
        destruct (report e) as [exn|[text|]]; [discriminate Hread|..];
        simpl|]);
      rewrite Hlook; simpl; rewrite ?Hcfg0;
      destruct (raises_RuntimeError (cfg w) f); simpl;
      rewrite ?filter_app; simpl; rewrite ?app_nil_r;
      reflexivity. }
  rewrite (Hgen None); [|exact Hid|exact Hcfg|simpl; apply lookup_insert_eq].
  f_equal. exact Hcalls.
Qed.

Lemma unsent_request_callback_witness :
  let w := set_procs server_gone (fresh "python" 0 accepting) in
  ∃ w', perform_request "textDocument/hover" callback_wanted w = (Ret None, w')
    ∧ req_reply w' = <[None := VFunc "on_hover"]> (req_reply w)
    ∧ req_status w' = req_status w
    ∧ request_seq w' = request_seq w
    ∧ written w' = written w
    ∧ ∀ resp e f,
        VFunc "on_hover" = VFunc f ->
        in_error resp = Some e ->
        in_id resp = Some None ->
        String.eqb (language (cfg w)) "python" = true ->
        unreadable w resp = None ->
        calls (handle_msg resp w').2 = calls w ++ [call f null_reply].
Proof.
  intros w.
  apply (unsent_request_callback "textDocument/hover" "hover_request"
           hover_request callback_wanted (VFunc "on_hover") (VBool true) w);
    reflexivity.
Defined.

(** ** The verdict of a poll *)

(** X13. A poll always returns, and it reports the session down exactly
    when a process it has to watch is gone: the transport or the server
    process is not running (a process that is still starting counts as
    alive), or a stdio server has been announced, by a pid that is neither
    null nor zero, and that pid no longer exists or is a zombie. A process
    that vanishes between the two questions asked about its pid counts as
    alive. The verdict does not depend on what earlier polls have
    reported. *)
Theorem is_down_verdict w :
  (is_down w).1 = Ret (negb (healthy w))
  ∧ (healthy w = true <->
     (transport (cfg w) = true -> transport_state (procs w) ≠ NotRunning)
     ∧ (server (cfg w) = true -> server_state (procs w) ≠ NotRunning)
     ∧ (truthy (stdio_pid w) = true ->
        pid_exists (procs w) = true
        ∧ pid_status (procs w) ≠ Some STATUS_ZOMBIE))
  ∧ ∀ t s,
      (is_down (set_server_unresponsive s (set_transport_unresponsive t w))).1
      = (is_down w).1.
Proof.
  assert (Hverdict : ∀ w, (is_down w).1 = Ret (negb (healthy w))).
  { intros w0. destruct (healthy w0) eqn:Hup.
    - by rewrite (healthy_is_down w0 Hup).
    - destruct (unhealthy_is_down w0 Hup) as (w' & ->). reflexivity. }
  split; [apply Hverdict|split].
  - unfold healthy, transport_down, server_down, stdio_down, stdio_alive, alive.
    destruct (transport (cfg w)), (transport_state (procs w)),
      (server (cfg w)), (server_state (procs w)),
      (truthy (stdio_pid w)), (pid_exists (procs w));
      simpl; try (split; [intros _; repeat split; done|done]);
      try (split; [done|]; intros (A & B & C);
           first [by destruct A | by destruct B | by destruct C]);
      try (destruct (pid_status (procs w)) as [st|]; simpl;
           [destruct (String.eqb_spec st STATUS_ZOMBIE) as [->|Hne]; simpl|];
           split; try done;
           [ intros (_ & _ & C); by destruct (C eq_refl) as [_ []]
           | intros _; repeat split; try done; congruence ]).
  - intros t s. rewrite !Hverdict. reflexivity.
Qed.

(** ** Every send returns *)



(** ** The handshake in a session that is down *)

(** X19. When the response to [initialize] is handled while the session is
    down, neither the plugin configuration nor the [initialized]
    notification is sent and no id is consumed, yet the handler returns as
    usual: the capabilities are merged, the session is marked initialized
    and the application is told so. *)
Theorem handshake_when_down payload capabilites sync w :
  dict_get "capabilities" payload = Some (VDict capabilites) ->
  dict_get "textDocumentSync" capabilites = Some sync ->
  healthy w = false ->
  ∃ r w', process_server_capabilities (VDict payload) w = (Ret r, w')
    ∧ written w' = written w
    ∧ request_seq w' = request_seq w
    ∧ initialized w' = true
    ∧ server_capabilites w'
      = dict_update
          (normalized sync capabilites (TEXT_DOCUMENT_SYNC_OPTIONS w))
          (server_capabilites w)
    ∧ sig_initialize (server_capabilites w') (language (cfg w)) ∈ trace w'.
Proof.
  intros Hcaps Hsync Hdown.
  unfold process_server_capabilities.
  bind_step. unfold send_plugin_configurations.
  destruct (send_down WORKSPACE_CONFIGURATION_CHANGE
              [("settings", VDict (plugin_configurations (cfg w)))]
              NOTIFICATION w Hdown)
    as (w1 & Hrun1 & Hframe1 & Hwritten1 & _).
  erewrite bind_Ret by (rewrite send_notification_ret; exact Hrun1).
  apply liveness_frame_fields in Hframe1
    as (Hc1 & Hq1 & _ & _ & Hcap1 & Hopt1 & _ & _ & _ & _ & Hp1 & Hpid1 & _).
  assert (Hdown1 : healthy w1 = false) by (by rewrite (healthy_ext w w1)).
  rewrite <- Hc1, <- Hcap1, <- Hopt1, <- Hwritten1, <- Hq1.
  clear Hrun1 Hc1 Hcap1 Hopt1 Hwritten1 Hq1 Hp1 Hpid1 Hdown.
  bind_step.
  erewrite bind_Ret by (unfold getitem; rewrite Hcaps; reflexivity).
  erewrite bind_Ret by (unfold getitem; rewrite Hsync; reflexivity).
  bind_step.
  assert (Hsend : ∀ (v : Value) e w4,
            cfg w4 = cfg w1 -> procs w4 = procs w1 ->
            stdio_pid w4 = stdio_pid w1 -> e ∈ trace w4 ->
            ∃ w5, bind initialized_call (fun _ => ret v) w4 = (Ret v, w5)
              ∧ written w5 = written w4
              ∧ request_seq w5 = request_seq w4
              ∧ initialized w5 = initialized w4
              ∧ server_capabilites w5 = server_capabilites w4
              ∧ e ∈ trace w5).
  { intros v e w4 Hc Hp Hpid He.
    destruct (send_down INITIALIZED [] NOTIFICATION w4)
      as (w5 & Hrun & Hframe & Hwritten & _ & evs & Htr).
    { by rewrite (healthy_ext w1 w4). }
    exists w5.
    erewrite bind_Ret
      by (unfold initialized_call; rewrite send_notification_ret; exact Hrun).
    apply liveness_frame_fields in Hframe
      as (_ & Hq & _ & _ & Hcap & _ & _ & _ & _ & Hi & _).
    repeat split; try done. rewrite Htr. set_solver. }
  unfold normalized. destruct (isinstance_int sync) eqn:Hint.
  - assert (is_None sync = false) as -> by (by destruct sync).
    bind_step. unfold getitem at 1. rewrite dict_get_set_eq.
    repeat bind_step.
    match goal with |- context [bind initialized_call (fun _ => ret ?v) ?w4] =>
      destruct (Hsend v (sig_initialize (server_capabilites w4)
                           (language (cfg w1))) w4)
        as (w5 & -> & E1 & E2 & E3 & E4 & E5);
        [done|done|done|simpl; set_solver|]
    end.
    do 2 eexists. split; [reflexivity|].
    rewrite E1, E2, E3, E4. unfold written. simpl.
    rewrite filter_app. simpl. rewrite app_nil_r.
    repeat split; try done; by rewrite E4 in E5.
  - bind_step.
    erewrite bind_Ret by (unfold getitem; rewrite Hsync; reflexivity).
    destruct (is_None sync); repeat bind_step;
      match goal with |- context [bind initialized_call (fun _ => ret ?v) ?w4] =>
        destruct (Hsend v (sig_initialize (server_capabilites w4)
                             (language (cfg w1))) w4)
          as (w5 & -> & E1 & E2 & E3 & E4 & E5);
          [done|done|done|simpl; set_solver|]
      end;
      (do 2 eexists; split; [reflexivity|]);
      rewrite E1, E2, E3, E4; unfold written; simpl;
      rewrite filter_app; simpl; rewrite app_nil_r;
      repeat split; try done; by rewrite E4 in E5.
Qed.

Lemma handshake_when_down_witness :
  let w := set_procs server_gone (fresh "python" 0 accepting) in
  let capabilites := [("textDocumentSync", VInt 2); ("hoverProvider", VBool true)] in
  ∃ r w', process_server_capabilities
            (VDict [("capabilities", VDict capabilites)]) w = (Ret r, w')
    ∧ written w' = written w
    ∧ request_seq w' = request_seq w
    ∧ initialized w' = true
    ∧ server_capabilites w'
      = dict_update
          (normalized (VInt 2) capabilites (TEXT_DOCUMENT_SYNC_OPTIONS w))
          (server_capabilites w)
    ∧ sig_initialize (server_capabilites w') (language (cfg w)) ∈ trace w'.
Proof.
  intros w capabilites.
  apply (handshake_when_down [("capabilities", VDict capabilites)]
           capabilites (VInt 2) w);
    reflexivity.
Defined.

(** * Properties of the launch *)

Import Launch.

Lemma split_nonempty s : split s ≠ [].
Proof.
  induction s as [|c s IH]; simpl; [done|].
  destruct (Ascii.eqb c " "); [done|]. by destruct (split s).
Qed.

(** A text that ends with a blank gives an empty last word. *)
Lemma split_blank s : split (s +:+ " ") = split s ++ [""].
Proof.
  induction s as [|c s IH]; simpl; [reflexivity|].
  change (String.app s " ") with (s +:+ " "). rewrite IH.
  destruct (Ascii.eqb c " "); [reflexivity|].
  pose proof (split_nonempty s). by destruct (split s).
Qed.

Lemma append_assoc (a b c : string) : (a +:+ b) +:+ c = a +:+ b +:+ c.
Proof.
  induction a as [|x a IH]; [reflexivity|].
  change (String x ((a +:+ b) +:+ c) = String x (a +:+ b +:+ c)).
  by f_equal.
Qed.

Lemma map_str_strings (l : list Arg) :
  map str (map (fun a => AStr (str a)) l) = map str l.
Proof. induction l as [|a l IH]; simpl; [reflexivity|]. by rewrite IH. Qed.

Lemma map_str_AStr (l : list string) : map str (map AStr l) = l.
Proof. induction l as [|a l IH]; simpl; [reflexivity|]. by rewrite IH. Qed.

(** What [__init__] has set when it returns. *)
Lemma init_inv h s folder lang c :
  init h s folder lang = inr c ->
  ∃ is_external default_port server_host cmd text,
    external s = Some is_external
    ∧ port s = Some default_port
    ∧ host s = Some server_host
    ∧ Launch.cmd s = Some cmd
    ∧ default false (stdio_setting s) && is_external = false
    ∧ format h (default "" (args s)) server_host
        (if negb is_external then select_port h default_port else default_port)
      = inr text
    ∧ c = {| language := lang;
             folder := folder;
             server_port :=
               if negb is_external then select_port h default_port
               else default_port;
             server_host := server_host;
             transport_args :=
               [AStr (sys_executable h); AStr "-u";
                AStr (osp_join h (osp_join h (LOCATION h) "transport") "main.py")]
               ++ map AStr
                    (split
                       ("--server-host " +:+ server_host +:+ " --server-port "
                        +:+ pretty (if negb is_external
                                    then select_port h default_port
                                    else default_port))
                     ++ [EmptyString])
               ++ [AStr "--folder"; AStr folder; AStr "--transport-debug";
                   AStr (pretty (get_debug_level h));
                   AStr (if default false (stdio_setting s)
                         then "--stdio-server" else "--external-server")];
             server_args :=
               (if String.eqb lang "python" then [sys_executable h; "-m"] else [])
               ++ [cmd]
               ++ (if (0 <? String.length text)%nat then split text else []);
             external_server := is_external || default false (stdio_setting s);
             stdio := default false (stdio_setting s);
             plugin_configurations := default [] (configurations s);
             zmq_out_port := None;
             zmq_in_port := None;
             transport := false;
             server := false;
             notifier := false;
             binds := 0;
             made := [];
             events := [zmq_Context] |}.
Proof.
  unfold init. intros Hinit.
  destruct (external s) as [is_external|]; [|discriminate].
  destruct (port s) as [default_port|]; [|discriminate].
  destruct (host s) as [server_host|]; [|discriminate].
  simpl in Hinit.
  destruct (default false (stdio_setting s) && is_external) eqn:Hboth;
    [discriminate|].
  destruct (format h _ _ _) as [e|text] eqn:Hformat; [discriminate|].
  destruct (Launch.cmd s) as [cmd|]; [|discriminate].
  injection Hinit as <-.
  exists is_external, default_port, server_host, cmd, text.
  do 6 (split; [done|]).
  assert (Htext : ∀ a b d, split (a +:+ b +:+ " --server-port " +:+ d +:+ " ")
                         = split (a +:+ b +:+ " --server-port " +:+ d)
                           ++ [EmptyString]).
  { intros a b d. rewrite <- split_blank. f_equal.
    by rewrite !append_assoc. }
  rewrite Htext.
  destruct (default false (stdio_setting s)), is_external,
    (String.eqb lang "python"), (0 <? String.length text)%nat;
    try discriminate; simpl; rewrite <- ?app_assoc; reflexivity.
Qed.

(** What the start methods rely on in a client that has been constructed. *)
Lemma init_fields h s folder lang c :
  init h s folder lang = inr c ->
  language c = lang
  ∧ Launch.folder c = folder
  ∧ stdio c = default false (stdio_setting s)
  ∧ external_server c = default false (external s) || stdio c
  ∧ stdio c && default false (external s) = false
  ∧ (∃ program arguments, server_args c = program :: arguments)
  ∧ transport c = false ∧ server c = false ∧ notifier c = false
  ∧ binds c = 0%nat ∧ made c = [] ∧ events c = [zmq_Context]
  ∧ transport_args c
    = [AStr (sys_executable h); AStr "-u";
       AStr (osp_join h (osp_join h (LOCATION h) "transport") "main.py")]
      ++ map AStr (split (server_address c) ++ [EmptyString])
      ++ [AStr "--folder"; AStr folder; AStr "--transport-debug";
          AStr (pretty (get_debug_level h));
          AStr (if stdio c then "--stdio-server" else "--external-server")].
Proof.
  intros Hinit.
  destruct (init_inv _ _ _ _ _ Hinit)
    as (ext & p & ho & cm & text & -> & _ & _ & _ & Hboth & _ & ->).
  unfold server_address.
  cbn [language Launch.folder stdio external_server server_args transport
       server notifier binds made events default transport_args
       server_host server_port].
  do 5 (split; [done|]). split; [|done].
  destruct (String.eqb lang "python"); simpl; eauto.
Qed.

(** [start_server] on any client whose [server_args] name a program. *)
Lemma start_server_spec h c program arguments :
  server_args c = program :: arguments ->
  (stdio c = true -> external_server c = true) ->
  ∃ c', start_server h c = Ok c'
    ∧ (external_server c = true -> c' = c)
    ∧ language c' = language c
    ∧ Launch.folder c' = Launch.folder c
    ∧ stdio c' = stdio c
    ∧ external_server c' = external_server c
    ∧ transport_args c' = transport_args c
    ∧ server_args c'
      = server_args c
        ++ (if external_server c then [] else verbosity h (language c))
    ∧ server c' = (if external_server c then server c else true)
    ∧ transport c' = transport c
    ∧ notifier c' = notifier c
    ∧ binds c' = binds c
    ∧ started c'
      = started c
        ++ (if external_server c then []
            else [(Server, server_args c ++ verbosity h (language c))])
    ∧ killed c' = killed c
    ∧ zmq_out_port c' = zmq_out_port c
    ∧ zmq_in_port c' = zmq_in_port c.
Proof.
  intros Hargs Hstdio.
  destruct c as [lang fo sp sh targs sargs ext st confs zo zi tr sv nt bd md evs].
  simpl in *. subst sargs. unfold start_server. simpl.
  destruct ext.
  { eexists. split; [reflexivity|]. rewrite !app_nil_r. by repeat split. }
  assert (st = false) as -> by (destruct st; [by specialize (Hstdio eq_refl)|done]).
  unfold verbosity, ensure_dirs, log_file, started, killed, exists_path.
  simpl.
  destruct (String.eqb lang "python") eqn:Hpy;
    destruct (get_debug_level h >? 0) eqn:Hlevel;
    destruct (get_debug_level h =? 2) eqn:H2;
    destruct (get_debug_level h =? 3) eqn:H3;
    try lia; simpl;
    repeat match goal with
      | |- context [negb (?a || ?b)] => destruct (a || b); simpl
      end;
    (eexists; split; [reflexivity|]); simpl;
    rewrite ?app_nil_r, !omap_app; simpl; rewrite ?app_nil_r;
    by repeat split.
Qed.

Lemma create_transport_sockets_spec h c :
  let c' := create_transport_sockets h c in
  let out_port := bind_to_random_port h (binds c) in
  let in_port := bind_to_random_port h (S (binds c)) in
  language c' = language c
  ∧ stdio c' = stdio c
  ∧ external_server c' = external_server c
  ∧ server_args c' = server_args c
  ∧ transport_args c'
    = transport_args c
      ++ [AStr "--zmq-in-port"; AInt out_port;
          AStr "--zmq-out-port"; AInt in_port]
  ∧ zmq_out_port c' = Some out_port
  ∧ zmq_in_port c' = Some in_port
  ∧ transport c' = transport c
  ∧ server c' = server c
  ∧ notifier c' = notifier c
  ∧ started c' = started c
  ∧ killed c' = killed c.
Proof.
  destruct c. unfold create_transport_sockets, bind_socket, started, killed.
  simpl. rewrite !omap_app. simpl. rewrite !app_nil_r. by repeat split.
Qed.

(** [start_transport] on any client whose [transport_args] name a
    program. *)
Lemma start_transport_spec h c program arguments :
  transport_args c = program :: arguments ->
  ∃ c', start_transport h c = Ok c'
    ∧ language c' = language c
    ∧ zmq_out_port c' = zmq_out_port c
    ∧ zmq_in_port c' = zmq_in_port c
    ∧ transport c' = true
    ∧ server c' = server c
    ∧ notifier c' = notifier c
    ∧ started c'
      = started c
        ++ [(Transport,
             map str (transport_args c)
             ++ (if stdio c then server_args c else []))]
    ∧ killed c' = killed c.
Proof.
  intros Hargs.
  destruct c as [lang fo sp sh targs sargs ext st confs zo zi tr sv nt bd md evs].
  simpl in *. subst targs.
  unfold start_transport, ensure_dirs, log_file, started, killed, exists_path.
  simpl.
  destruct st, (get_debug_level h >? 0), (DEV h), (running_under_pytest h);
    simpl;
    repeat match goal with
      | |- context [negb (?a || ?b)] => destruct (a || b); simpl
      end;
    (eexists; split; [reflexivity|]); simpl;
    rewrite !omap_app; simpl;
    rewrite ?app_nil_r, ?map_app, ?map_str_strings, ?map_str_AStr;
    by repeat split.
Qed.

(** X14. Constructing a client needs the settings ['external'], ['port'],
    ['host'] and ['cmd']: without ['external'] the constructor raises
    [KeyError] at once, although it reads the key with a default further
    down, so the default [server_settings] cannot be used. With the other
    keys present, a server that is both external and on stdio is refused
    with [AssertionError]. A client that has been constructed has all four
    keys, is not both, and counts as external whenever it uses stdio. *)
Theorem init_requires h s folder lang :
  (external s = None -> init h s folder lang = inl (KeyError "external"))
  ∧ init h no_settings folder lang = inl (KeyError "external")
  ∧ (external s = Some true -> stdio_setting s = Some true ->
     is_Some (port s) -> is_Some (host s) ->
     init h s folder lang = inl (AssertionError stdio_external_error))
  ∧ ∀ c, init h s folder lang = inr c ->
      is_Some (external s) ∧ is_Some (port s) ∧ is_Some (host s)
      ∧ is_Some (cmd s)
      ∧ stdio c = default false (stdio_setting s)
      ∧ external_server c = default false (external s) || stdio c
      ∧ stdio c && default false (external s) = false.
Proof.
  split; [|split; [reflexivity|split]].
  - intros Hext. unfold init. by rewrite Hext.
  - intros Hext Hstdio [p Hp] [ho Hho]. unfold init.
    by rewrite Hext, Hp, Hho, Hstdio.
  - intros c Hinit.
    destruct (init_inv _ _ _ _ _ Hinit)
      as (ext & p & ho & cm & text & -> & -> & -> & -> & Hboth & _ & ->).
    simpl. by repeat split.
Qed.

Lemma init_requires_witness :
  init (workstation 0) no_settings "/home/user/project" "python"
  = inl (KeyError "external").
Proof.
  apply (init_requires (workstation 0) no_settings "/home/user/project"
           "python").
Defined.

(** X15. [start_server] never gives a server its log file. It returns on
    the first line for an external server, and a client on stdio counts as
    external once constructed: so the branch that would pass [--log-file]
    to the server and [--server-log-file] to the transport is never taken.
    Whatever the settings and the debug level, [start_server] returns,
    leaves [transport_args] as they are and adds at most the verbosity flag
    to [server_args]; on stdio it does nothing at all. *)
Theorem start_server_skips_stdio h s folder lang c :
  init h s folder lang = inr c ->
  (stdio c = true -> start_server h c = Ok c)
  ∧ ∃ c', start_server h c = Ok c'
      ∧ transport_args c' = transport_args c
      ∧ server_args c'
        = server_args c
          ++ (if external_server c then [] else verbosity h lang)
      ∧ server c' = negb (external_server c).
Proof.
  intros Hinit.
  destruct (init_fields _ _ _ _ _ Hinit)
    as (Hlang & _ & Hstdio & Hext & Hboth & (program & arguments & Hargs)
        & _ & Hserver & _).
  assert (Himp : stdio c = true -> external_server c = true).
  { intros Hs. by rewrite Hext, Hs, orb_true_r. }
  destruct (start_server_spec h c program arguments Hargs Himp)
    as (c' & Hrun & Hsame & _ & _ & _ & _ & Htr & Hsv & Hs & _).
  split.
  - intros Hs'. rewrite Hrun. f_equal. apply Hsame. by apply Himp.
  - exists c'. rewrite Hlang in Hsv. do 3 (split; [done|]).
    rewrite Hs, Hserver. by destruct (external_server c).
Qed.

Lemma start_server_skips_stdio_witness :
  (stdio stdio_client = true ->
   start_server (workstation 2) stdio_client = Ok stdio_client)
  ∧ ∃ c', start_server (workstation 2) stdio_client = Ok c'
      ∧ transport_args c' = transport_args stdio_client
      ∧ server_args c'
        = server_args stdio_client
          ++ (if external_server stdio_client then []
              else verbosity (workstation 2) "python")
      ∧ server c' = negb (external_server stdio_client).
Proof.
  apply (start_server_skips_stdio (workstation 2) pyls_stdio
           "/home/user/project" "python" stdio_client).
  vm_compute. reflexivity.
Defined.

Lemma start_spec h s folder lang c :
  init h s folder lang = inr c ->
  ∃ c', start h c = Ok c'
    ∧ language c' = lang
    ∧ started c'
      = (if external_server c then []
         else [(Server, server_args c ++ verbosity h lang)])
        ++ [(Transport,
             [sys_executable h; "-u";
              osp_join h (osp_join h (LOCATION h) "transport") "main.py"]
             ++ split (server_address c)
             ++ [EmptyString; "--folder"; folder; "--transport-debug";
                 pretty (get_debug_level h);
                 if stdio c then "--stdio-server" else "--external-server";
                 "--zmq-in-port"; pretty (bind_to_random_port h 0);
                 "--zmq-out-port"; pretty (bind_to_random_port h 1)]
             ++ (if stdio c then server_args c else []))]
    ∧ zmq_out_port c' = Some (bind_to_random_port h 0)
    ∧ zmq_in_port c' = Some (bind_to_random_port h 1)
    ∧ transport c' = true
    ∧ server c' = negb (external_server c)
    ∧ notifier c' = true
    ∧ killed c' = [].
Proof.
  intros Hinit.
  destruct (init_fields _ _ _ _ _ Hinit)
    as (Hlang & Hfolder & Hstdio & Hext & Hboth & (program & arguments & Hargs)
        & Htr & Hsv & Hnt & Hbinds & _ & Hevs & Htargs).
  assert (Himp : stdio c = true -> external_server c = true).
  { intros Hs. by rewrite Hext, Hs, orb_true_r. }
  destruct (create_transport_sockets_spec h c)
    as (Hl1 & Hs1 & He1 & Hsa1 & Hta1 & Hzo1 & Hzi1 & Ht1 & Hv1 & Hn1 & Hst1 & Hk1).
  set (c1 := create_transport_sockets h c) in *.
  destruct (start_server_spec h c1 program arguments)
    as (c2 & Hrun2 & Hsame & Hl2 & _ & Hs2 & He2 & Hta2 & Hsa2 & Hv2 & Ht2
        & Hn2 & _ & Hst2 & Hk2 & Hzo2 & Hzi2);
    [by rewrite Hsa1|by rewrite Hs1, He1|].
  assert (∃ p a, transport_args c2 = p :: a) as (p & a & Hp).
  { rewrite Hta2, Hta1, Htargs. simpl. eauto. }
  destruct (start_transport_spec h c2 p a Hp)
    as (c3 & Hrun3 & Hl3 & Hzo3 & Hzi3 & Ht3 & Hv3 & Hn3 & Hst3 & Hk3).
  unfold start. fold c1. rewrite Hrun2, Hrun3.
  eexists. split; [reflexivity|].
  assert (Hlast : ∀ e c0, started (emit e c0)
                         = started c0
                           ++ match e with
                              | process_start q program arguments =>
                                  [(q, program :: arguments)]
                              | _ => []
                              end
                         ∧ killed (emit e c0)
                           = killed c0
                             ++ match e with kill q => [q] | _ => [] end).
  { intros e c0. unfold started, killed, emit. destruct c0. simpl.
    rewrite !omap_app. by destruct e. }
  rewrite !(proj1 (Hlast _ _)), !(proj2 (Hlast _ _)), !app_nil_r.
  assert (Hnot : ∀ b c0, started (set_notifier b c0) = started c0
                        ∧ killed (set_notifier b c0) = killed c0)
    by (by intros b []).
  rewrite (proj1 (Hnot _ _)), (proj2 (Hnot _ _)).
  rewrite !(proj1 (Hlast _ _)), !(proj2 (Hlast _ _)), !app_nil_r.
  assert (Hfields : ∀ e c0, language (emit e c0) = language c0
                          ∧ zmq_out_port (emit e c0) = zmq_out_port c0
                          ∧ zmq_in_port (emit e c0) = zmq_in_port c0
                          ∧ transport (emit e c0) = transport c0
                          ∧ server (emit e c0) = server c0
                          ∧ notifier (emit e c0) = notifier c0)
    by (by intros e []).
  repeat match goal with
    | |- context [?f (emit ?e ?c0)] =>
        first [ rewrite (proj1 (Hfields e c0))
              | rewrite (proj1 (proj2 (Hfields e c0)))
              | rewrite (proj1 (proj2 (proj2 (Hfields e c0))))
              | rewrite (proj1 (proj2 (proj2 (proj2 (Hfields e c0)))))
              | rewrite (proj1 (proj2 (proj2 (proj2 (proj2 (Hfields e c0))))))
              | rewrite (proj2 (proj2 (proj2 (proj2 (proj2 (Hfields e c0)))))) ]
    end.
  assert (Hset : ∀ c0, language (set_notifier true c0) = language c0
                      ∧ zmq_out_port (set_notifier true c0) = zmq_out_port c0
                      ∧ zmq_in_port (set_notifier true c0) = zmq_in_port c0
                      ∧ transport (set_notifier true c0) = transport c0
                      ∧ server (set_notifier true c0) = server c0
                      ∧ notifier (set_notifier true c0) = true)
    by (by intros []).
  destruct (Hset (emit (QSocketNotifier (getsockopt_FD h)) c3))
    as (-> & -> & -> & -> & -> & ->).
  repeat match goal with
    | |- context [?f (emit ?e ?c0)] =>
        first [ rewrite (proj1 (Hfields e c0))
              | rewrite (proj1 (proj2 (Hfields e c0)))
              | rewrite (proj1 (proj2 (proj2 (Hfields e c0))))
              | rewrite (proj1 (proj2 (proj2 (proj2 (Hfields e c0)))))
              | rewrite (proj1 (proj2 (proj2 (proj2 (proj2 (Hfields e c0)))))) ]
    end.
  split; [congruence|].
  split.
  - assert (Hst0 : started c = []) by (unfold started; by rewrite Hevs).
    rewrite Hst3, Hst2, Hst1, Hst0, app_nil_l.
    rewrite ?He1, ?Hsa1, ?Hl1, ?Hlang, ?Hs2, ?Hs1, ?Hta2, ?Hta1, ?Htargs.
    rewrite ?Hsa2, ?Hsa1, ?He1, ?Hbinds.
    f_equal. f_equal. f_equal.
    rewrite !map_app, map_str_AStr. cbn [map str app].
    rewrite <- !app_assoc. cbn [app].
    destruct (stdio c) eqn:Hs; [|reflexivity].
    by rewrite (Himp eq_refl), app_nil_r.
  - assert (Hk0 : killed c = []) by (unfold killed; by rewrite Hevs).
    rewrite Hzo3, Hzi3, Ht3, Hv3, Hv2, ?He1, Hv1, Hsv.
    rewrite Hzo2, Hzi2, Hzo1, Hzi1, Hbinds, Hk3, Hk2, Hk1, Hk0.
    by repeat split.
Qed.

Lemma stop_spec c :
  events (stop c)
  = events c
    ++ [logged INFO ("Stopping " +:+ language c +:+ " client...")]
    ++ (if notifier c then [activated_disconnect; setEnabled false] else [])
    ++ (if transport c then [kill Transport] else [])
    ++ [context_destroy]
    ++ (if server c then [kill Server] else [])
  ∧ language (stop c) = language c
  ∧ notifier (stop c) = false
  ∧ transport (stop c) = transport c
  ∧ server (stop c) = server c.
Proof.
  destruct c as [lang fo sp sh targs sargs ext st confs zo zi tr sv nt bd md evs].
  unfold stop. simpl. destruct nt, tr, sv; simpl;
    rewrite <- ?app_assoc; simpl; by repeat split.
Qed.

(** X16. What [start] launches for a client that has been constructed. It
    returns, and it has started the server first, unless the server is
    external or on stdio, with the command line of [__init__] (the Python
    interpreter with [-m] for Python, the command, the formatted arguments)
    and the verbosity flag; then the transport, with the Python
    interpreter, [-u], its script, the server's address, an empty argument
    (the address text ends with a blank), the folder, the debug level, the
    mode, the two ports crossed ([--zmq-in-port] is the port the client
    writes to) and, on stdio, the server's command line for the transport
    to run. The notifier exists from then on. *)
Theorem start_launches h s folder lang c :
  init h s folder lang = inr c ->
  ∃ c', start h c = Ok c'
    ∧ started c'
      = (if external_server c then []
         else [(Server, server_args c ++ verbosity h lang)])
        ++ [(Transport,
             [sys_executable h; "-u";
              osp_join h (osp_join h (LOCATION h) "transport") "main.py"]
             ++ split (server_address c)
             ++ [EmptyString; "--folder"; folder; "--transport-debug";
                 pretty (get_debug_level h);
                 if stdio c then "--stdio-server" else "--external-server";
                 "--zmq-in-port"; pretty (bind_to_random_port h 0);
                 "--zmq-out-port"; pretty (bind_to_random_port h 1)]
             ++ (if stdio c then server_args c else []))]
    ∧ zmq_out_port c' = Some (bind_to_random_port h 0)
    ∧ zmq_in_port c' = Some (bind_to_random_port h 1)
    ∧ transport c' = true
    ∧ server c' = negb (external_server c)
    ∧ notifier c' = true.
Proof.
  intros Hinit.
  destruct (start_spec _ _ _ _ _ Hinit)
    as (c' & Hrun & _ & Hst & Hzo & Hzi & Ht & Hv & Hn & _).
  by exists c'.
Qed.

Lemma start_launches_witness :
  let h := workstation 2 in
  let c := tcp_client in
  ∃ c', start h c = Ok c'
    ∧ started c'
      = (if external_server c then []
         else [(Server, server_args c ++ verbosity h "python")])
        ++ [(Transport,
             [sys_executable h; "-u";
              osp_join h (osp_join h (LOCATION h) "transport") "main.py"]
             ++ split (server_address c)
             ++ [EmptyString; "--folder"; "/home/user/project";
                 "--transport-debug"; pretty (get_debug_level h);
                 if stdio c then "--stdio-server" else "--external-server";
                 "--zmq-in-port"; pretty (bind_to_random_port h 0);
                 "--zmq-out-port"; pretty (bind_to_random_port h 1)]
             ++ (if stdio c then server_args c else []))]
    ∧ zmq_out_port c' = Some (bind_to_random_port h 0)
    ∧ zmq_in_port c' = Some (bind_to_random_port h 1)
    ∧ transport c' = true
    ∧ server c' = negb (external_server c)
    ∧ notifier c' = true.
Proof.
  intros h c.
  apply (start_launches h pyls_tcp "/home/user/project" "python" c).
  vm_compute. reflexivity.
Defined.

(** X17. [stop] after [start] disconnects and disables the notifier and
    drops it, kills the transport, destroys the ZeroMQ context and then
    kills the server if the client had started one. It does not forget the
    processes: a second [stop] kills them again and destroys the context
    again, and only the notifier is left alone. On a client that was never
    started, [stop] destroys the context and touches nothing else. *)
Theorem start_then_stop h s folder lang c :
  init h s folder lang = inr c ->
  ∃ c', start h c = Ok c'
    ∧ events (stop c')
      = events c'
        ++ [logged INFO ("Stopping " +:+ lang +:+ " client...");
            activated_disconnect; setEnabled false; kill Transport;
            context_destroy]
        ++ (if external_server c then [] else [kill Server])
    ∧ notifier (stop c') = false
    ∧ events (stop (stop c'))
      = events (stop c')
        ++ [logged INFO ("Stopping " +:+ lang +:+ " client...");
            kill Transport; context_destroy]
        ++ (if external_server c then [] else [kill Server])
    ∧ events (stop c)
      = events c
        ++ [logged INFO ("Stopping " +:+ lang +:+ " client...");
            context_destroy].
Proof.
  intros Hinit.
  destruct (start_spec _ _ _ _ _ Hinit)
    as (c' & Hrun & Hlang & _ & _ & _ & Ht & Hv & Hn & _).
  destruct (init_fields _ _ _ _ _ Hinit)
    as (Hlang0 & _ & _ & _ & _ & _ & Ht0 & Hv0 & Hn0 & _).
  exists c'. split; [exact Hrun|].
  destruct (stop_spec c') as (He1 & Hl1 & Hn1 & Ht1 & Hv1).
  destruct (stop_spec (stop c')) as (He2 & _).
  destruct (stop_spec c) as (He0 & _).
  rewrite He2, Hl1, Hn1, Ht1, Hv1, He1, He0.
  rewrite Hlang, Hn, Ht, Hv, Hlang0, Hn0, Ht0, Hv0.
  destruct (external_server c); simpl; by repeat split.
Qed.

Lemma start_then_stop_witness :
  let h := workstation 2 in
  let c := tcp_client in
  ∃ c', start h c = Ok c'
    ∧ events (stop c')
      = events c'
        ++ [logged INFO ("Stopping " +:+ "python" +:+ " client...");
            activated_disconnect; setEnabled false; kill Transport;
            context_destroy]
        ++ (if external_server c then [] else [kill Server])
    ∧ notifier (stop c') = false
    ∧ events (stop (stop c'))
      = events (stop c')
        ++ [logged INFO ("Stopping " +:+ "python" +:+ " client...");
            kill Transport; context_destroy]
        ++ (if external_server c then [] else [kill Server])
    ∧ events (stop c)
      = events c
        ++ [logged INFO ("Stopping " +:+ "python" +:+ " client...");
            context_destroy].
Proof.
  intros h c.
  apply (start_then_stop h pyls_tcp "/home/user/project" "python" c).
  vm_compute. reflexivity.
Defined.
